(** * DNR cross-section tools: the stick-diagram and raster-profile scripts

    A shallow embedding of [Scripts3_3_1/CreateLixpys_unloc.py] and
    [Scripts3_3_1/RasterProfiles.py].  Both scripts are straight-line
    geoprocessing programs: they validate their parameters, read three
    tables through cursors, call the GIS platform for the geometric
    primitives and write rows to output feature classes.

    - Python [float]s are an abstract numeric type [F] with the operations
      the scripts use ([PyFloat]); it is instantiated with IEEE binary64
      ([float], what the interpreter computes with) and with the real
      numbers (the idealisation in which the geometric statements are exact).
    - The platform's geometry operators ([angleAndDistanceTo], [Near],
      [measureOnLine], [Buffer], [Sort], ...) are not code of the scripts:
      they are the fields of the interface [Arcpy].  What the scripts rely
      on from them is stated as the records [PlanarLaws] and [SortLaws];
      [Planar.platform] is an implementation that runs in binary64 and
      satisfies the laws over the reals.
    - Messages, created datasets and raised exceptions are threaded through
      the writer/exception monad [Run]. *)

From Stdlib Require Import ZArith Reals Lra Lia Floats String Ascii Classical_Prop.
From stdpp Require Import base list strings sorting pretty.

Local Open Scope Z_scope.

(** ** Python values *)

(** A well id read from a table column is a number or a text; the scripts
    inspect its runtime type ([type(wellid) == str]).  Numbers are compared
    by value, an integer column against a float one too, and the ids do not
    record which of the two they come from: of Python's types the model
    keeps the difference between text and number only. *)
Inductive pyid :=
  | NumericId (n : Z)
  | TextId (s : string).

Inductive pytype := PyNumber | PyStr.

Definition type_of (v : pyid) : pytype :=
  match v with NumericId _ => PyNumber | TextId _ => PyStr end.

#[global] Instance pyid_eq_dec : EqDecision pyid.
Proof. solve_decision. Defined.

#[global] Instance pytype_eq_dec : EqDecision pytype.
Proof. solve_decision. Defined.

(** The arithmetic the scripts perform on floats.  [of_int] is Python's
    implicit int-to-float conversion in a mixed expression; [lit_0_3048] is
    the literal [0.3048]. *)
Class PyFloat (F : Type) := {
  fadd : F → F → F;
  fsub : F → F → F;
  fmul : F → F → F;
  fdiv : F → F → F;
  of_int : Z → F;
  lit_0_3048 : F
}.

(** The float nearest to the integer, ties to even, as Python converts an
    int of any size (Python raises [OverflowError] where this is infinite,
    from 2^1024 on). *)
Definition float_of_int (z : Z) : float :=
  SF2Prim (binary_normalize prec emax z 0 false).

#[global] Instance binary64 : PyFloat float := {
  fadd := PrimFloat.add;
  fsub := PrimFloat.sub;
  fmul := PrimFloat.mul;
  fdiv := PrimFloat.div;
  of_int := float_of_int;
  lit_0_3048 := 0x1.381d7dbf487fdp-2%float
}.

#[global] Instance ideal : PyFloat R := {
  fadd := Rplus;
  fsub := Rminus;
  fmul := Rmult;
  fdiv := Rdiv;
  of_int := IZR;
  lit_0_3048 := (381 / 1250)%R
}.

(** ** Messages, effects and the [Run] monad *)

(** The texts the scripts hand to [printit] and [printerror], with the
    values they are formatted with.  Only the messages that report a
    condition of the data are kept; the progress texts ("Creating empty 3d
    polyline file ...", the every-1000th-record counter, the elapsed times)
    carry no information and are left out of the log. *)
Inductive Message :=
  | MultipartWarning
  | BufferDistError
  | VerticalExaggerationError
  | ReservedFieldError
  | RasterNameError
  | StratEmptyWarning
  | WwptEmptyWarning
  | XslnEmptyWarning
  | OrphanStratWarning (count : nat)
  | OrphanWellWarning (count : nat)
  | EtidNoLineWarning (count : nat) (ids : list string)
  | LineNoWellsWarning (count : nat) (ids : list string)
  | TypeMismatchWarning
  | NoElevTopSkip (strat_oid : Z)
  | NoElevBotSkip (strat_oid : Z)
  | NoMatchSummary (count : nat).

Inductive Event :=
  | AddMessage (m : Message)
  | AddError (m : Message)
  | Created (name : string)
  | Deleted (name : string).

(** [NameError] is what reading a local before its first assignment raises;
    [ExecuteError] is what a geoprocessing tool raises when it fails. *)
Inductive Exn := SystemExit | IndexError | NameError | ExecuteError.

(** A computation logs events and either raises or returns. *)
Definition Run (A : Type) : Type := list Event * (Exn + A).

#[global] Instance run_ret : MRet Run := λ A a, ([], inr a).

#[global] Instance run_bind : MBind Run := λ A B k m,
  match m with
  | (log, inl e) => (log, inl e)
  | (log, inr a) => let '(log', r) := k a in (log ++ log', r)
  end.

Definition raise {A} (e : Exn) : Run A := ([], inl e).
Definition emit (e : Event) : Run unit := ([e], inr tt).
Definition printit (m : Message) : Run unit := emit (AddMessage m).
Definition printerror (m : Message) : Run unit := emit (AddError m).
Definition when (b : bool) (m : Run unit) : Run unit := if b then m else mret tt.

Definition log_of {A} (m : Run A) : list Event := fst m.
Definition outcome {A} (m : Run A) : Exn + A := snd m.

(** [for x in l: body], the body threading an accumulator. *)
Fixpoint for_each {A S} (l : list A) (body : S → A → Run S) (s : S) : Run S :=
  match l with
  | [] => mret s
  | x :: l' => s' ← body s x; for_each l' body s'
  end.

(** Python indexing: a negative index counts from the end, an index out of
    range raises [IndexError]. *)
Definition py_pos {A} (l : list A) (i : Z) : option nat :=
  let n := Z.of_nat (length l) in
  let j := if i <? 0 then n + i else i in
  if (0 <=? j) && (j <? n) then Some (Z.to_nat j) else None.

Definition py_get {A} (l : list A) (i : Z) : Run A :=
  match py_pos l i with
  | Some j => match l !! j with Some x => mret x | None => raise IndexError end
  | None => raise IndexError
  end.

Definition py_set {A} (l : list A) (i : Z) (x : A) : Run (list A) :=
  match py_pos l i with
  | Some j => mret (<[j := x]> l)
  | None => raise IndexError
  end.

(** [l.remove(x)]: the first occurrence of [x] goes (the scripts call it
    only under [if x in l]). *)
Fixpoint list_remove {A} `{EqDecision A} (x : A) (l : list A) : list A :=
  match l with
  | [] => []
  | y :: l' => if decide (y = x) then l' else y :: list_remove x l'
  end.

(** [for field in unwanted: if field in names: names.remove(field)]. *)
Definition remove_fields (unwanted names : list string) : list string :=
  fold_left (λ names field, if decide (field ∈ names) then list_remove field names else names)
            unwanted names.

(** ** Geometry and the platform interface *)

Section Geometry.
Context {F : Type}.

Record Point := mkPoint { X : F; Y : F }.
Record PointZ := mkPointZ { X3 : F; Y3 : F; Z3 : F }.

(** A polyline geometry has a first part and possibly more; it is multipart
    when there is more than one. *)
Record Polyline := mkPolyline { part0 : list PointZ; more_parts : list (list PointZ) }.

Definition isMultipart (g : Polyline) : bool :=
  match more_parts g with [] => false | _ => true end.

Definition getPart0 (g : Polyline) : list PointZ := part0 g.

Record NearResult := mkNear { near_x : F; near_y : F; near_dist : F }.

(** A two-point line and the arguments of the buffer tool. *)
Record Segment := mkSegment { seg_a : Point; seg_b : Point }.
Inductive LineSide := FULL | LEFT | RIGHT.
Inductive LineEnd := ROUND | FLAT.

(** The input tables, as the cursors read them: the cross-section lines
    ([SHAPE@] and the id field), the well points ([OID@], the well id and
    cross-section id fields, [SHAPE@X], [SHAPE@Y]) and the stratigraphy
    records ([OID@], the well id field, [elev_top], [elev_bot]; a null
    field reads as [None]). *)
Record XsLine := mkXsLine { xs_shape : Polyline; xs_etid : string }.

Record WellPoint := mkWellPoint {
  wp_oid : Z; wp_wellid : pyid; wp_etid : string; wp_x : F; wp_y : F }.

Record StratRow := mkStratRow {
  st_oid : Z; st_wellid : pyid; elev_top : option F; elev_bot : option F }.

End Geometry.
Arguments XsLine F : clear implicits.
Arguments WellPoint F : clear implicits.
Arguments StratRow F : clear implicits.
Arguments Point F : clear implicits.
Arguments PointZ F : clear implicits.
Arguments Polyline F : clear implicits.
Arguments NearResult F : clear implicits.
Arguments Segment F : clear implicits.

(** The operators of the GIS platform the scripts call, all with the
    [PLANAR] method.  A bearing is only ever passed from
    [angleAndDistanceTo] to [pointFromAngleAndDistance], so its type is left
    to the implementation. *)
Class Arcpy (F : Type) := {
  Angle : Type;
  Polygon : Type;
  angleAndDistanceTo : Point F → Point F → Angle * F;
  pointFromAngleAndDistance : Point F → Angle → F → Point F;
  Near : Point F → list (Point F) → NearResult F;
  measureOnLine : list (Point F) → Point F → F;
  Buffer : Segment F → F → LineSide → LineEnd → Polygon;
  Sort : ∀ A : Type, (A → pyid) → list A → list A;
  InterpolateShape : string → list (XsLine F) → list (XsLine F)
}.

(** ** CreateLixpys_unloc.py *)

Module Lixpys.
Section Script.
Context {F : Type} {num : PyFloat F} {arcpy : Arcpy F}.

(** The tool parameters that reach the computation: [buffer_dist] and
    [vertical_exaggeration] are parsed with [int], [well_stick_width] with
    [float]. *)
Record Params := mkParams {
  buffer_dist : Z;
  vertical_exaggeration : Z;
  well_stick_width : F
}.

(** *** Sections 5 and 6: data QC *)

(** The cursor loop sets [multipart] at the first multipart shape and
    breaks; the message is the only consequence. *)
Definition multipart_check (xsln_file_orig : list (XsLine F)) : Run unit :=
  let multipart := existsb (λ row, isMultipart (xs_shape row)) xsln_file_orig in
  when multipart (printerror MultipartWarning).

Definition check_params (p : Params) : Run unit :=
  (if buffer_dist p <=? 0
   then printerror BufferDistError;; raise SystemExit
   else mret tt);;
  (if vertical_exaggeration p <=? 0
   then printerror VerticalExaggerationError;; raise SystemExit
   else mret tt).

Definition count_checks (strat_table : list (StratRow F))
    (wwpt_file_orig : list (WellPoint F)) (xsln_file_orig : list (XsLine F)) : Run unit :=
  let strat_count := length strat_table in
  when (strat_count =? 0)%nat (printerror StratEmptyWarning);;
  let wwpt_count := length wwpt_file_orig in
  when (wwpt_count =? 0)%nat (printerror WwptEmptyWarning);;
  let xsln_count := length xsln_file_orig in
  when (xsln_count =? 0)%nat (printerror XslnEmptyWarning).

(** *** Section 7: the three tables against each other *)

(** [if x not in l: l.append(x)] over a cursor. *)
Definition append_new {A} `{EqDecision A} (l : list A) (x : A) : list A :=
  if decide (x ∈ l) then l else l ++ [x].

Definition collect {A B} `{EqDecision B} (field : A → B) (rows : list A) : list B :=
  fold_left (λ l row, append_new l (field row)) rows [].

(** [for x in l: if x not in k: listprint.append(x)]. *)
Definition not_in {A} `{EqDecision A} (l k : list A) : list A :=
  filter (λ x, x ∉ k) l.

Record IdLists := mkIdLists {
  strat_wellid_list : list pyid;
  wwpt_wellid_list : list pyid;
  wwpt_etid_list : list string;
  xsln_etid_list : list string
}.

Definition id_lists (strat_table : list (StratRow F))
    (wwpt_file_orig : list (WellPoint F)) (xsln_file_orig : list (XsLine F)) : IdLists :=
  {| strat_wellid_list := collect st_wellid strat_table;
     wwpt_wellid_list := collect wp_wellid wwpt_file_orig;
     wwpt_etid_list := collect wp_etid wwpt_file_orig;
     xsln_etid_list := collect xs_etid xsln_file_orig |}.

(** The four set differences, each reported when it is not empty, then the
    comparison of the types of the first well id of either list.  The result
    is [wellid_is_numeric]. *)
Definition reconcile (ids : IdLists) : Run bool :=
  let listprint := not_in (strat_wellid_list ids) (wwpt_wellid_list ids) in
  when (0 <? length listprint)%nat (printit (OrphanStratWarning (length listprint)));;
  let listprint := not_in (wwpt_wellid_list ids) (strat_wellid_list ids) in
  when (0 <? length listprint)%nat (printit (OrphanWellWarning (length listprint)));;
  let listprint := not_in (wwpt_etid_list ids) (xsln_etid_list ids) in
  when (0 <? length listprint)%nat (printit (EtidNoLineWarning (length listprint) listprint));;
  let listprint := not_in (xsln_etid_list ids) (wwpt_etid_list ids) in
  when (0 <? length listprint)%nat (printit (LineNoWellsWarning (length listprint) listprint));;
  s0 ← py_get (strat_wellid_list ids) 0;
  w0 ← py_get (wwpt_wellid_list ids) 0;
  when (bool_decide (type_of s0 ≠ type_of w0)) (printerror TypeMismatchWarning);;
  s0 ← py_get (strat_wellid_list ids) 0;
  mret (negb (bool_decide (type_of s0 = PyStr))).

(** *** Section 13: the extended cross-section lines *)

Definition point_of (v : PointZ F) : Point F := mkPoint (X3 v) (Y3 v).

(** One iteration of the loop over [xsln_file_orig]: the vertices of part 0,
    the bearing of the first segment read backwards and of the last segment
    read forwards, the two projected points, and the two assignments
    [geompointlist[0] = new_beg], [geompointlist[-1] = new_end]. *)
Definition extend_line (buffer_dist : Z) (line : XsLine F) : Run (list (Point F) * string) :=
  let et_id := xs_etid line in
  let geompointlist := map point_of (getPart0 (xs_shape line)) in
  beg_pt ← py_get geompointlist 0;
  beg_pt2 ← py_get geompointlist 1;
  let beg_angle := fst (angleAndDistanceTo beg_pt2 beg_pt) in
  end_pt ← py_get geompointlist (-1);
  end_pt2 ← py_get geompointlist (-2);
  let end_angle := fst (angleAndDistanceTo end_pt2 end_pt) in
  let new_beg := pointFromAngleAndDistance beg_pt beg_angle (of_int buffer_dist) in
  let new_end := pointFromAngleAndDistance end_pt end_angle (of_int buffer_dist) in
  geompointlist ← py_set geompointlist 0 new_beg;
  geompointlist ← py_set geompointlist (-1) new_end;
  mret (geompointlist, et_id).

Definition extend_lines (buffer_dist : Z) (xsln_file_orig : list (XsLine F))
    : Run (list (list (Point F) * string)) :=
  for_each xsln_file_orig
    (λ xsln_temp line, row ← extend_line buffer_dist line; mret (xsln_temp ++ [row])) [].


(** *** Section 14: near analysis and measure along the extended line *)

(** A well point with the fields the near analysis fills in. *)
Record WellNear := mkWellNear {
  wn_point : WellPoint F;
  NEAR_X : F;
  NEAR_Y : F;
  NEAR_DIST : F;
  OnLine_DIST : F
}.

(** [arcpy.analysis.Near] on one point, then the body of the update cursor:
    the measure of the nearest point along [xsln_geometry], less the buffer
    distance.  (The table keeps [OnLine_DIST] in single precision; the
    rounding when the row is stored is not part of the model.) *)
Definition locate_well (buffer_dist : Z) (xsln_geometry : list (Point F))
    (well : WellPoint F) : WellNear :=
  let near := Near (mkPoint (wp_x well) (wp_y well)) xsln_geometry in
  let x := near_x near in
  let y := near_y near in
  let point := mkPoint x y in
  let n := measureOnLine xsln_geometry point in
  {| wn_point := well; NEAR_X := x; NEAR_Y := y; NEAR_DIST := near_dist near;
     OnLine_DIST := fsub n (of_int buffer_dist) |}.

(** [arcpy.analysis.Select] with the clause ["etid_field" = 'et_id']. *)
Definition select_by_etid (wwpt_file_temp : list (WellPoint F)) (et_id : string)
    : list (WellPoint F) :=
  filter (λ w, wp_etid w = et_id) wwpt_file_temp.

Definition wells_of_line (buffer_dist : Z) (wwpt_file_temp : list (WellPoint F))
    (line : list (Point F) * string) : list WellNear :=
  let '(xsln_geometry, et_id) := line in
  map (locate_well buffer_dist xsln_geometry) (select_by_etid wwpt_file_temp et_id).

(** The feature dataset [unloc_wwpt_by_xs]: one feature class per
    cross-section id, named after it; with [overwriteOutput] a second line
    with the same id replaces the class of the first. *)
Definition Dataset : Type := list (string * list WellNear).

Fixpoint write_class (name : string) (rows : list WellNear) (fd : Dataset) : Dataset :=
  match fd with
  | [] => [(name, rows)]
  | (name', rows') :: fd' =>
      if decide (name' = name) then (name, rows) :: fd'
      else (name', rows') :: write_class name rows fd'
  end.

Definition near_analysis (buffer_dist : Z) (wwpt_file_temp : list (WellPoint F))
    (xsln_temp : list (list (Point F) * string)) : Dataset :=
  fold_left
    (λ fd line, write_class ("wwpt_" +:+ snd line)
                  (wells_of_line buffer_dist wwpt_file_temp line) fd)
    xsln_temp [].

(** *** Section 16: [arcpy.management.Merge] of the per-line classes *)
Definition merge (fd : Dataset) : list WellNear := concat (map snd fd).

(** The list of inputs is a required argument of the tool: with no class
    in the dataset (no cross-section line) it fails. *)
Definition Merge (fd : Dataset) : Run (list WellNear) :=
  match fd with
  | [] => raise ExecuteError
  | _ :: _ => mret (merge fd)
  end.

(** *** Section 17: the 3D and 2D stick segments *)

(** The locals the inner cursor loop assigns for each matching well. *)
Record Locals := mkLocals {
  real_x : F;
  real_y : F;
  x_coord : F;
  dist : F;
  pct_dist : F;
  et_id : string
}.

Record Row3D := mkRow3D {
  shape3 : PointZ F * PointZ F;
  wellid3 : pyid; etid3 : string; x_coord3 : F; y_coord3 : F;
  z_top3 : F; z_bot3 : F; strat_oid3 : Z
}.

Record Row2D := mkRow2D {
  shape2 : Segment F;
  wellid2 : pyid; etid2 : string; x_coord2 : F; y_coord2 : F;
  z_top2 : F; z_bot2 : F; strat_oid2 : Z; distance2 : F; pct_dist2 : F
}.

(** The search cursor on the merged well points with [where_clause]: the
    rows whose well id field equals [wellid].  [wellid_is_numeric] only
    selects how the literal is written ([field=5] or [field='5']); the
    evaluation of the clause is the database's. *)
Definition where_clause (wellid_is_numeric : bool) (wellid : pyid) (well : WellNear) : bool :=
  bool_decide (wp_wellid (wn_point well) = wellid).

(** The body of [for well in wwpt]. *)
Definition cursor_step (p : Params) (st : nat * option Locals) (well : WellNear)
    : nat * option Locals :=
  let i := S (fst st) in
  let x_coord_meters := OnLine_DIST well in
  let x_coord_feet := fdiv x_coord_meters lit_0_3048 in
  let x_coord := fdiv x_coord_feet (of_int (vertical_exaggeration p)) in
  let dist := NEAR_DIST well in
  let pct_dist := fmul (fdiv dist (of_int (buffer_dist p))) (of_int 200) in
  (i, Some {| real_x := wp_x (wn_point well); real_y := wp_y (wn_point well);
              x_coord := x_coord; dist := dist; pct_dist := pct_dist;
              et_id := wp_etid (wn_point well) |}).

(** What the loop over the stratigraphy records carries: the list of
    unmatched well ids, the rows inserted so far, and the locals of the
    inner loop, which keep their last values from one record to the next. *)
Record Sticks := mkSticks {
  nomatch_list : list pyid;
  polylinefile_3d : list Row3D;
  polylinefile_2d : list Row2D;
  locals : option Locals
}.

Definition stick_rows (row : StratRow F) (real_z_top real_z_bot : F) (v : Locals)
    : Row3D * Row2D :=
  let real_pointA := mkPointZ (real_x v) (real_y v) real_z_top in
  let real_pointB := mkPointZ (real_x v) (real_y v) real_z_bot in
  let pointA := mkPoint (x_coord v) real_z_top in
  let pointB := mkPoint (x_coord v) real_z_bot in
  ({| shape3 := (real_pointA, real_pointB);
      wellid3 := st_wellid row; etid3 := et_id v;
      x_coord3 := real_x v; y_coord3 := real_y v;
      z_top3 := real_z_top; z_bot3 := real_z_bot; strat_oid3 := st_oid row |},
   {| shape2 := mkSegment pointA pointB;
      wellid2 := st_wellid row; etid2 := et_id v;
      x_coord2 := real_x v; y_coord2 := real_y v;
      z_top2 := real_z_top; z_bot2 := real_z_bot; strat_oid2 := st_oid row;
      distance2 := dist v; pct_dist2 := pct_dist v |}).

(** The body of [for row in strat_records]. *)
Definition stick_step (p : Params) (wellid_is_numeric : bool) (wwpt_merge : list WellNear)
    (s : Sticks) (row : StratRow F) : Run Sticks :=
  let strat_oid := st_oid row in
  let wellid := st_wellid row in
  match elev_top row with
  | None => printit (NoElevTopSkip strat_oid);; mret s
  | Some real_z_top =>
    match elev_bot row with
    | None => printit (NoElevBotSkip strat_oid);; mret s
    | Some real_z_bot =>
      let wwpt := filter (λ w, where_clause wellid_is_numeric wellid w) wwpt_merge in
      let '(i, vars) := fold_left (cursor_step p) wwpt (0%nat, locals s) in
      if (i =? 0)%nat
      then mret {| nomatch_list := nomatch_list s ++ [wellid];
                   polylinefile_3d := polylinefile_3d s;
                   polylinefile_2d := polylinefile_2d s;
                   locals := vars |}
      else match vars with
           | None => raise NameError
           | Some v =>
               let '(r3, r2) := stick_rows row real_z_top real_z_bot v in
               mret {| nomatch_list := nomatch_list s;
                       polylinefile_3d := polylinefile_3d s ++ [r3];
                       polylinefile_2d := polylinefile_2d s ++ [r2];
                       locals := vars |}
           end
    end
  end.

Definition no_sticks : Sticks :=
  {| nomatch_list := []; polylinefile_3d := []; polylinefile_2d := []; locals := None |}.

Definition make_sticks (p : Params) (wellid_is_numeric : bool) (wwpt_merge : list WellNear)
    (strat_table : list (StratRow F)) : Run Sticks :=
  s ← for_each strat_table (stick_step p wellid_is_numeric wwpt_merge) no_sticks;
  when (0 <? length (nomatch_list s))%nat
    (printit (NoMatchSummary (length (nomatch_list s))));;
  mret s.

(** *** Section 18: the stratigraphy fields joined to the output *)

Definition fields_not_to_join : list string :=
  ["OBJECTID"; "Join_Count"; "TARGET_FID"; "JOIN_FID"; "c5st_seq_no"; "relateid";
   "depth_top"; "depth_bot"; "wellid"; "elev_top"; "elev_bot"; "bdrkelev";
   "depth2bdrk"; "first_bdrk"; "last_strat"; "ohtopunit"; "ohtopelev"; "ohbotunit";
   "ohbotelev"; "botholelev"; "aquifer"; "Join_Count_1"; "TARGET_FID_1"; "et_id";
   "utmn"; "utme_min"; "utme_max"; "mn_et_id"; "BUFF_DIST"; "ORIG_FID"; "strat_orig";
   "GlobalID"]%string.

(** The names of all the fields of the stratigraphy table, less those. *)
Definition relevant_strat_fields (strat_table_fields_all : list string) : list string :=
  remove_fields fields_not_to_join strat_table_fields_all.

(** *** Section 20: the stick polygons *)

Definition bufferdist (p : Params) : F :=
  fadd (fdiv (of_int 130) (of_int (vertical_exaggeration p))) (well_stick_width p).

(** [arcpy.analysis.Buffer] on the 2D line file (the empty [line_side]
    argument is the default, both sides; the end type is [FLAT]); every
    polygon keeps the attributes of its line. *)
Definition buffer_rows (p : Params) (rows : list Row2D) : list (Polygon * Row2D) :=
  map (λ r, (Buffer (shape2 r) (bufferdist p) FULL FLAT, r)) rows.

(** [arcpy.management.Sort] on the well id field. *)
Definition polygon_file (p : Params) (rows : list Row2D) : list (Polygon * Row2D) :=
  Sort _ (λ r, wellid2 (snd r)) (buffer_rows p rows).

(** *** The whole script *)

(** What the run leaves: the rows of the two line files (the files
    themselves are deleted in section 21, once the polygons are made) and
    the sorted polygon file. *)
Record Outputs := mkOutputs {
  out_sticks : Sticks;
  lixpys_unloc_2d_poly : list (Polygon * Row2D)
}.

(** The tool run, sections 5 to 21.  Left out: the spatial reference
    message of section 4 and the [FieldExists] checks of section 5, which
    depend on the schema of the tables and only write messages; the
    [JoinField] of the descriptive attributes (sections 18 and 19), which
    adds columns to the rows and changes neither their number nor their
    geometry; failures of the platform itself, other than that of [Merge]
    on a dataset with no class. *)
Definition main (p : Params) (strat_table : list (StratRow F))
    (wwpt_file_orig : list (WellPoint F)) (xsln_file_orig : list (XsLine F)) : Run Outputs :=
  multipart_check xsln_file_orig;;
  check_params p;;
  count_checks strat_table wwpt_file_orig xsln_file_orig;;
  wellid_is_numeric ← reconcile (id_lists strat_table wwpt_file_orig xsln_file_orig);
  emit (Created "lixpys_unloc_3d");;
  emit (Created "lixpys_unloc_2d_line");;
  emit (Created "unloc_wwpt_by_xs");;
  let wwpt_file_temp := wwpt_file_orig in
  emit (Created "wwpt_unloc_temp");;
  emit (Created "xsln_temp");;
  xsln_temp ← extend_lines (buffer_dist p) xsln_file_orig;
  let wwpt_by_xs_fd := near_analysis (buffer_dist p) wwpt_file_temp xsln_temp in
  emit (Deleted "wwpt_unloc_temp");;
  wwpt_merge ← Merge wwpt_by_xs_fd;
  emit (Created "wwpt_unloc_merge");;
  sticks ← make_sticks p wellid_is_numeric wwpt_merge strat_table;
  emit (Created "lixpys_unloc_2d_poly_temp");;
  let polygons := polygon_file p (polylinefile_2d sticks) in
  emit (Created "lixpys_unloc_2d_poly");;
  emit (Created "lixpy_unloc_2d_poly_prj");;
  emit (Deleted "lixpys_unloc_2d_poly_temp");;
  emit (Deleted "unloc_wwpt_by_xs");;
  emit (Deleted "wwpt_unloc_merge");;
  emit (Deleted "xsln_temp");;
  emit (Deleted "lixpys_unloc_2d_line");;
  emit (Deleted "lixpys_unloc_3d");;
  mret {| out_sticks := sticks; lixpys_unloc_2d_poly := polygons |}.

End Script.

Arguments Params F : clear implicits.
Arguments WellNear F : clear implicits.
Arguments Locals F : clear implicits.
Arguments Row3D F : clear implicits.
Arguments Row2D F : clear implicits.
Arguments Sticks F : clear implicits.
Arguments Dataset F : clear implicits.

End Lixpys.

(** ** RasterProfiles.py *)

Module RasterProfiles.
Section Script.
Context {F : Type} {num : PyFloat F} {arcpy : Arcpy F}.

Record Params := mkParams {
  rasters_input : string;
  xsln_etid_field : string;
  vertical_exaggeration : Z;
  merge_boolean : bool
}.

(** *** Section 2A: data QC *)

Definition count_check (xsln_file_orig : list (XsLine F)) : Run unit :=
  let xsln_count := length xsln_file_orig in
  when (xsln_count =? 0)%nat (printerror XslnEmptyWarning).

Definition multipart_check (xsln_file_orig : list (XsLine F)) : Run unit :=
  let multipart := existsb (λ row, isMultipart (xs_shape row)) xsln_file_orig in
  when multipart (printerror MultipartWarning).

(** [name in xsln_etid_field] on two strings is the substring test. *)
Fixpoint is_substring (name field : string) : bool :=
  String.prefix name field ||
  match field with
  | EmptyString => false
  | String _ field' => is_substring name field'
  end.

Definition reserved_fields : list string :=
  ["OBJECTID"; "SHAPE"; "Shape"; "Shape_Length"]%string.

Definition check_reserved (xsln_etid_field : string) : Run unit :=
  for_each reserved_fields
    (λ _ name, if is_substring name xsln_etid_field
               then printerror ReservedFieldError;; raise SystemExit
               else mret tt) tt.

Definition check_ve (vertical_exaggeration : Z) : Run unit :=
  if vertical_exaggeration <=? 0
  then printerror VerticalExaggerationError;; raise SystemExit
  else mret tt.

(** *** Section 3: the list of rasters *)

(** [str.split(";")]. *)
Fixpoint split (sep : ascii) (s : string) : list string :=
  match s with
  | EmptyString => [EmptyString]
  | String c s' =>
      if Ascii.eqb c sep then EmptyString :: split sep s'
      else match split sep s' with
           | piece :: pieces => String c piece :: pieces
           | [] => [String c EmptyString]
           end
  end.

(** [str.isalnum()], on ASCII text: not empty, and letters and digits only.
    (Python also accepts the letters and digits beyond ASCII; what is proved
    of the check of the raster names is stated for ASCII text.) *)
Definition alnum (c : ascii) : bool :=
  let n := nat_of_ascii c in
  ((48 <=? n) && (n <=? 57) || (65 <=? n) && (n <=? 90) || (97 <=? n) && (n <=? 122))%nat.

Fixpoint all_alnum (s : string) : bool :=
  match s with
  | EmptyString => true
  | String c s' => alnum c && all_alnum s'
  end.

Definition isalnum (s : string) : bool :=
  match s with EmptyString => false | _ => all_alnum s end.

Definition check_rasters (rasters_list : list string) : Run unit :=
  for_each rasters_list
    (λ _ raster, if negb (isalnum raster)
                 then printerror RasterNameError;; raise SystemExit
                 else mret tt) tt.

(** *** Section 5: the fields of the line file joined to the profiles *)

Definition fields_no_join (xsln_etid_field : string) : list string :=
  [xsln_etid_field; "OBJECTID"; "Shape"; "Join_Count"; "TARGET_FID"; "Shape_Length"]%string.

Definition xsln_field_names (xsln_etid_field : string) (xsln_fields : list string)
    : list string :=
  remove_fields (fields_no_join xsln_etid_field) xsln_fields.

(** *** Section 6: from the 3D profiles to the 2D profiles *)

(** [arcpy.management.MultipartToSinglepart]: every part becomes a feature
    with the attributes of the feature it comes from. *)
Definition MultipartToSinglepart (rows : list (XsLine F)) : list (XsLine F) :=
  flat_map (λ row, map (λ part, mkXsLine (mkPolyline part []) (xs_etid row))
                       (part0 (xs_shape row) :: more_parts (xs_shape row))) rows.

(** The body of [for vertex in feature[1].getPart(0)]. *)
Definition vertex_2d (vertical_exaggeration : Z) (xsln_geometry : list (Point F))
    (vertex : PointZ F) : Point F :=
  let xy_mapview := mkPoint (X3 vertex) (Y3 vertex) in
  let x_2d_meters := measureOnLine xsln_geometry xy_mapview in
  let x_2d_feet := fdiv x_2d_meters lit_0_3048 in
  let x_2d := fdiv x_2d_feet (of_int vertical_exaggeration) in
  let y_2d := Z3 vertex in
  mkPoint x_2d y_2d.

(** A row of a 2D profile feature class, with the class it is inserted in. *)
Record ProfileRow := mkProfileRow {
  pr_class : string;
  pr_shape : list (Point F);
  pr_etid : string;
  raster_name : string
}.

Definition profile_row (p : Params) (profiles_2d name : string)
    (xsln_geometry : list (Point F)) (feature : XsLine F) : ProfileRow :=
  let et_id := xs_etid feature in
  let profile_pointlist :=
    map (vertex_2d (vertical_exaggeration p) xsln_geometry) (getPart0 (xs_shape feature)) in
  {| pr_class := profiles_2d; pr_shape := profile_pointlist;
     pr_etid := et_id; raster_name := name |}.

(** The body of [for line in xsln]: the line's own (unextended) geometry,
    the profiles selected by its id, one row for each of them. *)
Definition line_profiles (p : Params) (profiles_2d name : string)
    (profiles_3d : list (XsLine F)) (line : XsLine F) : list ProfileRow :=
  let et_id := xs_etid line in
  let xsln_geometry :=
    map (λ apex, mkPoint (X3 apex) (Y3 apex)) (getPart0 (xs_shape line)) in
  let profile_by_xs_file := filter (λ f, xs_etid f = et_id) profiles_3d in
  map (profile_row p profiles_2d name xsln_geometry) profile_by_xs_file.

Definition merged_profiles_2d_name (p : Params) : string :=
  "all_profiles_2d" +:+ "_" +:+ pretty (vertical_exaggeration p) +:+ "x".

(** The body of [for raster in rasters_list]; a raster name that passed
    [check_rasters] has no path separator, so it is its own base name. *)
Definition raster_step (p : Params) (xsln_file_orig : list (XsLine F))
    (rows : list ProfileRow) (raster : string) : Run (list ProfileRow) :=
  let name := raster in
  let profiles_3d_multi := InterpolateShape raster xsln_file_orig in
  emit (Created (name +:+ "_profiles3d_multi"));;
  let profiles_3d := MultipartToSinglepart profiles_3d_multi in
  emit (Created (name +:+ "_profiles3d"));;
  emit (Deleted (name +:+ "_profiles3d_multi"));;
  emit (Created (name +:+ "profiles3d_byxsec"));;
  profiles_2d ←
    (if merge_boolean p then mret (merged_profiles_2d_name p)
     else let profiles_2d_name :=
            name +:+ "_profiles2d" +:+ "_" +:+ pretty (vertical_exaggeration p) +:+ "x" in
          emit (Created profiles_2d_name);; mret profiles_2d_name);
  let new_rows := flat_map (line_profiles p profiles_2d name profiles_3d) xsln_file_orig in
  emit (Deleted (name +:+ "profiles3d_byxsec"));;
  emit (Deleted (name +:+ "_profiles3d"));;
  mret (rows ++ new_rows).

Definition main (p : Params) (xsln_file_orig : list (XsLine F)) : Run (list ProfileRow) :=
  count_check xsln_file_orig;;
  multipart_check xsln_file_orig;;
  check_reserved (xsln_etid_field p);;
  check_ve (vertical_exaggeration p);;
  let rasters_list := split ";" (rasters_input p) in
  check_rasters rasters_list;;
  when (merge_boolean p) (emit (Created (merged_profiles_2d_name p)));;
  for_each rasters_list (raster_step p xsln_file_orig) [].

End Script.

Arguments ProfileRow F : clear implicits.

End RasterProfiles.

(** ** A planar implementation of the platform

    Euclidean geometry written once over the float operations, so that it
    runs in binary64 and can be reasoned about over the reals.  A bearing is
    kept as its direction cosines; two coincident points have the bearing of
    north.  [Near] is the closest point over all segments, the first segment
    winning a tie; [measureOnLine] is the length of the line up to that
    point. *)

Class Metric (F : Type) := {
  fsqrt : F → F;
  fltb : F → F → bool;
  feqb : F → F → bool
}.

#[global] Instance binary64_metric : Metric float := {
  fsqrt := PrimFloat.sqrt;
  fltb := PrimFloat.ltb;
  feqb := PrimFloat.eqb
}.

#[global] Instance ideal_metric : Metric R := {
  fsqrt := R_sqrt.sqrt;
  fltb := λ x y, if Rlt_dec x y then true else false;
  feqb := λ x y, if Req_dec_T x y then true else false
}.

(** The database's order on well ids: numbers by value, texts by character
    codes, a number before a text. *)
Definition id_leb (a b : pyid) : bool :=
  match a, b with
  | NumericId m, NumericId n => m <=? n
  | TextId s, TextId t => String.leb s t
  | NumericId _, TextId _ => true
  | TextId _, NumericId _ => false
  end.

Definition id_le (a b : pyid) : Prop := id_leb a b = true.

#[global] Instance id_le_dec a b : Decision (id_le a b).
Proof. unfold id_le. apply _. Defined.

Module Planar.
Section Geometry.
Context {F : Type} {num : PyFloat F} {met : Metric F}.

Definition zero : F := of_int 0.
Definition one : F := of_int 1.
Definition sq (x : F) : F := fmul x x.

Definition distance (p q : Point F) : F :=
  fsqrt (fadd (sq (fsub (X q) (X p))) (sq (fsub (Y q) (Y p)))).

Definition bearing (p q : Point F) : (F * F) * F :=
  let d := distance p q in
  (if feqb d zero then (zero, one)
   else (fdiv (fsub (X q) (X p)) d, fdiv (fsub (Y q) (Y p)) d), d).

Definition forward (p : Point F) (u : F * F) (d : F) : Point F :=
  mkPoint (fadd (X p) (fmul d (fst u))) (fadd (Y p) (fmul d (snd u))).

Definition clamp01 (t : F) : F :=
  if fltb t zero then zero else if fltb one t then one else t.

(** The point of the segment from [a] to [b] closest to [p]. *)
Definition project_on (a b p : Point F) : Point F :=
  let vx := fsub (X b) (X a) in
  let vy := fsub (Y b) (Y a) in
  let l2 := fadd (sq vx) (sq vy) in
  if feqb l2 zero then a
  else
    let t := clamp01 (fdiv (fadd (fmul (fsub (X p) (X a)) vx)
                                 (fmul (fsub (Y p) (Y a)) vy)) l2) in
    mkPoint (fadd (X a) (fmul t vx)) (fadd (Y a) (fmul t vy)).

Fixpoint segments (line : list (Point F)) : list (Point F * Point F) :=
  match line with
  | a :: (b :: _) as rest => (a, b) :: segments rest
  | _ => []
  end.

(** The walk along the segments keeps the cumulated length and, for the
    closest point met so far, its distance to [p], itself and its measure. *)
Record Best := mkBest { cum : F; best_d : F; best_pt : Point F; best_m : F }.

Definition walk_step (p : Point F) (s : Best) (seg : Point F * Point F) : Best :=
  let '(a, b) := seg in
  let c := project_on a b p in
  let d := distance p c in
  if fltb d (best_d s)
  then {| cum := fadd (cum s) (distance a b); best_d := d; best_pt := c;
          best_m := fadd (cum s) (distance a c) |}
  else {| cum := fadd (cum s) (distance a b); best_d := best_d s;
          best_pt := best_pt s; best_m := best_m s |}.

Definition walk (p : Point F) (line : list (Point F)) : option Best :=
  match segments line with
  | [] => None
  | (a, b) :: segs =>
      let c := project_on a b p in
      Some (fold_left (walk_step p) segs
              {| cum := distance a b; best_d := distance p c; best_pt := c;
                 best_m := distance a c |})
  end.

Definition near (p : Point F) (line : list (Point F)) : NearResult F :=
  match walk p line with
  | Some s => mkNear (X (best_pt s)) (Y (best_pt s)) (best_d s)
  | None => mkNear (X p) (Y p) zero
  end.

Definition measure (line : list (Point F)) (p : Point F) : F :=
  match walk p line with
  | Some s => best_m s
  | None => zero
  end.

(** A buffer polygon is kept as the request that defines it. *)
Inductive Region := Buffered (s : Segment F) (d : F) (side : LineSide) (ends : LineEnd).

(** Every raster is the level surface of height zero, and no vertex is
    added along the line. *)
Definition drape (raster : string) (lines : list (XsLine F)) : list (XsLine F) :=
  map (λ line,
         let flat := map (λ v, mkPointZ (X3 v) (Y3 v) zero) in
         mkXsLine (mkPolyline (flat (part0 (xs_shape line)))
                              (map flat (more_parts (xs_shape line))))
                  (xs_etid line)) lines.

Definition sort_by {A} (key : A → pyid) (l : list A) : list A :=
  merge_sort (λ x y, id_le (key x) (key y)) l.

#[global] Instance platform : Arcpy F := {
  Angle := F * F;
  Polygon := Region;
  angleAndDistanceTo := bearing;
  pointFromAngleAndDistance := forward;
  Near := near;
  measureOnLine := measure;
  Buffer := Buffered;
  Sort := @sort_by;
  InterpolateShape := drape
}.

End Geometry.
End Planar.

(** * Properties *)

(** ** The [Run] monad *)

Section RunFacts.
Context {A B : Type}.

Lemma bind_mret (a : A) (k : A → Run B) : (mret a ≫= k) = k a.
Proof. unfold mbind, run_bind, mret, run_ret. by destruct (k a). Qed.

Lemma bind_raised (log : list Event) (e : Exn) (k : A → Run B) :
  ((log, inl e) : Run A) ≫= k = (log, inl e).
Proof. reflexivity. Qed.

Lemma bind_returned (log : list Event) (a : A) (k : A → Run B) :
  ((log, inr a) : Run A) ≫= k = (log ++ log_of (k a), outcome (k a)).
Proof. unfold mbind, run_bind, log_of, outcome. by destruct (k a). Qed.

Lemma bind_raise (e : Exn) (k : A → Run B) : (raise e ≫= k) = raise e.
Proof. reflexivity. Qed.

Lemma run_eta (m : Run A) : m = (log_of m, outcome m).
Proof. by destruct m. Qed.

Lemma bind_ext (m : Run A) (k k' : A → Run B) :
  (∀ a, k a = k' a) → m ≫= k = m ≫= k'.
Proof.
  intros Hk. destruct m as [log [e|a]]; [done|].
  unfold mbind, run_bind. by rewrite Hk.
Qed.

End RunFacts.

Lemma when_returns (b : bool) (e : Event) :
  when b (emit e) = ((if b then [e] else []), inr tt).
Proof. by destruct b. Qed.

(** The run stopped on [SystemExit] and no dataset had been created or
    deleted: it did nothing but write messages. *)
Definition is_message (e : Event) : Prop :=
  match e with AddMessage _ | AddError _ => True | _ => False end.

Definition halted_before_output {A} (r : Run A) : Prop :=
  outcome r = inl SystemExit ∧ Forall is_message (log_of r).

(** The run went on: it did not stop on an exception. *)
Definition completed {A} (r : Run A) : Prop := ∃ a, outcome r = inr a.

(** ** Data QC *)

Section QC.
Context {F : Type} {num : PyFloat F} {arcpy : Arcpy F}.

Lemma lixpys_multipart_check_run (xsln : list (XsLine F)) :
  Lixpys.multipart_check xsln =
    ((if existsb (λ row, isMultipart (xs_shape row)) xsln
      then [AddError MultipartWarning] else []), inr tt).
Proof. unfold Lixpys.multipart_check. apply when_returns. Qed.

Lemma raster_multipart_check_run (xsln : list (XsLine F)) :
  RasterProfiles.multipart_check xsln =
    ((if existsb (λ row, isMultipart (xs_shape row)) xsln
      then [AddError MultipartWarning] else []), inr tt).
Proof. unfold RasterProfiles.multipart_check. apply when_returns. Qed.

Lemma check_params_ok (p : Lixpys.Params F) :
  0 < Lixpys.buffer_dist p → 0 < Lixpys.vertical_exaggeration p →
  Lixpys.check_params p = mret tt.
Proof.
  intros Hb Hv. unfold Lixpys.check_params.
  destruct (Z.leb_spec (Lixpys.buffer_dist p) 0); [lia|].
  destruct (Z.leb_spec (Lixpys.vertical_exaggeration p) 0); [lia|].
  reflexivity.
Qed.

Lemma check_params_exit (p : Lixpys.Params F) :
  Lixpys.buffer_dist p ≤ 0 ∨ Lixpys.vertical_exaggeration p ≤ 0 →
  Lixpys.check_params p =
    ([AddError (if Lixpys.buffer_dist p <=? 0 then BufferDistError
                else VerticalExaggerationError)], inl SystemExit).
Proof.
  intros Hp. unfold Lixpys.check_params.
  destruct (Z.leb_spec (Lixpys.buffer_dist p) 0); [reflexivity|].
  destruct (Z.leb_spec (Lixpys.vertical_exaggeration p) 0); [reflexivity|lia].
Qed.

Lemma count_checks_run (strat : list (StratRow F)) (wwpt : list (WellPoint F))
    (xsln : list (XsLine F)) :
  Lixpys.count_checks strat wwpt xsln =
    ((if (length strat =? 0)%nat then [AddError StratEmptyWarning] else []) ++
     (if (length wwpt =? 0)%nat then [AddError WwptEmptyWarning] else []) ++
     (if (length xsln =? 0)%nat then [AddError XslnEmptyWarning] else []), inr tt).
Proof.
  unfold Lixpys.count_checks, printerror. rewrite !when_returns.
  rewrite !bind_returned. reflexivity.
Qed.

Lemma count_check_run (xsln : list (XsLine F)) :
  RasterProfiles.count_check xsln =
    ((if (length xsln =? 0)%nat then [AddError XslnEmptyWarning] else []), inr tt).
Proof. unfold RasterProfiles.count_check. apply when_returns. Qed.

Lemma check_reserved_run (field : string) :
  RasterProfiles.check_reserved field = ([], inr tt) ∨
  RasterProfiles.check_reserved field = ([AddError ReservedFieldError], inl SystemExit).
Proof.
  unfold RasterProfiles.check_reserved, RasterProfiles.reserved_fields. cbn [for_each].
  repeat match goal with
         | |- context [RasterProfiles.is_substring ?n field] =>
             destruct (RasterProfiles.is_substring n field);
             [right; reflexivity|rewrite bind_mret]
         end.
  left; reflexivity.
Qed.

Lemma check_ve_exit (v : Z) :
  v ≤ 0 → RasterProfiles.check_ve v = ([AddError VerticalExaggerationError], inl SystemExit).
Proof.
  intros Hv. unfold RasterProfiles.check_ve.
  by destruct (Z.leb_spec v 0); [|lia].
Qed.

Lemma Forall_is_message_if (b : bool) (m : Message) :
  Forall is_message (if b then [AddError m] else []).
Proof. destruct b; repeat constructor. Qed.

(** C6. A buffer distance or a vertical exaggeration that is not positive
    stops the stick-diagram script on [SystemExit] after its error message,
    and a vertical exaggeration that is not positive stops the
    raster-profile script the same way; in either script nothing has been
    created by then, no line has been extended and no geometry written. *)
Theorem C6_nonpositive_parameter_aborts
    (p : Lixpys.Params F) (strat : list (StratRow F)) (wwpt : list (WellPoint F))
    (rp : RasterProfiles.Params) (xsln : list (XsLine F)) :
  (Lixpys.buffer_dist p ≤ 0 ∨ Lixpys.vertical_exaggeration p ≤ 0 →
     halted_before_output (Lixpys.main p strat wwpt xsln)) ∧
  (RasterProfiles.vertical_exaggeration rp ≤ 0 →
     halted_before_output (RasterProfiles.main rp xsln)).
Proof.
  split.
  - intros Hp. unfold Lixpys.main, halted_before_output.
    rewrite lixpys_multipart_check_run, bind_returned.
    rewrite (check_params_exit p Hp), bind_raised.
    cbn [log_of outcome fst snd]. split; [done|].
    apply Forall_app. split; [apply Forall_is_message_if|repeat constructor].
  - intros Hv. unfold RasterProfiles.main, halted_before_output.
    rewrite count_check_run, bind_returned.
    rewrite raster_multipart_check_run, bind_returned.
    destruct (check_reserved_run (RasterProfiles.xsln_etid_field rp)) as [-> | ->].
    + rewrite bind_returned, (check_ve_exit _ Hv), bind_raised.
      cbn [log_of outcome fst snd]. split; [done|].
      rewrite !Forall_app. repeat split;
        [apply Forall_is_message_if..|constructor|repeat constructor].
    + rewrite bind_raised. cbn [log_of outcome fst snd]. split; [done|].
      rewrite !Forall_app. repeat split;
        [apply Forall_is_message_if..|repeat constructor].
Qed.

End QC.

(** ** What the QC checks do with multipart lines and empty tables *)

Section Checks.
Context {F : Type} {num : PyFloat F} {arcpy : Arcpy F}.

(** The line reduced to its part 0, which is all the stick-diagram script
    reads of a shape. *)
Definition first_part (line : XsLine F) : XsLine F :=
  mkXsLine (mkPolyline (part0 (xs_shape line)) []) (xs_etid line).

Lemma first_part_single (xsln : list (XsLine F)) :
  existsb (λ row, isMultipart (xs_shape row)) (map first_part xsln) = false.
Proof. induction xsln as [|line xsln IH]; [done|]. cbn. exact IH. Qed.

Lemma collect_map {A A' B} `{EqDecision B} (g : A → A') (f : A' → B) (rows : list A) :
  Lixpys.collect f (map g rows) = Lixpys.collect (λ r, f (g r)) rows.
Proof.
  unfold Lixpys.collect. generalize (@nil B).
  induction rows as [|r rows IH]; intros acc; [done|]. cbn. apply IH.
Qed.

Lemma for_each_map {A A' S} (g : A → A') (body : S → A' → Run S) (l : list A) (s : S) :
  for_each (map g l) body s = for_each l (λ s x, body s (g x)) s.
Proof.
  revert s. induction l as [|x l IH]; intros s; [done|]. cbn.
  apply bind_ext. intros s'. apply IH.
Qed.

Lemma extend_lines_first_part (bd : Z) (xsln : list (XsLine F)) :
  Lixpys.extend_lines bd (map first_part xsln) = Lixpys.extend_lines bd xsln.
Proof. unfold Lixpys.extend_lines. by rewrite for_each_map. Qed.

Lemma id_lists_first_part (strat : list (StratRow F)) (wwpt : list (WellPoint F))
    (xsln : list (XsLine F)) :
  Lixpys.id_lists strat wwpt (map first_part xsln) = Lixpys.id_lists strat wwpt xsln.
Proof. unfold Lixpys.id_lists. by rewrite collect_map. Qed.

(** C5 (amended). A multipart cross-section line is reported with one
    error-level message and the run goes on: the check returns in both
    scripts, whatever the lines are, and the stick-diagram script then does
    exactly what it does on the part 0 of every line. *)
Theorem C5_multipart_reported_run_continues
    (p : Lixpys.Params F) (strat : list (StratRow F)) (wwpt : list (WellPoint F))
    (xsln : list (XsLine F)) :
  let report :=
    if existsb (λ row, isMultipart (xs_shape row)) xsln
    then [AddError MultipartWarning] else [] in
  Lixpys.multipart_check xsln = (report, inr tt) ∧
  RasterProfiles.multipart_check xsln = (report, inr tt) ∧
  Lixpys.main p strat wwpt xsln =
    (report ++ log_of (Lixpys.main p strat wwpt (map first_part xsln)),
     outcome (Lixpys.main p strat wwpt (map first_part xsln))).
Proof.
  intros report. split; [apply lixpys_multipart_check_run|].
  split; [apply raster_multipart_check_run|].
  unfold Lixpys.main.
  rewrite !lixpys_multipart_check_run, first_part_single, !bind_returned.
  rewrite !count_checks_run, length_map, id_lists_first_part, extend_lines_first_part.
  reflexivity.
Qed.

(** C7 (amended). An empty stratigraphy table, well point file or
    cross-section line file is reported with an error-level message, one for
    each empty input, and the check returns: it does not stop the run, in
    either script. *)
Theorem C7_empty_input_reported_check_returns
    (strat : list (StratRow F)) (wwpt : list (WellPoint F)) (xsln : list (XsLine F)) :
  Lixpys.count_checks strat wwpt xsln =
    ((if bool_decide (strat = []) then [AddError StratEmptyWarning] else []) ++
     (if bool_decide (wwpt = []) then [AddError WwptEmptyWarning] else []) ++
     (if bool_decide (xsln = []) then [AddError XslnEmptyWarning] else []), inr tt) ∧
  RasterProfiles.count_check xsln =
    ((if bool_decide (xsln = []) then [AddError XslnEmptyWarning] else []), inr tt).
Proof.
  rewrite count_checks_run, count_check_run.
  by destruct strat, wwpt, xsln.
Qed.

(** *** The reconciliation of the identifier lists *)

Lemma collect_head {A B} `{EqDecision B} (f : A → B) (r : A) (rows : list A) :
  Lixpys.collect f (r :: rows) !! 0%nat = Some (f r).
Proof.
  unfold Lixpys.collect. cbn.
  assert (Hacc : ∀ acc : list B, acc !! 0%nat = Some (f r) →
            fold_left (λ l row, Lixpys.append_new l (f row)) rows acc !! 0%nat = Some (f r)).
  { induction rows as [|r' rows IH]; intros acc Hacc; [done|]. cbn. apply IH.
    unfold Lixpys.append_new. case_decide; [done|].
    destruct acc; [done|]. exact Hacc. }
  apply Hacc. unfold Lixpys.append_new.
  case_decide as Hin; [by apply not_elem_of_nil in Hin|done].
Qed.

Lemma py_get_first {A} (x : A) (l : list A) : py_get (x :: l) 0 = mret x.
Proof.
  unfold py_get, py_pos. cbn [length].
  replace (0 <? 0) with false by done.
  replace ((0 <=? 0) && (0 <? Z.of_nat (S (length l)))) with true; [done|].
  symmetry. apply andb_true_intro. split; [done|]. apply Z.ltb_lt. lia.
Qed.

(** The differences are those of the specification's example. *)
Example orphans_of_example :
  Lixpys.not_in [NumericId 1; NumericId 2; NumericId 3]
                [NumericId 2; NumericId 3; NumericId 4] = [NumericId 1] ∧
  Lixpys.not_in [NumericId 2; NumericId 3; NumericId 4]
                [NumericId 1; NumericId 2; NumericId 3] = [NumericId 4].
Proof. split; vm_compute; reflexivity. Qed.

(** When neither table is empty the reconciliation only writes messages
    and returns. *)
Lemma reconcile_returns (s : StratRow F) (strat : list (StratRow F))
    (w : WellPoint F) (wwpt : list (WellPoint F)) (xsln : list (XsLine F)) :
  outcome (Lixpys.reconcile (Lixpys.id_lists (s :: strat) (w :: wwpt) xsln))
    = inr (negb (bool_decide (type_of (st_wellid s) = PyStr))) ∧
  Forall is_message (log_of (Lixpys.reconcile (Lixpys.id_lists (s :: strat) (w :: wwpt) xsln))).
Proof.
  unfold Lixpys.reconcile, Lixpys.id_lists, printit, printerror.
  cbn [Lixpys.strat_wellid_list Lixpys.wwpt_wellid_list Lixpys.wwpt_etid_list
       Lixpys.xsln_etid_list].
  pose proof (collect_head st_wellid s strat) as Hs.
  pose proof (collect_head wp_wellid w wwpt) as Hw.
  destruct (Lixpys.collect st_wellid (s :: strat)) as [|s0 sl]; [done|].
  destruct (Lixpys.collect wp_wellid (w :: wwpt)) as [|w0 wl]; [done|].
  cbn in Hs, Hw. injection Hs as ->. injection Hw as ->.
  repeat (rewrite ?when_returns, ?bind_returned, ?py_get_first, ?bind_mret; cbn beta).
  cbn [log_of outcome fst snd]. split; [done|].
  rewrite !Forall_app. repeat split;
    repeat match goal with |- context [if ?b then _ else _] => destruct b end;
    repeat constructor.
Qed.

(** C9 (the code's behaviour on the failing input). With an empty
    stratigraphy table the list of its well ids is empty, and the type
    check of the reconciliation reads its first element: the step raises
    [IndexError] and the run stops there. *)
Theorem C9_reconcile_raises_on_empty_strat
    (wwpt : list (WellPoint F)) (xsln : list (XsLine F)) :
  outcome (Lixpys.reconcile (Lixpys.id_lists [] wwpt xsln)) = inl IndexError.
Proof.
  unfold Lixpys.reconcile, Lixpys.id_lists, printit.
  cbn [Lixpys.strat_wellid_list Lixpys.wwpt_wellid_list Lixpys.wwpt_etid_list
       Lixpys.xsln_etid_list].
  rewrite !when_returns, !bind_returned. reflexivity.
Qed.

End Checks.

(** ** The extended reference line *)

Section Indexing.
Context {A : Type}.
Implicit Types (l : list A) (x : A).

Lemma py_pos_nat l (i : nat) : (i < length l)%nat → py_pos l (Z.of_nat i) = Some i.
Proof.
  intros Hi. unfold py_pos.
  destruct (Z.ltb_spec (Z.of_nat i) 0); [lia|].
  destruct (Z.leb_spec 0 (Z.of_nat i)); [|lia].
  destruct (Z.ltb_spec (Z.of_nat i) (Z.of_nat (length l))); [|lia].
  cbn. by rewrite Nat2Z.id.
Qed.

Lemma py_pos_neg l (k : nat) :
  (0 < k ≤ length l)%nat → py_pos l (- Z.of_nat k) = Some (length l - k)%nat.
Proof.
  intros Hk. unfold py_pos.
  destruct (Z.ltb_spec (- Z.of_nat k) 0); [|lia].
  destruct (Z.leb_spec 0 (Z.of_nat (length l) + - Z.of_nat k)); [|lia].
  destruct (Z.ltb_spec (Z.of_nat (length l) + - Z.of_nat k) (Z.of_nat (length l))); [|lia].
  cbn. f_equal. lia.
Qed.

Lemma py_get_nat l (i : nat) x : l !! i = Some x → py_get l (Z.of_nat i) = mret x.
Proof.
  intros Hx. unfold py_get.
  rewrite py_pos_nat by (by eapply lookup_lt_Some). by rewrite Hx.
Qed.

Lemma py_get_neg l (k : nat) x :
  (0 < k ≤ length l)%nat → l !! (length l - k)%nat = Some x →
  py_get l (- Z.of_nat k) = mret x.
Proof.
  intros Hk Hx. unfold py_get. rewrite py_pos_neg by done. by rewrite Hx.
Qed.

Lemma py_set_nat l (i : nat) x :
  (i < length l)%nat → py_set l (Z.of_nat i) x = mret (<[i := x]> l).
Proof. intros Hi. unfold py_set. by rewrite py_pos_nat. Qed.

Lemma py_set_neg l (k : nat) x :
  (0 < k ≤ length l)%nat → py_set l (- Z.of_nat k) x = mret (<[(length l - k)%nat := x]> l).
Proof. intros Hk. unfold py_set. by rewrite py_pos_neg. Qed.

(** Fewer than two vertices: reading [geompointlist[1]] raises. *)
Lemma py_get_short l (i : nat) : (length l ≤ i)%nat → py_get l (Z.of_nat i) = raise IndexError.
Proof.
  intros Hi. unfold py_get, py_pos.
  destruct (Z.ltb_spec (Z.of_nat i) 0); [lia|].
  destruct (Z.leb_spec 0 (Z.of_nat i)); [|lia].
  by destruct (Z.ltb_spec (Z.of_nat i) (Z.of_nat (length l))); [lia|].
Qed.

End Indexing.

Section Extension.
Context {F : Type} {num : PyFloat F} {arcpy : Arcpy F}.

(** The point at distance [d] from [p] along the bearing from [q] to [p]. *)
Definition project_from (q p : Point F) (d : F) : Point F :=
  pointFromAngleAndDistance p (fst (angleAndDistanceTo q p)) d.

(** The vertex list of the extended line, when the line has its four
    reference vertices. *)
Lemma extend_line_run (bd : Z) (line : XsLine F) (v0 v1 vp vl : Point F) :
  let pts := map Lixpys.point_of (getPart0 (xs_shape line)) in
  let n := length pts in
  (2 ≤ n)%nat →
  pts !! 0%nat = Some v0 → pts !! 1%nat = Some v1 →
  pts !! (n - 2)%nat = Some vp → pts !! (n - 1)%nat = Some vl →
  Lixpys.extend_line bd line =
    mret (<[(n - 1)%nat := project_from vp vl (of_int bd)]>
            (<[0%nat := project_from v1 v0 (of_int bd)]> pts), xs_etid line).
Proof.
  intros pts n Hn H0 H1 Hp Hl. unfold Lixpys.extend_line. fold pts.
  pose proof (py_get_nat pts 0 v0 H0) as E0.
  pose proof (py_get_nat pts 1 v1 H1) as E1.
  pose proof (py_get_neg pts 1 vl) as El.
  pose proof (py_get_neg pts 2 vp) as Ep.
  pose proof (py_set_nat pts 0 (project_from v1 v0 (of_int bd))) as S0.
  pose proof (py_set_neg (<[0%nat := project_from v1 v0 (of_int bd)]> pts) 1
                (project_from vp vl (of_int bd))) as Sl.
  rewrite length_insert in Sl. fold n in El, Ep, S0, Sl.
  change (Z.of_nat 0) with 0 in E0, S0. change (Z.of_nat 1) with 1 in E1.
  change (- Z.of_nat 1) with (-1) in El, Sl. change (- Z.of_nat 2) with (-2) in Ep.
  rewrite E0, bind_mret, E1, bind_mret.
  rewrite El, bind_mret by (done || lia).
  rewrite Ep, bind_mret by (done || lia).
  unfold project_from in S0, Sl.
  rewrite S0, bind_mret by lia.
  rewrite Sl, bind_mret by lia.
  reflexivity.
Qed.

(** C3. For a line with at least two vertices the extended line is
    produced, it has as many vertices as the line, its first vertex is the
    point projected from vertex 0 along the bearing from vertex 1 to vertex
    0 at the buffer distance, its last vertex is the point projected from
    the last vertex along the bearing from the one before it, and every
    vertex in between is the line's own. *)
Theorem C3_extended_line_replaces_end_vertices (bd : Z) (line : XsLine F) :
  let pts := map Lixpys.point_of (getPart0 (xs_shape line)) in
  let n := length pts in
  (2 ≤ n)%nat → 0 < bd →
  ∃ v0 v1 vp vl ext,
    pts !! 0%nat = Some v0 ∧ pts !! 1%nat = Some v1 ∧
    pts !! (n - 2)%nat = Some vp ∧ pts !! (n - 1)%nat = Some vl ∧
    Lixpys.extend_line bd line = mret (ext, xs_etid line) ∧
    length ext = n ∧
    ext !! 0%nat = Some (project_from v1 v0 (of_int bd)) ∧
    ext !! (n - 1)%nat = Some (project_from vp vl (of_int bd)) ∧
    ∀ i, (0 < i < n - 1)%nat → ext !! i = pts !! i.
Proof.
  intros pts n Hn _.
  destruct (lookup_lt_is_Some_2 pts 0) as [v0 H0]; [fold n; lia|].
  destruct (lookup_lt_is_Some_2 pts 1) as [v1 H1]; [fold n; lia|].
  destruct (lookup_lt_is_Some_2 pts (n - 2)) as [vp Hp]; [fold n; lia|].
  destruct (lookup_lt_is_Some_2 pts (n - 1)) as [vl Hl]; [fold n; lia|].
  exists v0, v1, vp, vl,
    (<[(n - 1)%nat := project_from vp vl (of_int bd)]>
       (<[0%nat := project_from v1 v0 (of_int bd)]> pts)).
  split_and!; [done..| | | | |].
  - by apply extend_line_run.
  - by rewrite !length_insert.
  - rewrite list_lookup_insert_ne by lia.
    apply list_lookup_insert_eq. fold n. lia.
  - apply list_lookup_insert_eq. rewrite length_insert. fold n. lia.
  - intros i Hi. by rewrite !list_lookup_insert_ne by lia.
Qed.

End Extension.

(** ** The stick segments *)

Section Sticks.
Context {F : Type} {num : PyFloat F} {arcpy : Arcpy F}.
Implicit Types (p : Lixpys.Params F) (wwpt : list (Lixpys.WellNear F))
  (row : StratRow F) (s : Lixpys.Sticks F) (well : Lixpys.WellNear F).

(** The drawing abscissa as the specification writes it: the measure
    brought from metres to feet, then divided by the exaggeration. *)
Definition x_drawing (measure : F) (verticalExaggeration : Z) : F :=
  fdiv (fdiv measure lit_0_3048) (of_int verticalExaggeration).

(** The locals once the cursor has read [well]. *)
Definition locals_of p well : Lixpys.Locals F :=
  {| Lixpys.real_x := wp_x (Lixpys.wn_point well);
     Lixpys.real_y := wp_y (Lixpys.wn_point well);
     Lixpys.x_coord := x_drawing (Lixpys.OnLine_DIST well) (Lixpys.vertical_exaggeration p);
     Lixpys.dist := Lixpys.NEAR_DIST well;
     Lixpys.pct_dist :=
       fmul (fdiv (Lixpys.NEAR_DIST well) (of_int (Lixpys.buffer_dist p))) (of_int 200);
     Lixpys.et_id := wp_etid (Lixpys.wn_point well) |}.

(** The rows the cursor with the where clause yields for a record. *)
Definition matches (numeric : bool) wwpt row : list (Lixpys.WellNear F) :=
  filter (λ w, Lixpys.where_clause numeric (st_wellid row) w) wwpt.

(** Every pass of the cursor loop overwrites the locals: after the loop
    they are those of the last row read, and [i] has counted the rows. *)
Lemma cursor_loop p (l : list (Lixpys.WellNear F)) (i : nat) (v : option (Lixpys.Locals F)) :
  fold_left (Lixpys.cursor_step p) l (i, v) =
    ((length l + i)%nat,
     match last l with Some well => Some (locals_of p well) | None => v end).
Proof.
  revert i v. induction l as [|well l IH]; intros i v; [done|].
  cbn [fold_left]. unfold Lixpys.cursor_step at 2. cbn [fst].
  rewrite IH. f_equal; [cbn; lia|].
  destruct l as [|w l]; [reflexivity|]. rewrite last_cons_cons.
  destruct (last (w :: l)) eqn:Hlast; [reflexivity|]. by apply last_None in Hlast.
Qed.

Definition null_elev row : bool :=
  match elev_top row, elev_bot row with Some _, Some _ => false | _, _ => true end.

Definition skip_message row : Event :=
  AddMessage (match elev_top row with
              | None => NoElevTopSkip (st_oid row)
              | Some _ => NoElevBotSkip (st_oid row)
              end).

Definition unmatched (numeric : bool) wwpt row : bool :=
  negb (null_elev row) && bool_decide (matches numeric wwpt row = []).

(** The two rows a record is drawn as, if it is. *)
Definition drawn p (numeric : bool) wwpt row : option (Lixpys.Row3D F * Lixpys.Row2D F) :=
  match elev_top row, elev_bot row, last (matches numeric wwpt row) with
  | Some real_z_top, Some real_z_bot, Some well =>
      Some (Lixpys.stick_rows row real_z_top real_z_bot (locals_of p well))
  | _, _, _ => None
  end.

Lemma stick_step_null p numeric wwpt s row :
  null_elev row = true →
  Lixpys.stick_step p numeric wwpt s row = ([skip_message row], inr s).
Proof.
  unfold null_elev, Lixpys.stick_step, skip_message.
  destruct (elev_top row); [destruct (elev_bot row); [done|]|]; reflexivity.
Qed.

Lemma stick_step_unmatched p numeric wwpt s row :
  unmatched numeric wwpt row = true →
  ∃ v, Lixpys.stick_step p numeric wwpt s row =
    mret {| Lixpys.nomatch_list := Lixpys.nomatch_list s ++ [st_wellid row];
            Lixpys.polylinefile_3d := Lixpys.polylinefile_3d s;
            Lixpys.polylinefile_2d := Lixpys.polylinefile_2d s;
            Lixpys.locals := v |}.
Proof.
  unfold unmatched, null_elev, Lixpys.stick_step. intros Hu.
  destruct (elev_top row); [|done]. destruct (elev_bot row); [|done].
  apply bool_decide_eq_true in Hu. unfold matches in Hu.
  rewrite cursor_loop, Hu. by eexists.
Qed.

Lemma stick_step_drawn p numeric wwpt s row r3 r2 :
  drawn p numeric wwpt row = Some (r3, r2) →
  ∃ v, Lixpys.stick_step p numeric wwpt s row =
    mret {| Lixpys.nomatch_list := Lixpys.nomatch_list s;
            Lixpys.polylinefile_3d := Lixpys.polylinefile_3d s ++ [r3];
            Lixpys.polylinefile_2d := Lixpys.polylinefile_2d s ++ [r2];
            Lixpys.locals := v |}.
Proof.
  unfold drawn, Lixpys.stick_step, matches. intros Hd.
  destruct (elev_top row) as [top|]; [|done].
  destruct (elev_bot row) as [bot|]; [|done].
  rewrite cursor_loop.
  destruct (last _) as [well|] eqn:Hlast; [|done].
  destruct (filter _ wwpt) as [|w l] eqn:Hf; [done|].
  cbn [length Nat.add Nat.eqb]. apply (inj Some) in Hd. rewrite Hd. by eexists.
Qed.

(** A record is skipped for a null elevation, or unmatched, or drawn. *)
Lemma fate_cases p numeric wwpt row :
  (null_elev row = true ∧ unmatched numeric wwpt row = false ∧
     drawn p numeric wwpt row = None) ∨
  (null_elev row = false ∧ unmatched numeric wwpt row = true ∧
     drawn p numeric wwpt row = None) ∨
  (null_elev row = false ∧ unmatched numeric wwpt row = false ∧
     ∃ r, drawn p numeric wwpt row = Some r).
Proof.
  unfold unmatched, drawn, null_elev.
  destruct (elev_top row); [|by left]. destruct (elev_bot row); [|by left].
  right. destruct (matches numeric wwpt row) as [|w l] eqn:Hm.
  - by left.
  - right. split_and!; [done..|].
    destruct (last (w :: l)) eqn:Hl; [by eexists|].
    by apply last_None in Hl.
Qed.

(** The loop over the stratigraphy records, from any state: it never
    raises, it logs the skip message of every record with a null elevation,
    appends the well id of every unmatched record to [nomatch_list] and the
    two rows of every other record to the two line files. *)
Lemma sticks_loop p numeric wwpt (strat : list (StratRow F)) s :
  ∃ v, for_each strat (Lixpys.stick_step p numeric wwpt) s =
    (map skip_message (filter (λ row, null_elev row) strat),
     inr {| Lixpys.nomatch_list :=
              Lixpys.nomatch_list s ++
              map st_wellid (filter (λ row, unmatched numeric wwpt row) strat);
            Lixpys.polylinefile_3d :=
              Lixpys.polylinefile_3d s ++ (omap (drawn p numeric wwpt) strat).*1;
            Lixpys.polylinefile_2d :=
              Lixpys.polylinefile_2d s ++ (omap (drawn p numeric wwpt) strat).*2;
            Lixpys.locals := v |}).
Proof.
  revert s. induction strat as [|row strat IH]; intros s.
  - exists (Lixpys.locals s). cbn. rewrite !app_nil_r. by destruct s.
  - cbn [for_each omap list_omap].
    destruct (fate_cases p numeric wwpt row) as [(Hn & Hu & Hd)|[(Hn & Hu & Hd)|(Hn & Hu & [[r3 r2] Hd])]].
    + rewrite (stick_step_null _ _ _ _ _ Hn), bind_returned.
      destruct (IH s) as [v ->]. exists v. cbn [log_of outcome fst snd].
      rewrite Hd, !filter_cons, Hn, Hu. by cbn.
    + destruct (stick_step_unmatched p numeric wwpt s row Hu) as [v' ->].
      rewrite bind_mret.
      match goal with |- context [for_each strat _ ?s'] => destruct (IH s') as [v ->] end.
      exists v. cbn [Lixpys.nomatch_list Lixpys.polylinefile_3d Lixpys.polylinefile_2d].
      rewrite Hd, !filter_cons, Hn, Hu. cbn. by rewrite <- app_assoc.
    + destruct (stick_step_drawn p numeric wwpt s row r3 r2 Hd) as [v' ->].
      rewrite bind_mret.
      match goal with |- context [for_each strat _ ?s'] => destruct (IH s') as [v ->] end.
      exists v. cbn [Lixpys.nomatch_list Lixpys.polylinefile_3d Lixpys.polylinefile_2d].
      rewrite Hd, !filter_cons, Hn, Hu. cbn. by rewrite <- !app_assoc.
Qed.

End Sticks.

Section StickClaims.
Context {F : Type} {num : PyFloat F} {arcpy : Arcpy F}.
Implicit Types (p : Lixpys.Params F) (wwpt : list (Lixpys.WellNear F))
  (row : StratRow F) (s : Lixpys.Sticks F) (well : Lixpys.WellNear F).

Lemma map_fmap {A B} (f : A → B) (l : list A) : map f l = f <$> l.
Proof. induction l as [|x l IH]; [done|]. cbn. by rewrite IH. Qed.

(** The summary of the unmatched records, written once after the loop. *)
Definition nomatch_summary (nomatch : list pyid) : list Event :=
  if (0 <? length nomatch)%nat
  then [AddMessage (NoMatchSummary (length nomatch))] else [].

Lemma make_sticks_run p numeric wwpt (strat : list (StratRow F)) :
  ∃ v,
    let nomatch := map st_wellid (filter (λ row, unmatched numeric wwpt row) strat) in
    Lixpys.make_sticks p numeric wwpt strat =
      (map skip_message (filter (λ row, null_elev row) strat) ++ nomatch_summary nomatch,
       inr {| Lixpys.nomatch_list := nomatch;
              Lixpys.polylinefile_3d := (omap (drawn p numeric wwpt) strat).*1;
              Lixpys.polylinefile_2d := (omap (drawn p numeric wwpt) strat).*2;
              Lixpys.locals := v |}).
Proof.
  destruct (sticks_loop p numeric wwpt strat Lixpys.no_sticks) as [v Hloop].
  exists v. cbn zeta. unfold Lixpys.make_sticks. rewrite Hloop.
  cbn [Lixpys.no_sticks Lixpys.nomatch_list Lixpys.polylinefile_3d
       Lixpys.polylinefile_2d app].
  rewrite bind_returned. unfold printit. rewrite when_returns, bind_returned.
  cbn [log_of outcome fst snd Lixpys.nomatch_list]. rewrite app_nil_r. reflexivity.
Qed.

(** Every record is in exactly one of the three classes. *)
Lemma fates_partition p numeric wwpt (strat : list (StratRow F)) :
  length strat =
    (length (omap (drawn p numeric wwpt) strat) +
     length (filter (λ row, null_elev row) strat) +
     length (filter (λ row, unmatched numeric wwpt row) strat))%nat.
Proof.
  induction strat as [|row strat IH]; [done|].
  cbn [length omap list_omap]. rewrite !filter_cons.
  destruct (fate_cases p numeric wwpt row)
    as [(Hn & Hu & Hd)|[(Hn & Hu & Hd)|(Hn & Hu & [r Hd])]];
    rewrite Hn, Hu, Hd; repeat case_decide; try done; cbn [length]; lia.
Qed.

(** C4 (amended). A stratigraphy record with a null top or bottom
    elevation is skipped, with no default, and reported by its own message
    when it is met; it is not counted.  The one count of the run, written
    once after the loop, is that of the records with no matching well point.
    Every record is drawn as one 3D and one 2D segment, or reported as
    skipped, or counted as unmatched. *)
Theorem C4_null_elevation_skipped_and_reported p numeric wwpt (strat : list (StratRow F)) :
  ∃ s,
    Lixpys.make_sticks p numeric wwpt strat =
      (map skip_message (filter (λ row, null_elev row) strat) ++
       nomatch_summary (Lixpys.nomatch_list s), inr s) ∧
    Lixpys.nomatch_list s =
      map st_wellid (filter (λ row, unmatched numeric wwpt row) strat) ∧
    length (Lixpys.polylinefile_3d s) = length (Lixpys.polylinefile_2d s) ∧
    length strat =
      (length (Lixpys.polylinefile_2d s) +
       length (filter (λ row, null_elev row) strat) +
       length (Lixpys.nomatch_list s))%nat.
Proof.
  destruct (make_sticks_run p numeric wwpt strat) as [v Hrun]. cbn zeta in Hrun.
  match type of Hrun with _ = (_, inr ?s0) => exists s0 end.
  split; [exact Hrun|].
  cbn [Lixpys.nomatch_list Lixpys.polylinefile_3d Lixpys.polylinefile_2d].
  split; [done|]. rewrite ?length_fmap, ?length_map. split; [done|].
  apply fates_partition.
Qed.

(** C10. When the cursor yields one or more well points for a record with
    both elevations, the record is drawn once, as one 3D row and one 2D row,
    and those rows hold the coordinates, the measure, the offset and the
    cross-section id of the last well point the cursor yields; the rows read
    before it leave no trace. *)
Theorem C10_last_matching_well_point_wins p numeric wwpt s row
    (real_z_top real_z_bot : F) (earlier : list (Lixpys.WellNear F)) well :
  elev_top row = Some real_z_top →
  elev_bot row = Some real_z_bot →
  matches numeric wwpt row = earlier ++ [well] →
  let point := Lixpys.wn_point well in
  let x := x_drawing (Lixpys.OnLine_DIST well) (Lixpys.vertical_exaggeration p) in
  Lixpys.stick_step p numeric wwpt s row =
    mret {| Lixpys.nomatch_list := Lixpys.nomatch_list s;
            Lixpys.polylinefile_3d := Lixpys.polylinefile_3d s ++
              [{| Lixpys.shape3 := (mkPointZ (wp_x point) (wp_y point) real_z_top,
                                    mkPointZ (wp_x point) (wp_y point) real_z_bot);
                  Lixpys.wellid3 := st_wellid row;
                  Lixpys.etid3 := wp_etid point;
                  Lixpys.x_coord3 := wp_x point;
                  Lixpys.y_coord3 := wp_y point;
                  Lixpys.z_top3 := real_z_top;
                  Lixpys.z_bot3 := real_z_bot;
                  Lixpys.strat_oid3 := st_oid row |}];
            Lixpys.polylinefile_2d := Lixpys.polylinefile_2d s ++
              [{| Lixpys.shape2 := mkSegment (mkPoint x real_z_top) (mkPoint x real_z_bot);
                  Lixpys.wellid2 := st_wellid row;
                  Lixpys.etid2 := wp_etid point;
                  Lixpys.x_coord2 := wp_x point;
                  Lixpys.y_coord2 := wp_y point;
                  Lixpys.z_top2 := real_z_top;
                  Lixpys.z_bot2 := real_z_bot;
                  Lixpys.strat_oid2 := st_oid row;
                  Lixpys.distance2 := Lixpys.NEAR_DIST well;
                  Lixpys.pct_dist2 :=
                    fmul (fdiv (Lixpys.NEAR_DIST well) (of_int (Lixpys.buffer_dist p)))
                         (of_int 200) |}];
            Lixpys.locals := Some (locals_of p well) |}.
Proof.
  intros Htop Hbot Hm point x. unfold Lixpys.stick_step.
  rewrite Htop, Hbot. unfold matches in Hm.
  rewrite cursor_loop, Hm, last_snoc, length_app. cbn [length].
  replace (length earlier + 1 + 0 =? 0)%nat with false
    by (symmetry; apply Nat.eqb_neq; lia).
  reflexivity.
Qed.

(** Every 2D row is the segment of a record, at the abscissa of a well
    point of its well id. *)
Lemma sticks_drawing_coordinates p numeric wwpt (strat : list (StratRow F)) :
  ∃ s, outcome (Lixpys.make_sticks p numeric wwpt strat) = inr s ∧
    ∀ r2, r2 ∈ Lixpys.polylinefile_2d s →
      ∃ row well elevation_top elevation_bot,
        row ∈ strat ∧ well ∈ wwpt ∧
        wp_wellid (Lixpys.wn_point well) = st_wellid row ∧
        elev_top row = Some elevation_top ∧ elev_bot row = Some elevation_bot ∧
        let x := x_drawing (Lixpys.OnLine_DIST well) (Lixpys.vertical_exaggeration p) in
        Lixpys.shape2 r2 = mkSegment (mkPoint x elevation_top) (mkPoint x elevation_bot).
Proof.
  destruct (make_sticks_run p numeric wwpt strat) as [v Hrun]. cbn zeta in Hrun.
  match type of Hrun with _ = (_, inr ?s0) => exists s0 end.
  split; [by rewrite Hrun|].
  cbn [Lixpys.polylinefile_2d]. intros r2 Hr2.
  apply list_elem_of_fmap in Hr2 as ([r3 r2'] & -> & Hr).
  apply list_elem_of_omap in Hr as (row & Hrow & Hd).
  unfold drawn in Hd.
  destruct (elev_top row) as [top|] eqn:Htop; [|done].
  destruct (elev_bot row) as [bot|] eqn:Hbot; [|done].
  destruct (last (matches numeric wwpt row)) as [well|] eqn:Hlast; [|done].
  apply last_Some_elem_of in Hlast. unfold matches in Hlast.
  apply list_elem_of_filter in Hlast as [Hw Hin].
  unfold Lixpys.where_clause in Hw. apply bool_decide_unpack in Hw.
  exists row, well, top, bot. split_and!; [done..|].
  injection Hd as _ <-. reflexivity.
Qed.

End StickClaims.

(** ** The drawing coordinates of the two scripts *)

Lemma outcome_bind_inr {A B} (m : Run A) (k : A → Run B) (b : B) :
  outcome (m ≫= k) = inr b → ∃ a, outcome m = inr a ∧ outcome (k a) = inr b.
Proof.
  destruct m as [log [e|a]]; [done|].
  rewrite bind_returned. intros Hb. by exists a.
Qed.

Section Drawing.
Context {F : Type} {num : PyFloat F} {arcpy : Arcpy F}.

(** The vertices of a profile in drawing space, as the specification
    writes them: the measure of the vertex along the line, transformed, and
    the elevation of the vertex. *)
Definition profile_drawing (verticalExaggeration : Z) (xsln_geometry : list (Point F))
    (vertices : list (PointZ F)) : list (Point F) :=
  map (λ vertex,
         mkPoint (x_drawing (measureOnLine xsln_geometry (mkPoint (X3 vertex) (Y3 vertex)))
                            verticalExaggeration)
                 (Z3 vertex)) vertices.

Definition plan_of (line : XsLine F) : list (Point F) :=
  map (λ apex, mkPoint (X3 apex) (Y3 apex)) (getPart0 (xs_shape line)).

Lemma line_profiles_drawing (rp : RasterProfiles.Params) (cls name : string)
    (profiles_3d : list (XsLine F)) (line : XsLine F) (prow : RasterProfiles.ProfileRow F) :
  prow ∈ RasterProfiles.line_profiles rp cls name profiles_3d line →
  ∃ feature, feature ∈ profiles_3d ∧ xs_etid feature = xs_etid line ∧
    RasterProfiles.pr_shape prow =
      profile_drawing (RasterProfiles.vertical_exaggeration rp) (plan_of line)
        (getPart0 (xs_shape feature)).
Proof.
  unfold RasterProfiles.line_profiles. rewrite map_fmap.
  intros (feature & -> & Hf)%list_elem_of_fmap.
  apply list_elem_of_filter in Hf as [Hid Hf].
  by exists feature.
Qed.

Lemma raster_step_outcome (rp : RasterProfiles.Params) (xsln : list (XsLine F))
    (rows : list (RasterProfiles.ProfileRow F)) (raster : string) :
  ∃ cls, outcome (RasterProfiles.raster_step rp xsln rows raster) =
    inr (rows ++ flat_map
           (RasterProfiles.line_profiles rp cls raster
              (RasterProfiles.MultipartToSinglepart (InterpolateShape raster xsln))) xsln).
Proof. unfold RasterProfiles.raster_step. destruct (RasterProfiles.merge_boolean rp); by eexists. Qed.

Lemma raster_loop_rows (rp : RasterProfiles.Params) (xsln : list (XsLine F))
    (rasters : list string) (rows0 rows : list (RasterProfiles.ProfileRow F)) :
  outcome (for_each rasters (RasterProfiles.raster_step rp xsln) rows0) = inr rows →
  ∀ prow, prow ∈ rows →
    prow ∈ rows0 ∨
    ∃ raster cls line, line ∈ xsln ∧
      prow ∈ RasterProfiles.line_profiles rp cls raster
               (RasterProfiles.MultipartToSinglepart (InterpolateShape raster xsln)) line.
Proof.
  revert rows0. induction rasters as [|raster rasters IH]; intros rows0 Hrun prow Hin.
  - left. cbn in Hrun. by injection Hrun as ->.
  - cbn [for_each] in Hrun.
    apply outcome_bind_inr in Hrun as (rows1 & Hstep & Hrest).
    destruct (raster_step_outcome rp xsln rows0 raster) as [cls Hcls].
    rewrite Hcls in Hstep. injection Hstep as <-.
    destruct (IH _ Hrest prow Hin) as [Hprow|Hprow]; [|by right].
    apply elem_of_app in Hprow as [Hprow|Hprow]; [by left|right].
    apply list_elem_of_In, in_flat_map in Hprow as (line & Hline & Hprow).
    exists raster, cls, line. by rewrite !list_elem_of_In.
Qed.

End Drawing.

(** ** The stick polygons *)

(** What the script relies on from [arcpy.management.Sort]: the output has
    the rows of the input, in ascending order of the sort field. *)
Record SortLaws {F : Type} (arcpy : Arcpy F) : Prop := {
  Sort_permutation : ∀ (A : Type) (key : A → pyid) (l : list A), Sort A key l ≡ₚ l;
  Sort_sorted : ∀ (A : Type) (key : A → pyid) (l : list A),
    Sorted id_le (map key (Sort A key l))
}.

Lemma id_le_total (a b : pyid) : id_le a b ∨ id_le b a.
Proof.
  unfold id_le. destruct a as [m|s], b as [n|t]; cbn; auto.
  - destruct (Z.leb_spec m n); [by left|right]. apply Z.leb_le. lia.
  - apply String.leb_total.
Qed.

Lemma planar_sort_laws {F : Type} {num : PyFloat F} {met : Metric F} :
  SortLaws (Planar.platform (F := F)).
Proof.
  split; intros A key l; cbn; unfold Planar.sort_by.
  - apply merge_sort_Permutation.
  - assert (Total (λ x y : A, id_le (key x) (key y))) by (intros x y; apply id_le_total).
    rewrite map_fmap. eapply Sorted_fmap; [|by apply Sorted_merge_sort]. done.
Qed.

Section Polygons.
Context {F : Type} {num : PyFloat F} {arcpy : Arcpy F} (laws : SortLaws arcpy).

(** The half-width as the specification writes it. *)
Definition half_width (verticalExaggeration : Z) (stickWidthParam : F) : F :=
  fadd (fdiv (of_int 130) (of_int verticalExaggeration)) stickWidthParam.

Lemma polygon_file_sorted (p : Lixpys.Params F) (rows : list (Lixpys.Row2D F)) :
  Lixpys.polygon_file p rows ≡ₚ
    map (λ r2, (Buffer (Lixpys.shape2 r2)
                  (half_width (Lixpys.vertical_exaggeration p) (Lixpys.well_stick_width p))
                  FULL FLAT, r2)) rows ∧
  Sorted id_le (map (λ poly, Lixpys.wellid2 (snd poly)) (Lixpys.polygon_file p rows)).
Proof.
  unfold Lixpys.polygon_file. split.
  - apply (Sort_permutation _ laws).
  - apply (Sort_sorted _ laws).
Qed.

(** C8. In the polygon file the script ends with, every 2D stick segment
    has its polygon, the buffer of the segment on both sides with flat ends
    at the distance [130 / vertical_exaggeration + well_stick_width], and
    the polygons are in ascending order of well id. *)
Theorem C8_stick_polygons_buffered_and_sorted
    (p : Lixpys.Params F) (strat : list (StratRow F)) (wwpt : list (WellPoint F))
    (xsln : list (XsLine F)) (out : Lixpys.Outputs) :
  outcome (Lixpys.main p strat wwpt xsln) = inr out →
  let w := fadd (fdiv (of_int 130) (of_int (Lixpys.vertical_exaggeration p)))
                (Lixpys.well_stick_width p) in
  Lixpys.lixpys_unloc_2d_poly out ≡ₚ
    map (λ r2, (Buffer (Lixpys.shape2 r2) w FULL FLAT, r2))
        (Lixpys.polylinefile_2d (Lixpys.out_sticks out)) ∧
  Sorted id_le (map (λ poly, Lixpys.wellid2 (snd poly)) (Lixpys.lixpys_unloc_2d_poly out)).
Proof.
  intros Hrun w. unfold Lixpys.main in Hrun.
  repeat (apply outcome_bind_inr in Hrun as (? & _ & Hrun)).
  injection Hrun as <-. cbn [Lixpys.lixpys_unloc_2d_poly Lixpys.out_sticks].
  apply polygon_file_sorted.
Qed.

End Polygons.

(** ** The script runs to its end on well-formed input *)

Lemma completed_bind {A B} (m : Run A) (k : A → Run B) (a : A) :
  outcome m = inr a → completed (k a) → completed (m ≫= k).
Proof.
  destruct m as [log [e|a']]; [done|]. intros Ha [b Hb].
  injection Ha as ->. exists b. by rewrite bind_returned.
Qed.

Section Completion.
Context {F : Type} {num : PyFloat F} {arcpy : Arcpy F}.

Definition vertices (line : XsLine F) : list (Point F) :=
  map Lixpys.point_of (getPart0 (xs_shape line)).

Lemma extend_line_returns (bd : Z) (line : XsLine F) :
  (2 ≤ length (vertices line))%nat →
  ∃ ext, Lixpys.extend_line bd line = mret (ext, xs_etid line).
Proof.
  intros Hn. unfold vertices in Hn.
  set (pts := map Lixpys.point_of (getPart0 (xs_shape line))) in *.
  destruct (lookup_lt_is_Some_2 pts 0) as [v0 H0]; [lia|].
  destruct (lookup_lt_is_Some_2 pts 1) as [v1 H1]; [lia|].
  destruct (lookup_lt_is_Some_2 pts (length pts - 2)) as [vp Hp]; [lia|].
  destruct (lookup_lt_is_Some_2 pts (length pts - 1)) as [vl Hl]; [lia|].
  eexists. by apply (extend_line_run bd line v0 v1 vp vl).
Qed.

Lemma extend_loop_returns (bd : Z) (xsln : list (XsLine F))
    (acc : list (list (Point F) * string)) :
  Forall (λ line, (2 ≤ length (vertices line))%nat) xsln →
  ∃ xsln_temp,
    for_each xsln
      (λ xsln_temp line, row ← Lixpys.extend_line bd line; mret (xsln_temp ++ [row])) acc
    = mret xsln_temp.
Proof.
  intros Hx. revert acc.
  induction Hx as [|line xsln Hline _ IH]; intros acc; [by eexists|].
  cbn [for_each]. destruct (extend_line_returns bd line Hline) as [ext ->].
  rewrite !bind_mret. apply IH.
Qed.

Lemma extend_lines_returns (bd : Z) (xsln : list (XsLine F)) :
  Forall (λ line, (2 ≤ length (vertices line))%nat) xsln →
  ∃ xsln_temp, Lixpys.extend_lines bd xsln = mret xsln_temp.
Proof. apply extend_loop_returns. Qed.

Lemma extend_loop_length (bd : Z) (xsln : list (XsLine F))
    (acc xsln_temp : list (list (Point F) * string)) :
  outcome (for_each xsln
             (λ xsln_temp line, row ← Lixpys.extend_line bd line; mret (xsln_temp ++ [row]))
             acc) = inr xsln_temp →
  length xsln_temp = (length acc + length xsln)%nat.
Proof.
  revert acc. induction xsln as [|line xsln IH]; intros acc Hrun.
  - cbn in Hrun. injection Hrun as <-. cbn. lia.
  - cbn [for_each] in Hrun. apply outcome_bind_inr in Hrun as (acc' & Hstep & Hrest).
    apply outcome_bind_inr in Hstep as (row & _ & Hret). cbn in Hret. injection Hret as <-.
    rewrite (IH _ Hrest), length_app. cbn. lia.
Qed.

Lemma write_class_not_nil (name : string) (rows : list (Lixpys.WellNear F))
    (fd : Lixpys.Dataset F) :
  Lixpys.write_class name rows fd ≠ [].
Proof. destruct fd as [|[name' rows'] fd]; [done|]. cbn. by case_decide. Qed.

(** Every line leaves a class in the dataset, be it an empty one. *)
Lemma near_analysis_not_nil (bd : Z) (wells : list (WellPoint F))
    (xsln_temp : list (list (Point F) * string)) :
  xsln_temp ≠ [] → Lixpys.near_analysis bd wells xsln_temp ≠ [].
Proof.
  unfold Lixpys.near_analysis. destruct xsln_temp as [|line lines]; [done|]. intros _.
  cbn [fold_left]. generalize (write_class_not_nil ("wwpt_" +:+ snd line)
                                 (Lixpys.wells_of_line bd wells line) []).
  generalize (Lixpys.write_class ("wwpt_" +:+ snd line)
                (Lixpys.wells_of_line bd wells line) []).
  induction lines as [|line' lines IH]; intros fd Hfd; [done|].
  cbn [fold_left]. apply IH, write_class_not_nil.
Qed.

Lemma Merge_returns (fd : Lixpys.Dataset F) : fd ≠ [] → Lixpys.Merge fd = mret (Lixpys.merge fd).
Proof. by destruct fd. Qed.

Lemma main_completes (p : Lixpys.Params F) (strat : list (StratRow F))
    (wwpt : list (WellPoint F)) (xsln : list (XsLine F)) :
  0 < Lixpys.buffer_dist p → 0 < Lixpys.vertical_exaggeration p →
  strat ≠ [] → wwpt ≠ [] → xsln ≠ [] →
  Forall (λ line, (2 ≤ length (vertices line))%nat) xsln →
  completed (Lixpys.main p strat wwpt xsln).
Proof.
  intros Hb Hv Hs Hw Hlines Hx. unfold Lixpys.main.
  destruct strat as [|s strat]; [done|]. destruct wwpt as [|w wwpt]; [done|].
  eapply completed_bind; [by rewrite lixpys_multipart_check_run|].
  eapply completed_bind; [by rewrite check_params_ok|].
  eapply completed_bind; [by rewrite count_checks_run|].
  eapply completed_bind; [apply reconcile_returns|].
  do 5 (eapply completed_bind; [reflexivity|]).
  destruct (extend_lines_returns (Lixpys.buffer_dist p) xsln Hx) as [xsln_temp Hext].
  eapply completed_bind; [by rewrite Hext|].
  eapply completed_bind; [reflexivity|].
  assert (Htemp : xsln_temp ≠ []).
  { intros ->. pose proof (extend_loop_length (Lixpys.buffer_dist p) xsln [] []) as Hlen.
    unfold Lixpys.extend_lines in Hext. rewrite Hext in Hlen. specialize (Hlen eq_refl).
    destruct xsln; [done|]. cbn in Hlen. lia. }
  eapply completed_bind;
    [by rewrite (Merge_returns _ (near_analysis_not_nil _ _ _ Htemp))|].
  eapply completed_bind; [reflexivity|].
  match goal with |- context [Lixpys.make_sticks ?p ?b ?m ?t] =>
    destruct (make_sticks_run p b m t) as [v Hrun] end.
  cbn zeta in Hrun.
  eapply completed_bind; [by rewrite Hrun|].
  repeat (eapply completed_bind; [reflexivity|]). by eexists.
Qed.

End Completion.

(** ** The measure along the extended line

    Over the reals.  The laws are what the script relies on from the
    platform: [pointFromAngleAndDistance] after [angleAndDistanceTo] lands
    at the given distance on the ray that continues the segment; [Near] on a
    point of the line is that point; [measureOnLine] on a point of the first
    segment is its distance to the first vertex. *)

Section Euclid.
Local Open Scope R_scope.

Definition distance (p q : Point R) : R := Planar.distance p q.

(** [p] lies on the segment from [a] to [b]. *)
Definition between (a p b : Point R) : Prop :=
  ∃ t, 0 <= t <= 1 ∧ X p = X a + t * (X b - X a) ∧ Y p = Y a + t * (Y b - Y a).

(** [p] lies on a segment of the line. *)
Definition on_line (p : Point R) (line : list (Point R)) : Prop :=
  ∃ (i : nat) a b, line !! i = Some a ∧ line !! S i = Some b ∧ between a p b.

(** The length of the line from its first vertex to [q]: [q] is on the
    first segment, at its distance from the first vertex, or it is not and
    the length of that segment adds to the measure along the rest. *)
Inductive measure_to (q : Point R) : list (Point R) → R → Prop :=
  | measure_here a b rest :
      between a q b → measure_to q (a :: b :: rest) (distance a q)
  | measure_later a b rest m :
      ¬ between a q b → measure_to q (b :: rest) m →
      measure_to q (a :: b :: rest) (distance a b + m).

Definition near_point (n : NearResult R) : Point R := mkPoint (near_x n) (near_y n).

Record PlanarLaws (arcpy : Arcpy R) : Prop := {
  project_distance : ∀ q p d, 0 <= d → distance p (project_from q p d) = d;
  project_between : ∀ q p d, 0 <= d → between (project_from q p d) p q;
  Near_on_line : ∀ p line, (2 ≤ length line)%nat → on_line (near_point (Near p line)) line;
  Near_distance : ∀ p line, (2 ≤ length line)%nat →
    near_dist (Near p line) = distance p (near_point (Near p line));
  Near_nearest : ∀ p line x, on_line x line →
    distance p (near_point (Near p line)) <= distance p x;
  measure_along : ∀ line q m, measure_to q line m → measureOnLine line q = m
}.

Lemma distance_eq (p q : Point R) :
  distance p q = R_sqrt.sqrt ((X q - X p) * (X q - X p) + (Y q - Y p) * (Y q - Y p)).
Proof. reflexivity. Qed.

Lemma sum_squares_nonneg (x y : R) : 0 <= x * x + y * y.
Proof. nra. Qed.

Lemma distance_nonneg (p q : Point R) : 0 <= distance p q.
Proof. rewrite distance_eq. apply sqrt_pos. Qed.

Lemma distance_sym (p q : Point R) : distance p q = distance q p.
Proof. rewrite !distance_eq. f_equal. ring. Qed.

Lemma distance_sqr (p q : Point R) :
  distance p q * distance p q = (X q - X p) * (X q - X p) + (Y q - Y p) * (Y q - Y p).
Proof. rewrite distance_eq. apply sqrt_sqrt, sum_squares_nonneg. Qed.

Lemma point_eq (p q : Point R) : X p = X q → Y p = Y q → p = q.
Proof. destruct p, q. cbn. by intros -> ->. Qed.

Lemma distance_zero (p q : Point R) : distance p q = 0 → p = q.
Proof.
  intros Hd. pose proof (distance_sqr p q) as Hs. rewrite Hd in Hs.
  destruct (Rplus_sqr_eq_0 (X q - X p) (Y q - Y p)) as [Hx Hy].
  { unfold Rsqr. lra. }
  apply point_eq; lra.
Qed.

Lemma distance_refl (p : Point R) : distance p p = 0.
Proof.
  rewrite distance_eq.
  replace ((X p - X p) * (X p - X p) + (Y p - Y p) * (Y p - Y p)) with 0 by ring.
  apply sqrt_0.
Qed.

(** Along a segment the distance to its origin grows with the parameter. *)
Lemma between_distance (a q b : Point R) (t : R) :
  0 <= t → X q = X a + t * (X b - X a) → Y q = Y a + t * (Y b - Y a) →
  distance a q = t * distance a b.
Proof.
  intros Ht Hx Hy. rewrite !distance_eq, Hx, Hy.
  replace ((X a + t * (X b - X a) - X a) * (X a + t * (X b - X a) - X a) +
           (Y a + t * (Y b - Y a) - Y a) * (Y a + t * (Y b - Y a) - Y a))
    with ((t * t) * ((X b - X a) * (X b - X a) + (Y b - Y a) * (Y b - Y a))) by ring.
  rewrite sqrt_mult by (nra || apply sum_squares_nonneg).
  by rewrite sqrt_square.
Qed.

Lemma between_distance_lt (a q b : Point R) :
  between a q b → q ≠ b → distance a q < distance a b.
Proof.
  intros (t & [Ht0 Ht1] & Hx & Hy) Hne.
  rewrite (between_distance a q b t Ht0 Hx Hy).
  destruct (Req_dec_T t 1) as [->|Ht].
  - exfalso. apply Hne, point_eq; lra.
  - assert (0 < distance a b).
    { destruct (distance_nonneg a b) as [|Hz]; [done|].
      exfalso. apply Hne. symmetry in Hz. apply distance_zero in Hz as <-.
      apply point_eq; nra. }
    nra.
Qed.

Lemma between_trans (a q m b : Point R) : between a q m → between a m b → between a q b.
Proof.
  intros (t & [Ht0 Ht1] & Hx & Hy) (u & [Hu0 Hu1] & Hmx & Hmy).
  exists (t * u). split; [nra|]. rewrite Hx, Hy, Hmx, Hmy. split; ring.
Qed.

(** The four points of a two-vertex line and its extension are in line:
    [m] is between [a] and [n], [n] is between [b] and [m], so, the line
    having a length, [m] is between [a] and [b]. *)
Lemma between_chain (a m n b : Point R) :
  between a m n → between b n m → m ≠ n → between a m b.
Proof.
  intros (t & [Ht0 Ht1] & Hx & Hy) (u & [Hu0 Hu1] & Hnx & Hny) Hne.
  assert (Htu : t * u < 1).
  { destruct (Rlt_dec (t * u) 1) as [|Hge]; [done|].
    assert (t * u <= t) by nra. assert (t * u <= u) by nra.
    assert (t = 1) by lra. assert (u = 1) by lra. subst t u.
    exfalso. apply Hne, point_eq; lra. }
  assert (Hden : 0 < 1 - t * u) by lra.
  assert (Hinv : 0 < / (1 - t * u)) by (by apply Rinv_0_lt_compat).
  exists (t * (1 - u) / (1 - t * u)). split.
  - split.
    + apply Rmult_le_pos; [nra|lra].
    + apply Rmult_le_reg_r with (1 - t * u); [done|].
      replace (t * (1 - u) / (1 - t * u) * (1 - t * u)) with (t * (1 - u)) by (field; lra).
      nra.
  - assert (Hmx : (1 - t * u) * (X m - X a) = t * (1 - u) * (X b - X a)).
    { rewrite Hnx in Hx. lra. }
    assert (Hmy : (1 - t * u) * (Y m - Y a) = t * (1 - u) * (Y b - Y a)).
    { rewrite Hny in Hy. lra. }
    split.
    + replace (t * (1 - u) / (1 - t * u) * (X b - X a))
        with ((t * (1 - u) * (X b - X a)) / (1 - t * u)) by (field; lra).
      rewrite <- Hmx. field. lra.
    + replace (t * (1 - u) / (1 - t * u) * (Y b - Y a))
        with ((t * (1 - u) * (Y b - Y a)) / (1 - t * u)) by (field; lra).
      rewrite <- Hmy. field. lra.
Qed.

(** Every point of the line has a measure. *)
Lemma measure_to_exists (q : Point R) (line : list (Point R)) :
  on_line q line → ∃ m, measure_to q line m.
Proof.
  intros (i & a & b & Ha & Hb & Hab). revert line Ha Hb.
  induction i as [|i IH]; intros line Ha Hb.
  - destruct line as [|a' [|b' rest]]; [done..|].
    cbn in Ha, Hb. injection Ha as ->. injection Hb as ->.
    eexists. by apply measure_here.
  - destruct line as [|a' [|b' rest]]; [done..|].
    destruct (classic (between a' q b')) as [Hfirst|Hfirst].
    + eexists. by apply measure_here.
    + destruct (IH (b' :: rest)) as [m Hm]; [done..|].
      eexists. by apply measure_later.
Qed.

End Euclid.

Section Measure.
Context {arcpy : Arcpy R} (laws : PlanarLaws arcpy).
Local Open Scope R_scope.

(** The extended line starts with the projected point and a segment that
    holds vertex 0. *)
Lemma extended_first_segment (pts : list (Point R)) (v0 v1 vp vl : Point R) (d : R) :
  pts !! 0%nat = Some v0 → pts !! 1%nat = Some v1 →
  pts !! (length pts - 2)%nat = Some vp → pts !! (length pts - 1)%nat = Some vl →
  (length pts = 2%nat → v0 ≠ v1) → 0 <= d →
  ∃ b rest,
    <[(length pts - 1)%nat := project_from vp vl d]> (<[0%nat := project_from v1 v0 d]> pts)
      = project_from v1 v0 d :: b :: rest ∧
    between (project_from v1 v0 d) v0 b.
Proof.
  intros H0 H1 Hp Hl Hne Hd.
  destruct pts as [|a [|b r]]; [done..|].
  cbn in H0, H1. injection H0 as ->. injection H1 as ->.
  destruct r as [|c r].
  - cbn in Hp, Hl. injection Hp as <-. injection Hl as <-.
    exists (project_from v0 v1 d), []. split; [done|].
    apply between_chain with v1.
    + by apply (project_between _ laws).
    + by apply (project_between _ laws).
    + by apply Hne.
  - exists v1. eexists. split; [reflexivity|].
    by apply (project_between _ laws).
Qed.

(** On a point of the line [Near] returns that point. *)
Lemma Near_fixes_line (p : Point R) (line : list (Point R)) :
  on_line p line → near_point (Near p line) = p.
Proof.
  intros Hp. pose proof (Near_nearest _ laws p line p Hp) as Hle.
  rewrite distance_refl in Hle.
  pose proof (distance_nonneg p (near_point (Near p line))).
  symmetry. apply distance_zero. lra.
Qed.

(** C1. Every well point of the file that has the id of the line is
    located against the extended line, once and in the order of the file,
    and no other.  For each of them [NEAR_X], [NEAR_Y] is the point of the
    extended line nearest to the well, and [OnLine_DIST] is the length of
    the extended line from its first vertex to that point, less the buffer
    distance.  Hence a well at vertex 0 of the line has measure 0, and a
    well whose nearest point lies on the added stretch, before vertex 0, has
    a negative measure.  (A line of two vertices is taken to have a
    length.) *)
Theorem C1_measure_along_extended_line (bd : Z) (line : XsLine R) (v0 v1 : Point R) :
  vertices line !! 0%nat = Some v0 → vertices line !! 1%nat = Some v1 →
  (length (vertices line) = 2%nat → v0 ≠ v1) →
  (0 < bd)%Z →
  ∃ ext new_beg,
    Lixpys.extend_line bd line = mret (ext, xs_etid line) ∧
    ext !! 0%nat = Some new_beg ∧
    ∀ wwpt,
      map Lixpys.wn_point (Lixpys.wells_of_line bd wwpt (ext, xs_etid line))
        = filter (λ point, wp_etid point = xs_etid line) wwpt ∧
      ∀ well, well ∈ Lixpys.wells_of_line bd wwpt (ext, xs_etid line) →
      let location := mkPoint (wp_x (Lixpys.wn_point well)) (wp_y (Lixpys.wn_point well)) in
      let nearest := mkPoint (Lixpys.NEAR_X well) (Lixpys.NEAR_Y well) in
      wp_etid (Lixpys.wn_point well) = xs_etid line ∧
      on_line nearest ext ∧
      (∀ x, on_line x ext → distance location nearest <= distance location x) ∧
      (∃ m, measure_to nearest ext m ∧ Lixpys.OnLine_DIST well = m - IZR bd) ∧
      (location = v0 → Lixpys.OnLine_DIST well = 0) ∧
      (between new_beg nearest v0 → nearest ≠ v0 → Lixpys.OnLine_DIST well < 0).
Proof.
  intros H0 H1 Hne Hbd. unfold vertices in *.
  set (pts := map Lixpys.point_of (getPart0 (xs_shape line))) in *.
  assert (Hn : (2 ≤ length pts)%nat) by (apply lookup_lt_Some in H1; lia).
  destruct (lookup_lt_is_Some_2 pts (length pts - 2)) as [vp Hp]; [lia|].
  destruct (lookup_lt_is_Some_2 pts (length pts - 1)) as [vl Hl]; [lia|].
  assert (Hd : 0 <= IZR bd) by (apply IZR_le; lia).
  destruct (extended_first_segment pts v0 v1 vp vl (IZR bd) H0 H1 Hp Hl Hne Hd)
    as (b & rest & Hext & Hv0).
  set (new_beg := project_from v1 v0 (IZR bd)) in *.
  set (ext := new_beg :: b :: rest) in *.
  assert (Hfirst : ∀ q, between new_beg q b → measureOnLine ext q = distance new_beg q).
  { intros q Hq. apply (measure_along _ laws). by apply measure_here. }
  assert (Hlen : distance new_beg v0 = IZR bd).
  { rewrite distance_sym. by apply (project_distance _ laws). }
  exists ext, new_beg. split_and!.
  - rewrite <- Hext. exact (extend_line_run bd line v0 v1 vp vl Hn H0 H1 Hp Hl).
  - done.
  - intros wwpt. split.
    { unfold Lixpys.wells_of_line, Lixpys.select_by_etid. rewrite map_map. cbn.
      apply map_id. }
    intros well Hwell. unfold Lixpys.wells_of_line in Hwell.
    rewrite map_fmap in Hwell.
    apply list_elem_of_fmap in Hwell as (w & -> & Hw).
    apply list_elem_of_filter in Hw as [Hid _].
    cbn [Lixpys.locate_well Lixpys.wn_point Lixpys.NEAR_X Lixpys.NEAR_Y
         Lixpys.OnLine_DIST].
    set (location := mkPoint (wp_x w) (wp_y w)).
    fold (near_point (Near location ext)).
    assert (Hon : on_line (near_point (Near location ext)) ext).
    { apply (Near_on_line _ laws). cbn. lia. }
    split_and!.
    + done.
    + exact Hon.
    + intros x Hx. by apply (Near_nearest _ laws).
    + destruct (measure_to_exists _ _ Hon) as [m Hm]. exists m. split; [done|].
      by rewrite (measure_along _ laws _ _ m Hm).
    + intros Hloc. rewrite Hloc.
      rewrite Near_fixes_line by (exists 0%nat, new_beg, b; done).
      rewrite Hfirst by done. rewrite Hlen.
      change (IZR bd - IZR bd = 0). lra.
    + intros Hq Hqne. set (q := near_point _) in *.
      rewrite Hfirst by (by apply between_trans with v0).
      pose proof (between_distance_lt _ _ _ Hq Hqne) as Hlt.
      change (distance new_beg q - IZR bd < 0). lra.
Qed.

End Measure.

(** ** The planar implementation satisfies the laws *)

Section PlanarLawsHold.
Local Open Scope R_scope.

Ltac real_ops :=
  unfold Planar.sq, Planar.zero, Planar.one in *;
  cbn [fadd fsub fmul fdiv of_int lit_0_3048 fsqrt fltb feqb ideal ideal_metric] in *.

Lemma project_on_between (a b q : Point R) :
  between a q b → Planar.project_on a b q = q.
Proof.
  intros (t & [Ht0 Ht1] & Hx & Hy). unfold Planar.project_on, Planar.clamp01. real_ops.
  destruct (Req_dec_T _ 0) as [Hz|Hnz].
  - destruct (Rplus_sqr_eq_0 (X b - X a) (Y b - Y a)) as [Hvx Hvy]; [exact Hz|].
    apply point_eq; nra.
  - match goal with |- context [Rlt_dec ?x 0] => assert (x = t) as -> end.
    { rewrite Hx, Hy. field. exact Hnz. }
    destruct (Rlt_dec t 0); [lra|]. destruct (Rlt_dec 1 t); [lra|].
    apply point_eq; cbn; lra.
Qed.

Lemma walk_step_cases (p : Point R) (s : Planar.Best) (a b : Point R) :
  let c := Planar.project_on a b p in
  (distance p c < Planar.best_d s ∧
     Planar.walk_step p s (a, b) =
       {| Planar.cum := Planar.cum s + distance a b; Planar.best_d := distance p c;
          Planar.best_pt := c; Planar.best_m := Planar.cum s + distance a c |}) ∨
  (Planar.best_d s <= distance p c ∧
     Planar.walk_step p s (a, b) =
       {| Planar.cum := Planar.cum s + distance a b; Planar.best_d := Planar.best_d s;
          Planar.best_pt := Planar.best_pt s; Planar.best_m := Planar.best_m s |}).
Proof.
  intros c. unfold Planar.walk_step. fold c. real_ops.
  fold (distance p c). destruct (Rlt_dec (distance p c) (Planar.best_d s)).
  - by left.
  - right. split; [lra|done].
Qed.

(** Along the walk the kept point stays the closest met so far, and it
    is the projection of the point on one of the segments. *)
Lemma walk_closest (p : Point R) (segs : list (Point R * Point R)) (s : Planar.Best) :
  Planar.best_d s = distance p (Planar.best_pt s) →
  let s' := fold_left (Planar.walk_step p) segs s in
  Planar.best_d s' = distance p (Planar.best_pt s') ∧
  Planar.best_d s' <= Planar.best_d s ∧
  (∀ a b, (a, b) ∈ segs → Planar.best_d s' <= distance p (Planar.project_on a b p)) ∧
  (Planar.best_pt s' = Planar.best_pt s ∨
   ∃ a b, (a, b) ∈ segs ∧ Planar.best_pt s' = Planar.project_on a b p).
Proof.
  revert s. induction segs as [|[a b] segs IH]; intros s Hs; cbn [fold_left].
  - split_and!; [done|lra| |by left]. intros a b Hin. by apply not_elem_of_nil in Hin.
  - destruct (walk_step_cases p s a b) as [[Hlt ->]|[Hle ->]]; cbn zeta in *.
    + edestruct IH as (Hd & Hmono & Hall & Hfrom); [|split_and!; [exact Hd| | |]]; [done| | |].
      * cbn [Planar.best_d] in Hmono. lra.
      * intros a' b' [[= -> ->]|Hin]%elem_of_cons; [exact Hmono|by apply Hall].
      * right. destruct Hfrom as [->|(a' & b' & Hin & ->)].
        -- exists a, b. split; [apply elem_of_cons; by left|done].
        -- exists a', b'. split; [apply elem_of_cons; by right|done].
    + edestruct IH as (Hd & Hmono & Hall & Hfrom); [|split_and!; [exact Hd| | |]]; [done| | |].
      * exact Hmono.
      * intros a' b' [[= -> ->]|Hin]%elem_of_cons; [|by apply Hall].
        cbn [Planar.best_d] in Hmono. lra.
      * destruct Hfrom as [->|(a' & b' & Hin & ->)]; [by left|right].
        exists a', b'. split; [apply elem_of_cons; by right|done].
Qed.

(** Once the kept point is at distance zero nothing replaces it. *)
Lemma walk_settled (p : Point R) (segs : list (Point R * Point R)) (s : Planar.Best) :
  Planar.best_d s = 0 →
  Planar.best_m (fold_left (Planar.walk_step p) segs s) = Planar.best_m s.
Proof.
  revert s. induction segs as [|[a b] segs IH]; intros s Hs; cbn [fold_left]; [done|].
  destruct (walk_step_cases p s a b) as [[Hlt ->]|[Hle ->]].
  - pose proof (distance_nonneg p (Planar.project_on a b p)). cbn zeta in Hlt. lra.
  - by rewrite IH.
Qed.

Lemma segments_lookup (line : list (Point R)) (i : nat) (a b : Point R) :
  line !! i = Some a → line !! S i = Some b → (a, b) ∈ Planar.segments line.
Proof.
  revert i. induction line as [|x [|y line] IH]; intros i Ha Hb; [done..|].
  destruct i as [|i].
  - cbn in Ha, Hb. injection Ha as ->. injection Hb as ->. apply elem_of_cons. by left.
  - cbn [Planar.segments]. apply elem_of_cons. right. by apply (IH i).
Qed.

Lemma bearing_unit (q p : Point R) :
  let u := (Planar.bearing q p).1 in u.1 * u.1 + u.2 * u.2 = 1.
Proof.
  unfold Planar.bearing. real_ops. fold (distance q p).
  destruct (Req_dec_T (distance q p) 0) as [Hz|Hnz]; cbn [fst snd]; [ring|].
  pose proof (distance_sqr q p) as Hs.
  replace ((X p - X q) / distance q p * ((X p - X q) / distance q p) +
           (Y p - Y q) / distance q p * ((Y p - Y q) / distance q p))
    with (((X p - X q) * (X p - X q) + (Y p - Y q) * (Y p - Y q)) /
          (distance q p * distance q p)) by (field; exact Hnz).
  rewrite <- Hs. field. exact Hnz.
Qed.

Lemma planar_project_distance (q p : Point R) (d : R) :
  0 <= d → distance p (project_from (arcpy := Planar.platform) q p d) = d.
Proof.
  intros Hd. pose proof (bearing_unit q p) as Hu. cbn zeta in Hu.
  rewrite distance_eq. unfold project_from.
  cbn [pointFromAngleAndDistance angleAndDistanceTo Planar.platform].
  destruct (Planar.bearing q p) as [[u1 u2] D]. cbn [fst snd] in *.
  unfold Planar.forward. cbn [fadd fmul ideal X Y fst snd].
  replace ((X p + d * u1 - X p) * (X p + d * u1 - X p) +
           (Y p + d * u2 - Y p) * (Y p + d * u2 - Y p))
    with (d * d * (u1 * u1 + u2 * u2)) by ring.
  rewrite Hu, Rmult_1_r. by apply sqrt_square.
Qed.

Lemma planar_project_between (q p : Point R) (d : R) :
  0 <= d → between (project_from (arcpy := Planar.platform) q p d) p q.
Proof.
  intros Hd. unfold project_from, between.
  cbn [pointFromAngleAndDistance angleAndDistanceTo Planar.platform].
  unfold Planar.forward, Planar.bearing. real_ops. fold (distance q p).
  destruct (Req_dec_T (distance q p) 0) as [Hz|Hnz]; cbn [fst snd X Y].
  - apply distance_zero in Hz as ->. exists 1. split; [lra|]. split; ring.
  - assert (0 < distance q p) by (pose proof (distance_nonneg q p); lra).
    exists (d / (distance q p + d)). split.
    + split.
      * apply Rmult_le_pos; [done|]. left. apply Rinv_0_lt_compat. lra.
      * apply Rmult_le_reg_r with (distance q p + d); [lra|].
        replace (d / (distance q p + d) * (distance q p + d)) with d by (field; lra).
        lra.
    + split; field; lra.
Qed.

Lemma segments_elem (line : list (Point R)) (a b : Point R) :
  (a, b) ∈ Planar.segments line → ∃ i : nat, line !! i = Some a ∧ line !! S i = Some b.
Proof.
  induction line as [|x [|y line] IH]; intros Hin;
    [by apply not_elem_of_nil in Hin..|].
  cbn [Planar.segments] in Hin. apply elem_of_cons in Hin as [[= -> ->]|Hin].
  - by exists 0%nat.
  - destruct (IH Hin) as (i & Ha & Hb). by exists (S i).
Qed.

(** The projection is a point of the segment, and the closest one. *)
Lemma project_on_segment (a b p : Point R) : between a (Planar.project_on a b p) b.
Proof.
  unfold Planar.project_on, Planar.clamp01. real_ops.
  destruct (Req_dec_T _ 0) as [Hz|Hnz].
  - exists 0. split; [lra|]. split; ring.
  - match goal with |- context [Rlt_dec ?x 0] => set (s := x) end.
    destruct (Rlt_dec s 0); [|destruct (Rlt_dec 1 s)]; eexists;
      (split; [|split; cbn [X Y]; reflexivity]); lra.
Qed.

Lemma project_on_closest (a b p x : Point R) :
  between a x b → distance p (Planar.project_on a b p) <= distance p x.
Proof.
  intros (r & [Hr0 Hr1] & Hx & Hy). rewrite !distance_eq. apply sqrt_le_1_alt.
  unfold Planar.project_on, Planar.clamp01. real_ops.
  set (vx := X b - X a) in *. set (vy := Y b - Y a) in *.
  destruct (Req_dec_T (vx * vx + vy * vy) 0) as [Hz|Hnz].
  - destruct (Rplus_sqr_eq_0 vx vy) as [Hvx Hvy]; [exact Hz|].
    rewrite Hx, Hy, Hvx, Hvy. right. ring.
  - match goal with |- context [Rlt_dec ?q 0] => set (s := q) end.
    assert (Hl2 : 0 < vx * vx + vy * vy) by (pose proof (sum_squares_nonneg vx vy); lra).
    assert (Hs : (X p - X a) * vx + (Y p - Y a) * vy = s * (vx * vx + vy * vy)).
    { unfold s. field. exact Hnz. }
    clearbody s.
    assert (Hgap : ∀ t,
      (X a + r * vx - X p) * (X a + r * vx - X p) +
      (Y a + r * vy - Y p) * (Y a + r * vy - Y p) -
      ((X a + t * vx - X p) * (X a + t * vx - X p) +
       (Y a + t * vy - Y p) * (Y a + t * vy - Y p))
      = (vx * vx + vy * vy) * ((r - t) * (r + t - 2 * s))).
    { intros t.
      transitivity ((r - t) * (r + t) * (vx * vx + vy * vy) -
                    2 * (r - t) * ((X p - X a) * vx + (Y p - Y a) * vy)); [ring|].
      rewrite Hs. ring. }
    rewrite Hx, Hy.
    destruct (Rlt_dec s 0); [|destruct (Rlt_dec 1 s)]; cbn [X Y].
    + assert (Hk : 0 <= (r - 0) * (r + 0 - 2 * s)) by (apply Rmult_le_pos; lra).
      pose proof (Rmult_le_pos _ _ (Rlt_le _ _ Hl2) Hk) as Hprod.
      rewrite <- Hgap in Hprod. apply Rge_le, Rminus_ge, Rle_ge. exact Hprod.
    + assert (Hk : 0 <= (r - 1) * (r + 1 - 2 * s)).
      { replace ((r - 1) * (r + 1 - 2 * s)) with ((1 - r) * (2 * s - r - 1)) by ring.
        apply Rmult_le_pos; lra. }
      pose proof (Rmult_le_pos _ _ (Rlt_le _ _ Hl2) Hk) as Hprod.
      rewrite <- Hgap in Hprod. apply Rge_le, Rminus_ge, Rle_ge. exact Hprod.
    + assert (Hk : 0 <= (r - s) * (r + s - 2 * s)).
      { replace ((r - s) * (r + s - 2 * s)) with ((r - s) * (r - s)) by ring.
        apply (Rle_0_sqr (r - s)). }
      pose proof (Rmult_le_pos _ _ (Rlt_le _ _ Hl2) Hk) as Hprod.
      rewrite <- Hgap in Hprod. apply Rge_le, Rminus_ge, Rle_ge. exact Hprod.
Qed.

(** The state of the walk on a line of two vertices or more. *)
Lemma walk_result (p : Point R) (line : list (Point R)) :
  (2 ≤ length line)%nat →
  ∃ s, Planar.walk p line = Some s ∧
    Planar.best_d s = distance p (Planar.best_pt s) ∧
    (∀ a b, (a, b) ∈ Planar.segments line →
       Planar.best_d s <= distance p (Planar.project_on a b p)) ∧
    ∃ a b, (a, b) ∈ Planar.segments line ∧ Planar.best_pt s = Planar.project_on a b p.
Proof.
  intros Hlen. unfold Planar.walk.
  destruct line as [|a0 [|b0 rest]]; [cbn in Hlen; lia..|].
  cbn [Planar.segments].
  match goal with |- context [fold_left _ ?segs ?s0] =>
    destruct (walk_closest p segs s0) as (Hd & Hmono & Hall & Hfrom); [done|];
    set (s := fold_left _ segs s0) in *
  end.
  cbn [Planar.best_d Planar.best_pt] in Hmono, Hfrom.
  exists s. split_and!; [done..| |].
  - intros a b [[= -> ->]|Hin]%elem_of_cons; [exact Hmono|by apply Hall].
  - destruct Hfrom as [->|(a & b & Hin & ->)].
    + exists a0, b0. split; [apply elem_of_cons; by left|done].
    + exists a, b. split; [apply elem_of_cons; by right|done].
Qed.

Lemma near_point_walk (p : Point R) (line : list (Point R)) (s : Planar.Best) :
  Planar.walk p line = Some s →
  near_point (Near (Arcpy := Planar.platform) p line) = Planar.best_pt s ∧
  near_dist (Near (Arcpy := Planar.platform) p line) = Planar.best_d s.
Proof.
  intros Hs. cbn [Near Planar.platform]. unfold Planar.near. rewrite Hs.
  unfold near_point. cbn [near_x near_y near_dist]. by destruct (Planar.best_pt s).
Qed.

Lemma planar_near_on_line (p : Point R) (line : list (Point R)) :
  (2 ≤ length line)%nat → on_line (near_point (Near (Arcpy := Planar.platform) p line)) line.
Proof.
  intros Hlen. destruct (walk_result p line Hlen) as (s & Hs & _ & _ & a & b & Hin & Hpt).
  destruct (near_point_walk p line s Hs) as [-> _]. rewrite Hpt.
  destruct (segments_elem line a b Hin) as (i & Ha & Hb).
  exists i, a, b. split_and!; [done..|]. apply project_on_segment.
Qed.

Lemma planar_near_distance (p : Point R) (line : list (Point R)) :
  (2 ≤ length line)%nat →
  near_dist (Near (Arcpy := Planar.platform) p line)
    = distance p (near_point (Near (Arcpy := Planar.platform) p line)).
Proof.
  intros Hlen. destruct (walk_result p line Hlen) as (s & Hs & Hd & _).
  by destruct (near_point_walk p line s Hs) as [-> ->].
Qed.

Lemma planar_near_nearest (p : Point R) (line : list (Point R)) (x : Point R) :
  on_line x line →
  distance p (near_point (Near (Arcpy := Planar.platform) p line)) <= distance p x.
Proof.
  intros (i & a & b & Ha & Hb & Hx).
  assert (Hlen : (2 ≤ length line)%nat) by (apply lookup_lt_Some in Hb; lia).
  destruct (walk_result p line Hlen) as (s & Hs & Hd & Hall & _).
  destruct (near_point_walk p line s Hs) as [-> _]. rewrite <- Hd.
  etrans; [apply (Hall a b); by eapply segments_lookup|]. by apply project_on_closest.
Qed.

Lemma off_segment_positive (a b q : Point R) :
  ¬ between a q b → 0 < distance q (Planar.project_on a b q).
Proof.
  intros Hoff. destruct (distance_nonneg q (Planar.project_on a b q)) as [|Hz]; [done|].
  exfalso. apply Hoff. symmetry in Hz. apply distance_zero in Hz.
  pose proof (project_on_segment a b q) as Hseg. by rewrite <- Hz in Hseg.
Qed.

(** From a state whose kept point is off the line, the walk ends with the
    measure of [q]. *)
Lemma walk_measure (q : Point R) (line : list (Point R)) (m : R) :
  measure_to q line m →
  ∀ s, 0 < Planar.best_d s →
    Planar.best_m (fold_left (Planar.walk_step q) (Planar.segments line) s)
      = Planar.cum s + m.
Proof.
  induction 1 as [a b rest Hq|a b rest m Hoff _ IH]; intros s Hs;
    cbn [Planar.segments fold_left].
  - destruct (walk_step_cases q s a b) as [[Hlt ->]|[Hle ->]]; cbn zeta in *.
    + rewrite walk_settled; cbn [Planar.best_d Planar.best_m];
        rewrite (project_on_between a b q Hq); [done|apply distance_refl].
    + rewrite (project_on_between a b q Hq), distance_refl in Hle. lra.
  - apply off_segment_positive in Hoff.
    destruct (walk_step_cases q s a b) as [[Hlt ->]|[Hle ->]]; cbn zeta in *;
      rewrite IH; cbn [Planar.best_d Planar.cum]; lra.
Qed.

Lemma planar_measure_along (line : list (Point R)) (q : Point R) (m : R) :
  measure_to q line m → measureOnLine (Arcpy := Planar.platform) line q = m.
Proof.
  intros Hm. cbn [measureOnLine Planar.platform]. unfold Planar.measure, Planar.walk.
  destruct Hm as [a b rest Hq|a b rest m Hoff Hm]; cbn [Planar.segments].
  - rewrite walk_settled; cbn [Planar.best_d Planar.best_m];
      rewrite (project_on_between a b q Hq); [done|apply distance_refl].
  - rewrite (walk_measure q (b :: rest) m Hm); [done|].
    cbn [Planar.best_d]. by apply off_segment_positive.
Qed.

Lemma planar_laws : PlanarLaws Planar.platform.
Proof.
  split.
  - apply planar_project_distance.
  - apply planar_project_between.
  - apply planar_near_on_line.
  - apply planar_near_distance.
  - apply planar_near_nearest.
  - apply planar_measure_along.
Qed.

End PlanarLawsHold.

(** * Runs on concrete inputs

    In binary64, on the planar platform: a line from (0,0) to (1000,0), a
    buffer distance of 500, a vertical exaggeration of 50. *)

Section Inputs.
Local Open Scope float_scope.

Definition line_A : XsLine float :=
  mkXsLine (mkPolyline [mkPointZ 0 0 0; mkPointZ 1000 0 0] []) "A".

(** The same line with a second, disjoint part. *)
Definition line_A_multipart : XsLine float :=
  mkXsLine (mkPolyline [mkPointZ 0 0 0; mkPointZ 1000 0 0]
                       [[mkPointZ 2000 0 0; mkPointZ 3000 0 0]]) "A".

Definition well_7 : WellPoint float := mkWellPoint 1 (NumericId 7) "A" 1000 50.
Definition well_8 : WellPoint float := mkWellPoint 2 (NumericId 8) "A" 0 0.
(** A second point with the well id 7, elsewhere. *)
Definition well_7_again : WellPoint float := mkWellPoint 3 (NumericId 7) "A" 400 (-30).

Definition interval (oid well : Z) : StratRow float :=
  mkStratRow oid (NumericId well) (Some 1200) (Some 1100).
Definition interval_no_bottom (oid well : Z) : StratRow float :=
  mkStratRow oid (NumericId well) (Some 1200) None.

Definition params : Lixpys.Params float := Lixpys.mkParams 500 50 0.5.
Definition raster_params : RasterProfiles.Params :=
  RasterProfiles.mkParams "topo;bedrock" "et_id" 50 false.

(** Ten intervals of well 7, the fourth with no bottom elevation. *)
Definition ten_intervals : list (StratRow float) :=
  [interval 1 7; interval 2 7; interval 3 7; interval_no_bottom 4 7; interval 5 7;
   interval 6 7; interval 7 7; interval 8 7; interval 9 7; interval 10 7].

End Inputs.

(** The well points as the near analysis leaves them. *)
Definition located (wells : list (WellPoint float)) : list (Lixpys.WellNear float) :=
  Lixpys.merge
    (Lixpys.near_analysis (arcpy := Planar.platform) 500 wells
       [([mkPoint (-500) 0; mkPoint 1500 0]%float, "A"%string)]).

(** The round trip of the specification: the well 1000 m along the line
    and 50 m off it is drawn at 65.62 ft, its offset is 50 m. *)
Example round_trip :
  located [well_7] =
    [Lixpys.mkWellNear well_7 1000%float 0%float 50%float 1000%float] ∧
  x_drawing 1000%float 50 = 0x1.067799de6779ap+6%float.
Proof. split; vm_compute; reflexivity. Qed.

(** C4 (counterexample). Ten intervals, one with a null [elev_bot], a well
    point for all of them: nine 2D segments are written and the interval is
    reported by its own message, but nothing counts it: the list of
    unmatched records is empty and no summary is written, so the run has no
    skipped-count of 1. *)
Lemma C4_counterexample :
  ∃ s, Lixpys.make_sticks params true (located [well_7])
         ten_intervals = ([AddMessage (NoElevBotSkip 4)], inr s) ∧
       length (Lixpys.polylinefile_2d s) = 9%nat ∧
       length (Lixpys.nomatch_list s) = 0%nat.
Proof. eexists. split_and!; vm_compute; reflexivity. Qed.

(** C5 (counterexample). A multipart line is detected, and both scripts
    run to their end and write their outputs. *)
Lemma C5_counterexample :
  existsb (λ row, isMultipart (xs_shape row)) [line_A_multipart] = true ∧
  completed (Lixpys.main (arcpy := Planar.platform) params [interval 1 7] [well_7]
               [line_A_multipart]) ∧
  Created "lixpys_unloc_2d_poly" ∈
    log_of (Lixpys.main (arcpy := Planar.platform) params [interval 1 7] [well_7]
              [line_A_multipart]) ∧
  completed (RasterProfiles.main (arcpy := Planar.platform) raster_params
               [line_A_multipart]).
Proof.
  split_and!.
  - reflexivity.
  - apply main_completes; [cbn; lia|cbn; lia|done|done|done|].
    constructor; [cbn; lia|constructor].
  - apply list_elem_of_In. vm_compute. tauto.
  - eexists. vm_compute. reflexivity.
Qed.

(** C7 (counterexample). With no cross-section line at all both scripts go
    past the check and on to create their datasets. *)
Lemma C7_counterexample :
  Created "lixpys_unloc_3d" ∈
    log_of (Lixpys.main (arcpy := Planar.platform) params [interval 1 7] [well_7] []) ∧
  Created "topo_profiles3d" ∈
    log_of (RasterProfiles.main (arcpy := Planar.platform) raster_params []).
Proof. split; apply list_elem_of_In; vm_compute; tauto. Qed.

(** ** The theorems at these inputs *)

(** C3 at the line from (0,0) to (1000,0) and the distance 500. *)
Lemma C3_witness :
  ∃ ext, Lixpys.extend_line (arcpy := Planar.platform) 500 line_A = mret (ext, "A"%string) ∧
         length ext = 2%nat.
Proof.
  destruct (C3_extended_line_replaces_end_vertices (arcpy := Planar.platform) 500 line_A)
    as (v0 & v1 & vp & vl & ext & _ & _ & _ & _ & Hrun & Hlen & _).
  - cbn. lia.
  - lia.
  - exists ext. split; [exact Hrun|exact Hlen].
Defined.

(** C6 with a buffer distance of 0 in one script and a vertical
    exaggeration of 0 in the other. *)
Lemma C6_witness :
  halted_before_output
    (Lixpys.main (arcpy := Planar.platform) (Lixpys.mkParams 0 50 0.5%float)
       [interval 1 7] [well_7] [line_A]) ∧
  halted_before_output
    (RasterProfiles.main (arcpy := Planar.platform)
       (RasterProfiles.mkParams "topo" "et_id" 0 false) [line_A]).
Proof.
  destruct (C6_nonpositive_parameter_aborts (arcpy := Planar.platform)
              (Lixpys.mkParams 0 50 0.5%float) [interval 1 7] [well_7]
              (RasterProfiles.mkParams "topo" "et_id" 0 false) [line_A]) as [Hlix Hras].
  split.
  - apply Hlix. left. cbn. lia.
  - apply Hras. cbn. lia.
Defined.

(** C10 with two well points of id 7: the segment is drawn at the second. *)
Lemma C10_witness :
  ∃ s, Lixpys.stick_step params true (located [well_7; well_7_again]) Lixpys.no_sticks
         (interval 1 7) = mret s ∧
       map Lixpys.x_coord2 (Lixpys.polylinefile_2d s) = [400%float] ∧
       map Lixpys.distance2 (Lixpys.polylinefile_2d s) = [30%float].
Proof.
  pose proof (C10_last_matching_well_point_wins params true
                (located [well_7; well_7_again]) Lixpys.no_sticks (interval 1 7)
                1200%float 1100%float
                [Lixpys.mkWellNear well_7 1000%float 0%float 50%float 1000%float]
                (Lixpys.mkWellNear well_7_again 400%float 0%float 30%float 400%float)
                eq_refl eq_refl) as Hstep.
  cbn zeta in Hstep. eexists. split; [apply Hstep; vm_compute; reflexivity|].
  split; reflexivity.
Defined.

(** C8 on two wells, the records of well 8 first in the table. *)
Lemma C8_witness :
  ∃ out,
    outcome (Lixpys.main (arcpy := Planar.platform) params [interval 1 8; interval 2 7]
               [well_7; well_8] [line_A]) = inr out ∧
    Sorted id_le (map (λ poly, Lixpys.wellid2 (snd poly)) (Lixpys.lixpys_unloc_2d_poly out)).
Proof.
  destruct (main_completes (arcpy := Planar.platform) params [interval 1 8; interval 2 7]
              [well_7; well_8] [line_A]) as [out Hout].
  - cbn. lia.
  - cbn. lia.
  - done.
  - done.
  - done.
  - constructor; [cbn; lia|constructor].
  - exists out. split; [exact Hout|].
    exact (proj2 (C8_stick_polygons_buffered_and_sorted (arcpy := Planar.platform)
                    planar_sort_laws params [interval 1 8; interval 2 7]
                    [well_7; well_8] [line_A] out Hout)).
Defined.

(** C1 over the reals, on the planar platform: the same line, and a well
    at its first vertex. *)
Definition line_A_ideal : XsLine R :=
  mkXsLine (mkPolyline [mkPointZ 0%R 0%R 0%R; mkPointZ 1000%R 0%R 0%R] []) "A".

Definition well_at_start : WellPoint R := mkWellPoint 1 (NumericId 8) "A" 0%R 0%R.

Lemma C1_witness :
  ∃ ext well,
    Lixpys.extend_line (arcpy := Planar.platform) 500 line_A_ideal = mret (ext, "A"%string) ∧
    Lixpys.wells_of_line (arcpy := Planar.platform) 500 [well_at_start] (ext, "A"%string)
      = [well] ∧
    Lixpys.wn_point well = well_at_start ∧
    Lixpys.OnLine_DIST well = 0%R.
Proof.
  destruct (C1_measure_along_extended_line planar_laws 500 line_A_ideal
              (mkPoint 0%R 0%R) (mkPoint 1000%R 0%R))
    as (ext & new_beg & Hrun & _ & Hwells).
  - reflexivity.
  - reflexivity.
  - intros _ [= Hx]. lra.
  - lia.
  - destruct (Hwells [well_at_start]) as [_ Hwell].
    assert (Hlocated : Lixpys.wells_of_line (arcpy := Planar.platform) 500 [well_at_start]
                         (ext, "A"%string)
                       = [Lixpys.locate_well (arcpy := Planar.platform) 500 ext well_at_start]).
    { unfold Lixpys.wells_of_line, Lixpys.select_by_etid.
      by rewrite filter_cons_True, filter_nil by reflexivity. }
    exists ext, (Lixpys.locate_well (arcpy := Planar.platform) 500 ext well_at_start).
    split_and!; [exact Hrun|exact Hlocated|reflexivity|].
    destruct (Hwell (Lixpys.locate_well (arcpy := Planar.platform) 500 ext well_at_start))
      as (_ & _ & _ & _ & Hzero & _).
    + change (xs_etid line_A_ideal) with "A"%string. rewrite Hlocated.
      apply elem_of_cons. by left.
    + by apply Hzero.
Defined.

(** * Further properties of the two scripts *)

(** ** The identifier lists *)

Section IdLists.
Context {A B : Type} `{EqDecision B}.

Lemma elem_of_append_new (l : list B) (x y : B) :
  y ∈ Lixpys.append_new l x ↔ y ∈ l ∨ y = x.
Proof.
  unfold Lixpys.append_new. case_decide as Hin.
  - split; [by left|]. intros [?| ->]; done.
  - rewrite elem_of_app, list_elem_of_singleton. done.
Qed.

Lemma NoDup_append_new (l : list B) (x : B) : NoDup l → NoDup (Lixpys.append_new l x).
Proof.
  intros Hl. unfold Lixpys.append_new. case_decide as Hin; [done|].
  apply NoDup_app. split_and!; [done| |apply NoDup_singleton].
  intros y Hy ->%list_elem_of_singleton. done.
Qed.

Lemma collect_from (field : A → B) (rows : list A) (acc : list B) :
  NoDup acc →
  let l := fold_left (λ l row, Lixpys.append_new l (field row)) rows acc in
  NoDup l ∧ ∀ x, x ∈ l ↔ x ∈ acc ∨ ∃ row, row ∈ rows ∧ field row = x.
Proof.
  revert acc. induction rows as [|row rows IH]; intros acc Hacc; cbn [fold_left].
  - split; [done|]. intros x. split; [by left|]. intros [?|(row & Hrow & _)]; [done|].
    by apply not_elem_of_nil in Hrow.
  - destruct (IH (Lixpys.append_new acc (field row))) as [Hnd Hin];
      [by apply NoDup_append_new|].
    split; [done|]. intros x. rewrite Hin, elem_of_append_new. split.
    + intros [[?| ->]|(r & Hr & <-)]; [by left| |].
      * right. exists row. split; [apply elem_of_cons; by left|done].
      * right. exists r. split; [apply elem_of_cons; by right|done].
    + intros [?|(r & [->|Hr]%elem_of_cons & <-)]; [by left; left|by left; right|].
      right. by exists r.
Qed.

Lemma collect_values (field : A → B) (rows : list A) :
  NoDup (Lixpys.collect field rows) ∧
  ∀ x, x ∈ Lixpys.collect field rows ↔ ∃ row, row ∈ rows ∧ field row = x.
Proof.
  destruct (collect_from field rows []) as [Hnd Hin]; [apply NoDup_nil_2|].
  split; [exact Hnd|]. intros x. rewrite (Hin x). split; [|by right].
  intros [Hnil|?]; [by apply not_elem_of_nil in Hnil|done].
Qed.

(** X1. The list a cursor loop collects holds every value of the field once:
    it has no duplicate, and a value is in it exactly when a row has it. *)
Theorem collect_distinct_values (field : A → B) (rows : list A) :
  NoDup (Lixpys.collect field rows) ∧
  ∀ x, x ∈ Lixpys.collect field rows ↔ ∃ row, row ∈ rows ∧ field row = x.
Proof. apply collect_values. Qed.

End IdLists.

Section Orphans.
Context {F : Type} {num : PyFloat F}.

(** The part of the log the four comparisons write. *)
Definition difference_warnings (ids : Lixpys.IdLists) : list Event :=
  let report {X} (l : list X) (m : Message) := if (0 <? length l)%nat then [AddMessage m] else [] in
  let orphan_strat := Lixpys.not_in (Lixpys.strat_wellid_list ids) (Lixpys.wwpt_wellid_list ids) in
  let orphan_well := Lixpys.not_in (Lixpys.wwpt_wellid_list ids) (Lixpys.strat_wellid_list ids) in
  let etid_no_line := Lixpys.not_in (Lixpys.wwpt_etid_list ids) (Lixpys.xsln_etid_list ids) in
  let line_no_wells := Lixpys.not_in (Lixpys.xsln_etid_list ids) (Lixpys.wwpt_etid_list ids) in
  report orphan_strat (OrphanStratWarning (length orphan_strat)) ++
  report orphan_well (OrphanWellWarning (length orphan_well)) ++
  report etid_no_line (EtidNoLineWarning (length etid_no_line) etid_no_line) ++
  report line_no_wells (LineNoWellsWarning (length line_no_wells) line_no_wells).

(** Whatever the tables, the comparisons are all written before the type
    check, which adds at most its own warning. *)
Lemma reconcile_log (ids : Lixpys.IdLists) :
  log_of (Lixpys.reconcile ids) = difference_warnings ids ∨
  log_of (Lixpys.reconcile ids) = difference_warnings ids ++ [AddError TypeMismatchWarning].
Proof.
  unfold Lixpys.reconcile, difference_warnings, printit, printerror.
  repeat (rewrite ?when_returns, ?bind_returned; cbn [log_of outcome fst snd]).
  destruct (Lixpys.strat_wellid_list ids) as [|s0 sl] eqn:Hs.
  { left. cbn. by rewrite !app_nil_r. }
  rewrite py_get_first, bind_mret.
  destruct (Lixpys.wwpt_wellid_list ids) as [|w0 wl] eqn:Hw.
  { left. cbn. by rewrite !app_nil_r. }
  rewrite py_get_first, bind_mret, when_returns, bind_returned, bind_mret.
  cbn [log_of outcome fst snd].
  destruct (bool_decide _); [right|left]; by rewrite ?app_nil_r, <- ?app_assoc.
Qed.

(** X2. The number in the warning "... stratigraphy records have no matching
    well points" is the number of distinct well ids of the stratigraphy
    table that no well point has, not a number of records; the warning is
    written exactly when there is such an id, also on the runs that the type
    check then stops. *)
Theorem orphan_warning_counts_well_ids
    (strat : list (StratRow F)) (wwpt : list (WellPoint F)) (xsln : list (XsLine F)) (n : nat) :
  AddMessage (OrphanStratWarning n) ∈
    log_of (Lixpys.reconcile (Lixpys.id_lists strat wwpt xsln)) ↔
  (0 < n)%nat ∧
  ∃ orphans : list pyid,
    NoDup orphans ∧ length orphans = n ∧
    ∀ id, id ∈ orphans ↔
      (∃ row, row ∈ strat ∧ st_wellid row = id) ∧ ¬ ∃ well, well ∈ wwpt ∧ wp_wellid well = id.
Proof.
  set (ids := Lixpys.id_lists strat wwpt xsln).
  set (listprint := Lixpys.not_in (Lixpys.strat_wellid_list ids) (Lixpys.wwpt_wellid_list ids)).
  destruct (collect_values st_wellid strat) as [Hnds Hins].
  destruct (collect_values wp_wellid wwpt) as [_ Hinw].
  assert (Hnd : NoDup listprint) by (by apply NoDup_filter).
  assert (Hin : ∀ id, id ∈ listprint ↔
            (∃ row, row ∈ strat ∧ st_wellid row = id) ∧
            ¬ ∃ well, well ∈ wwpt ∧ wp_wellid well = id).
  { intros id. unfold listprint, Lixpys.not_in. rewrite list_elem_of_filter.
    cbn [ids Lixpys.id_lists Lixpys.strat_wellid_list Lixpys.wwpt_wellid_list].
    rewrite Hins, Hinw. tauto. }
  assert (Hlog : AddMessage (OrphanStratWarning n) ∈ log_of (Lixpys.reconcile ids) ↔
            (0 < n)%nat ∧ length listprint = n).
  { assert (Hwarn : AddMessage (OrphanStratWarning n) ∈ difference_warnings ids ↔
              (0 < n)%nat ∧ length listprint = n).
    { unfold difference_warnings. fold listprint. rewrite !elem_of_app.
      split.
      - intros [H1|[H2|[H3|H4]]].
        + destruct (Nat.ltb_spec 0 (length listprint)); [|by apply not_elem_of_nil in H1].
          apply list_elem_of_singleton in H1. injection H1 as ->. done.
        + destruct (_ <? _)%nat; [by apply list_elem_of_singleton in H2|].
          by apply not_elem_of_nil in H2.
        + destruct (_ <? _)%nat; [by apply list_elem_of_singleton in H3|].
          by apply not_elem_of_nil in H3.
        + destruct (_ <? _)%nat; [by apply list_elem_of_singleton in H4|].
          by apply not_elem_of_nil in H4.
      - intros [Hpos <-]. left.
        destruct (Nat.ltb_spec 0 (length listprint)); [|lia].
        by apply list_elem_of_singleton. }
    destruct (reconcile_log ids) as [-> | ->]; [done|].
    rewrite elem_of_app, Hwarn, list_elem_of_singleton. split; [|by left].
    intros [?|?]; done. }
  rewrite Hlog. split.
  - intros [Hpos Hlen]. split; [done|]. by exists listprint.
  - intros (Hpos & orphans & Hndo & Hlen & Hino). split; [done|].
    rewrite <- Hlen. apply Permutation_length, NoDup_Permutation; [done..|].
    intros id. by rewrite Hin, Hino.
Qed.

End Orphans.

(** ** How a run ends *)

Lemma outcome_bind_raised {A B} (m : Run A) (k : A → Run B) (e : Exn) :
  outcome m = inl e → outcome (m ≫= k) = inl e.
Proof. destruct m as [log [e'|a]]; [|done]. by intros [= ->]. Qed.

Lemma outcome_bind_returned {A B} (m : Run A) (k : A → Run B) (a : A) :
  outcome m = inr a → outcome (m ≫= k) = outcome (k a).
Proof.
  destruct m as [log [e|a']]; [done|]. intros [= ->]. by rewrite bind_returned.
Qed.

Section Endings.
Context {F : Type} {num : PyFloat F} {arcpy : Arcpy F}.

(** The line is too short when it has fewer than two vertices. *)
Definition short (line : XsLine F) : Prop := (length (vertices line) < 2)%nat.

#[global] Instance short_dec line : Decision (short line).
Proof. unfold short. apply _. Defined.

Lemma extend_line_short (bd : Z) (line : XsLine F) :
  short line → Lixpys.extend_line bd line = raise IndexError.
Proof.
  unfold short, vertices, Lixpys.extend_line. intros Hlen.
  destruct (map Lixpys.point_of (getPart0 (xs_shape line))) as [|v0 [|v1 rest]];
    [reflexivity|reflexivity|cbn in Hlen; lia].
Qed.

Lemma not_short (line : XsLine F) : ¬ short line ↔ (2 ≤ length (vertices line))%nat.
Proof. unfold short. lia. Qed.

Lemma extend_loop_short (bd : Z) (xsln : list (XsLine F))
    (acc : list (list (Point F) * string)) :
  Exists short xsln →
  for_each xsln
    (λ xsln_temp line, row ← Lixpys.extend_line bd line; mret (xsln_temp ++ [row])) acc
  = raise IndexError.
Proof.
  intros Hx. revert acc. induction xsln as [|line xsln IH]; intros acc; [by inv Hx|].
  cbn [for_each]. destruct (decide (short line)) as [Hs|Hs].
  - by rewrite extend_line_short.
  - apply not_short in Hs. destruct (extend_line_returns bd line Hs) as [ext ->].
    rewrite !bind_mret. apply IH. inv Hx; [unfold short in *; lia|done].
Qed.

(** X3. A cross-section line with fewer than two vertices stops the
    extension of the lines with an [IndexError], without any message. *)
Theorem extend_lines_short_line_raises (bd : Z) (xsln : list (XsLine F)) :
  Exists short xsln → Lixpys.extend_lines bd xsln = raise IndexError.
Proof. apply extend_loop_short. Qed.

(** When it returns, the extended file has the lines of the input in their
    order, each with its id and as many vertices. *)
Lemma extend_loop_rows (bd : Z) (xsln : list (XsLine F))
    (acc xsln_temp : list (list (Point F) * string)) :
  for_each xsln
    (λ xsln_temp line, row ← Lixpys.extend_line bd line; mret (xsln_temp ++ [row])) acc
  = mret xsln_temp →
  ∃ rows, xsln_temp = acc ++ rows ∧
    Forall2 (λ row line, snd row = xs_etid line ∧ length (fst row) = length (vertices line))
            rows xsln.
Proof.
  revert acc. induction xsln as [|line xsln IH]; intros acc Hrun.
  - cbn in Hrun. injection Hrun as <-. exists []. by rewrite app_nil_r.
  - cbn [for_each] in Hrun. destruct (decide (short line)) as [Hs|Hs].
    { by rewrite extend_line_short in Hrun. }
    apply not_short in Hs.
    destruct (lookup_lt_is_Some_2 (vertices line) 0) as [v0 H0]; [lia|].
    destruct (lookup_lt_is_Some_2 (vertices line) 1) as [v1 H1]; [lia|].
    destruct (lookup_lt_is_Some_2 (vertices line) (length (vertices line) - 2))
      as [vp Hp]; [lia|].
    destruct (lookup_lt_is_Some_2 (vertices line) (length (vertices line) - 1))
      as [vl Hl]; [lia|].
    rewrite (extend_line_run bd line v0 v1 vp vl Hs H0 H1 Hp Hl), !bind_mret in Hrun.
    destruct (IH _ Hrun) as (rows & -> & Hrows).
    eexists (_ :: rows). rewrite <- app_assoc. split; [reflexivity|].
    constructor; [|done]. cbn [fst snd]. split; [done|].
    by rewrite !length_insert.
Qed.

Lemma extend_lines_rows (bd : Z) (xsln : list (XsLine F))
    (xsln_temp : list (list (Point F) * string)) :
  Lixpys.extend_lines bd xsln = mret xsln_temp →
  Forall2 (λ row line, snd row = xs_etid line ∧ length (fst row) = length (vertices line))
          xsln_temp xsln.
Proof. intros Hrun. by destruct (extend_loop_rows bd xsln [] xsln_temp Hrun) as (rows & -> & ?). Qed.

(** *** The stick-diagram script *)

Lemma reconcile_no_strat (wwpt : list (WellPoint F)) (xsln : list (XsLine F)) :
  outcome (Lixpys.reconcile (Lixpys.id_lists [] wwpt xsln)) = inl IndexError.
Proof.
  unfold Lixpys.reconcile, Lixpys.id_lists, printit.
  cbn [Lixpys.strat_wellid_list Lixpys.wwpt_wellid_list Lixpys.wwpt_etid_list
       Lixpys.xsln_etid_list].
  rewrite !when_returns, !bind_returned. reflexivity.
Qed.

Lemma reconcile_no_wells (s : StratRow F) (strat : list (StratRow F)) (xsln : list (XsLine F)) :
  outcome (Lixpys.reconcile (Lixpys.id_lists (s :: strat) [] xsln)) = inl IndexError.
Proof.
  unfold Lixpys.reconcile, Lixpys.id_lists, printit.
  cbn [Lixpys.strat_wellid_list Lixpys.wwpt_wellid_list Lixpys.wwpt_etid_list
       Lixpys.xsln_etid_list].
  pose proof (collect_head st_wellid s strat) as Hs.
  destruct (Lixpys.collect st_wellid (s :: strat)) as [|s0 sl]; [done|].
  rewrite !when_returns, !bind_returned, py_get_first, bind_mret. reflexivity.
Qed.

(** The five ways the script ends. *)
Lemma main_endings (p : Lixpys.Params F) (strat : list (StratRow F))
    (wwpt : list (WellPoint F)) (xsln : list (XsLine F)) :
  let run := Lixpys.main p strat wwpt xsln in
  let bad_parameter := Lixpys.buffer_dist p ≤ 0 ∨ Lixpys.vertical_exaggeration p ≤ 0 in
  let empty_table := strat = [] ∨ wwpt = [] in
  (bad_parameter → outcome run = inl SystemExit) ∧
  (¬ bad_parameter → empty_table → outcome run = inl IndexError) ∧
  (¬ bad_parameter → ¬ empty_table → Exists short xsln → outcome run = inl IndexError) ∧
  (¬ bad_parameter → ¬ empty_table → xsln = [] → outcome run = inl ExecuteError) ∧
  (¬ bad_parameter → ¬ empty_table → xsln ≠ [] → ¬ Exists short xsln → completed run).
Proof.
  cbn zeta. split_and!.
  - intros Hp. unfold Lixpys.main.
    rewrite lixpys_multipart_check_run, bind_returned.
    by rewrite (check_params_exit p Hp), bind_raised.
  - intros Hp Hempty. unfold Lixpys.main.
    rewrite lixpys_multipart_check_run, bind_returned, check_params_ok, bind_mret by lia.
    rewrite count_checks_run, bind_returned. cbn [outcome snd].
    apply outcome_bind_raised.
    destruct strat as [|s strat]; [apply reconcile_no_strat|].
    destruct Hempty as [?| ->]; [done|]. apply reconcile_no_wells.
  - intros Hp Hempty Hshort. unfold Lixpys.main.
    destruct strat as [|s strat]; [tauto|]. destruct wwpt as [|w wwpt]; [tauto|].
    rewrite lixpys_multipart_check_run, bind_returned, check_params_ok, bind_mret by lia.
    rewrite count_checks_run, bind_returned. cbn [outcome snd].
    erewrite outcome_bind_returned by apply reconcile_returns.
    do 5 (erewrite outcome_bind_returned by reflexivity).
    apply outcome_bind_raised. unfold Lixpys.extend_lines. by rewrite extend_loop_short.
  - intros Hp Hempty ->. unfold Lixpys.main.
    destruct strat as [|s strat]; [tauto|]. destruct wwpt as [|w wwpt]; [tauto|].
    rewrite lixpys_multipart_check_run, bind_returned, check_params_ok, bind_mret by lia.
    rewrite count_checks_run, bind_returned. cbn [outcome snd].
    erewrite outcome_bind_returned by apply reconcile_returns.
    do 7 (erewrite outcome_bind_returned by reflexivity).
    by apply outcome_bind_raised.
  - intros Hp Hempty Hlines Hshort. apply main_completes; [lia|lia|tauto|tauto|done|].
    apply Forall_forall. intros line Hline. apply not_short. intros Hs.
    apply Hshort, Exists_exists. by exists line.
Qed.

(** X4. The stick-diagram script runs to its end exactly when both
    parameters are positive, the stratigraphy table, the well point file
    and the line file are not empty and every line has two vertices or more.
    It stops on [SystemExit] exactly when a parameter is not positive, and
    on the failure of [Merge] exactly when, with positive parameters and
    tables that are not empty, there is no line; every other stop is an
    [IndexError], and it never reads a local before it is assigned. *)
Theorem main_completes_iff (p : Lixpys.Params F) (strat : list (StratRow F))
    (wwpt : list (WellPoint F)) (xsln : list (XsLine F)) :
  let run := Lixpys.main p strat wwpt xsln in
  (completed run ↔
     0 < Lixpys.buffer_dist p ∧ 0 < Lixpys.vertical_exaggeration p ∧
     strat ≠ [] ∧ wwpt ≠ [] ∧ xsln ≠ [] ∧
     Forall (λ line, (2 ≤ length (getPart0 (xs_shape line)))%nat) xsln) ∧
  (outcome run = inl SystemExit ↔
     Lixpys.buffer_dist p ≤ 0 ∨ Lixpys.vertical_exaggeration p ≤ 0) ∧
  (outcome run = inl ExecuteError ↔
     0 < Lixpys.buffer_dist p ∧ 0 < Lixpys.vertical_exaggeration p ∧
     strat ≠ [] ∧ wwpt ≠ [] ∧ xsln = []) ∧
  (outcome run = inl IndexError ↔
     0 < Lixpys.buffer_dist p ∧ 0 < Lixpys.vertical_exaggeration p ∧
     (strat = [] ∨ wwpt = [] ∨
      Exists (λ line, (length (getPart0 (xs_shape line)) < 2)%nat) xsln)) ∧
  outcome run ≠ inl NameError.
Proof.
  cbn zeta.
  destruct (main_endings p strat wwpt xsln) as (Hexit & Hempty & Hshort & Hnone & Hdone).
  cbn zeta in *.
  assert (Hvert : ∀ line : XsLine F,
            length (vertices line) = length (getPart0 (xs_shape line))).
  { intros line. unfold vertices. by rewrite length_map. }
  assert (Hex : Exists short xsln ↔
                Exists (λ line, (length (getPart0 (xs_shape line)) < 2)%nat) xsln).
  { apply Exists_proper; [|done]. intros line. unfold short. by rewrite Hvert. }
  assert (Hall : Forall (λ line, (2 ≤ length (getPart0 (xs_shape line)))%nat) xsln ↔
                 ¬ Exists short xsln).
  { rewrite <- Forall_Exists_neg. apply Forall_proper; [|done].
    intros line. unfold short. rewrite Hvert. lia. }
  rewrite <- Hex, Hall.
  unfold completed.
  assert (Hlines : Exists short xsln → xsln ≠ []).
  { intros Hs ->. by apply Exists_nil in Hs. }
  destruct (decide (Lixpys.buffer_dist p ≤ 0 ∨ Lixpys.vertical_exaggeration p ≤ 0)) as [Hp|Hp];
    [rewrite (Hexit Hp)|
     destruct (decide (strat = [] ∨ wwpt = [])) as [He|He];
       [rewrite (Hempty Hp He)|
        destruct (decide (Exists short xsln)) as [Hs|Hs];
          [rewrite (Hshort Hp He Hs)|
           destruct (decide (xsln = [])) as [Hn|Hn];
             [rewrite (Hnone Hp He Hn)|
              destruct (Hdone Hp He Hn Hs) as [out Hout]; rewrite Hout]]]];
    clear Hexit Hempty Hshort Hnone Hdone Hex Hall Hvert;
    (split_and!; [split; [intros [? ?]|intros ?]|split; intros ?..|intros ?]);
    try discriminate; try tauto; try (split_and!; first [lia|tauto]);
    try (exfalso; first [lia|tauto]).
  by exists out.
Qed.

End Endings.

(** ** The well points by cross section *)

Section Store.
Context {F : Type} {num : PyFloat F} {arcpy : Arcpy F}.
Implicit Types (fd : Lixpys.Dataset F) (rows : list (Lixpys.WellNear F))
  (line : list (Point F) * string).

(** The name of the feature class of a cross-section id. *)
Definition class_name (et_id : string) : string := "wwpt_" +:+ et_id.

Lemma class_name_inj (a b : string) : class_name a = class_name b → a = b.
Proof. unfold class_name. intros Heq. cbv [String.append] in Heq. by simplify_eq. Qed.

Lemma write_class_fresh (name : string) rows fd :
  name ∉ fd.*1 → Lixpys.write_class name rows fd = fd ++ [(name, rows)].
Proof.
  induction fd as [|[name' rows'] fd IH]; intros Hfresh; [done|].
  cbn [Lixpys.write_class]. cbn in Hfresh. apply not_elem_of_cons in Hfresh as [Hne Hfresh].
  destruct (decide (name' = name)); [congruence|]. by rewrite IH.
Qed.

Lemma write_class_names (name : string) rows fd :
  (Lixpys.write_class name rows fd).*1 = if decide (name ∈ fd.*1) then fd.*1 else fd.*1 ++ [name].
Proof.
  induction fd as [|[name' rows'] fd IH]; [done|].
  cbn [Lixpys.write_class]. destruct (decide (name' = name)) as [->|Hname].
  - cbn. rewrite decide_True; [done|]. apply elem_of_cons. by left.
  - cbn. rewrite IH. destruct (decide (name ∈ fd.*1)) as [Hin|Hin].
    + rewrite decide_True; [done|]. apply elem_of_cons. by right.
    + rewrite decide_False; [done|]. intros [?|?]%elem_of_cons; congruence.
Qed.

Lemma write_class_NoDup (name : string) rows fd :
  NoDup fd.*1 → NoDup (Lixpys.write_class name rows fd).*1.
Proof.
  intros Hfd. rewrite write_class_names. case_decide as Hin; [done|].
  apply NoDup_app. split_and!; [done| |apply NoDup_singleton].
  by intros x Hx ->%list_elem_of_singleton.
Qed.

(** Writing a class replaces the class of that name and leaves the others. *)
Lemma elem_of_write_class (name : string) rows fd (name' : string) rows' :
  NoDup fd.*1 →
  (name', rows') ∈ Lixpys.write_class name rows fd ↔
  (name' = name ∧ rows' = rows) ∨ (name' ≠ name ∧ (name', rows') ∈ fd).
Proof.
  induction fd as [|[n r] fd IH]; intros Hfd.
  - cbn. rewrite list_elem_of_singleton. split.
    + intros [= -> ->]. by left.
    + intros [[-> ->]|[_ Hnil]]; [done|]. by apply not_elem_of_nil in Hnil.
  - cbn [Lixpys.write_class]. cbn in Hfd. apply NoDup_cons in Hfd as [Hn Hfd].
    destruct (decide (n = name)) as [->|Hname].
    + rewrite !elem_of_cons. split.
      * intros [[= -> ->]|Hin]; [by left|]. right. split; [|by right].
        intros ->. apply Hn. apply list_elem_of_fmap. by exists (name, rows').
      * intros [[-> ->]|[Hne [[= ? ?]|Hin]]]; [by left|done|by right].
    + rewrite !elem_of_cons, (IH Hfd). split.
      * intros [[= -> ->]|[[-> ->]|[Hne Hin]]]; [right|by left|right]; split; try done.
        -- by left.
        -- by right.
      * intros [[-> ->]|[Hne [[= -> ->]|Hin]]]; [right; by left|by left|].
        right. right. done.
Qed.

Definition class_of (bd : Z) (wells : list (WellPoint F)) line
    : string * list (Lixpys.WellNear F) :=
  (class_name (snd line), Lixpys.wells_of_line bd wells line).

(** [line] is the last of the lines with its id. *)
Definition last_with_id (lines : list (list (Point F) * string)) line : Prop :=
  ∃ before after, lines = before ++ line :: after ∧ snd line ∉ after.*2.

Lemma last_with_id_cons line0 lines line :
  last_with_id (line0 :: lines) line ↔
  last_with_id lines line ∨ (line = line0 ∧ snd line0 ∉ lines.*2).
Proof.
  split.
  - intros (before & after & Heq & Hlast). destruct before as [|b before].
    + injection Heq as -> ->. by right.
    + injection Heq as -> ->. left. by exists before, after.
  - intros [(before & after & -> & Hlast)|[-> Hlast]].
    + by exists (line0 :: before), after.
    + by exists [], lines.
Qed.

Lemma near_analysis_from (bd : Z) (wells : list (WellPoint F))
    (lines : list (list (Point F) * string)) fd :
  NoDup fd.*1 →
  let fd' := fold_left (λ fd line, Lixpys.write_class ("wwpt_" +:+ snd line)
                          (Lixpys.wells_of_line bd wells line) fd) lines fd in
  NoDup fd'.*1 ∧
  ∀ name rows, (name, rows) ∈ fd' ↔
    (∃ line, last_with_id lines line ∧ (name, rows) = class_of bd wells line) ∨
    ((name, rows) ∈ fd ∧ ∀ line, line ∈ lines → class_name (snd line) ≠ name).
Proof.
  revert fd. induction lines as [|line0 lines IH]; intros fd Hfd; cbn [fold_left].
  - split; [done|]. intros name rows. split.
    + intros Hin. right. split; [done|]. intros line Hline. by apply not_elem_of_nil in Hline.
    + intros [(line & (before & after & Heq & _) & _)|[Hin _]]; [|done].
      by destruct before.
  - destruct (IH (Lixpys.write_class ("wwpt_" +:+ snd line0)
                    (Lixpys.wells_of_line bd wells line0) fd)) as [Hnd Hin];
      [by apply write_class_NoDup|].
    split; [exact Hnd|]. intros name rows.
    rewrite (Hin name rows), (elem_of_write_class _ _ _ _ _ Hfd).
    fold (class_name (snd line0)). setoid_rewrite last_with_id_cons. split.
    + intros [(line & Hlast & Heq)|[[[-> ->]|[Hne Hfdin]] Hrest]].
      * left. exists line. split; [by left|done].
      * left. exists line0. split; [|done]. right. split; [done|].
        intros (l & Heq & Hl)%list_elem_of_fmap. apply (Hrest l Hl). by rewrite Heq.
      * right. split; [done|]. intros l [->|Hl]%elem_of_cons; [done|by apply Hrest].
    + intros [(line & [Hlast|[-> Hlast]] & Heq)|[Hfdin Hrest]].
      * left. by exists line.
      * right. injection Heq as -> ->. split; [by left|].
        intros l Hl Hname. apply class_name_inj in Hname.
        apply Hlast, list_elem_of_fmap. by exists l.
      * right. split.
        -- right. split; [|done]. intros Heq. apply (Hrest line0); [|done].
           apply elem_of_cons. by left.
        -- intros l Hl. apply Hrest. apply elem_of_cons. by right.
Qed.

Lemma near_analysis_classes (bd : Z) (wells : list (WellPoint F))
    (xsln_temp : list (list (Point F) * string)) :
  let fd := Lixpys.near_analysis bd wells xsln_temp in
  NoDup fd.*1 ∧
  ∀ name rows, (name, rows) ∈ fd ↔
    ∃ geometry et_id,
      last_with_id xsln_temp (geometry, et_id) ∧
      name = "wwpt_" +:+ et_id ∧
      rows = map (Lixpys.locate_well bd geometry) (filter (λ w, wp_etid w = et_id) wells).
Proof.
  destruct (near_analysis_from bd wells xsln_temp []) as [Hnd Hin]; [apply NoDup_nil_2|].
  split; [exact Hnd|]. intros name rows. unfold Lixpys.near_analysis. rewrite (Hin name rows).
  split.
  - intros [([geometry et_id] & Hlast & [= -> ->])|[Hnil _]];
      [|by apply not_elem_of_nil in Hnil].
    by exists geometry, et_id.
  - intros (geometry & et_id & Hlast & -> & ->). left. by exists (geometry, et_id).
Qed.

(** X5. The dataset of the well points by cross section has one feature
    class for each cross-section id, and the class of an id holds the well
    points with that id located against the last line of that id: when two
    lines share an id, the class written for the first is overwritten. *)
Theorem near_analysis_last_line_wins (bd : Z) (wells : list (WellPoint F))
    (xsln_temp : list (list (Point F) * string)) :
  let fd := Lixpys.near_analysis bd wells xsln_temp in
  NoDup fd.*1 ∧
  ∀ name rows, (name, rows) ∈ fd ↔
    ∃ geometry et_id,
      last_with_id xsln_temp (geometry, et_id) ∧
      name = "wwpt_" +:+ et_id ∧
      rows = map (Lixpys.locate_well bd geometry) (filter (λ w, wp_etid w = et_id) wells).
Proof. apply near_analysis_classes. Qed.

Lemma elem_of_merge fd (well : Lixpys.WellNear F) :
  well ∈ Lixpys.merge fd ↔ ∃ name rows, (name, rows) ∈ fd ∧ well ∈ rows.
Proof.
  unfold Lixpys.merge. rewrite list_elem_of_In, in_concat. split.
  - intros (rows & Hin & Hwell). rewrite <- list_elem_of_In, map_fmap in Hin.
    apply list_elem_of_fmap in Hin as ([name rows'] & -> & Hin).
    exists name, rows'. by rewrite list_elem_of_In.
  - intros (name & rows & Hin & Hwell). exists rows. rewrite <- !list_elem_of_In, map_fmap.
    split; [|done]. apply list_elem_of_fmap. by exists (name, rows).
Qed.

(** X6. The merged well point file holds exactly the well points whose
    cross-section id is the id of a line, each with the nearest point and
    the measure taken on the last line of that id.  A well point whose id is
    the id of no line is not in it. *)
Theorem merged_wells (bd : Z) (wells : list (WellPoint F))
    (xsln_temp : list (list (Point F) * string)) (well : Lixpys.WellNear F) :
  well ∈ Lixpys.merge (Lixpys.near_analysis bd wells xsln_temp) ↔
  ∃ point geometry,
    point ∈ wells ∧
    last_with_id xsln_temp (geometry, wp_etid point) ∧
    well = Lixpys.locate_well bd geometry point.
Proof.
  destruct (near_analysis_classes bd wells xsln_temp) as [_ Hin]. cbn zeta in Hin.
  rewrite elem_of_merge. split.
  - intros (name & rows & (geometry & et_id & Hlast & -> & ->)%Hin & Hwell).
    rewrite map_fmap in Hwell.
    apply list_elem_of_fmap in Hwell as (point & -> & Hpoint).
    apply list_elem_of_filter in Hpoint as [<- Hpoint]. by exists point, geometry.
  - intros (point & geometry & Hpoint & Hlast & ->).
    exists ("wwpt_" +:+ wp_etid point),
           (map (Lixpys.locate_well bd geometry)
                (filter (λ w, wp_etid w = wp_etid point) wells)).
    split; [apply Hin; by exists geometry, (wp_etid point)|].
    rewrite map_fmap. apply list_elem_of_fmap. exists point. split; [done|].
    by apply list_elem_of_filter.
Qed.

Lemma near_analysis_distinct_from (bd : Z) (wells : list (WellPoint F))
    (done lines : list (list (Point F) * string)) :
  NoDup (done ++ lines).*2 →
  fold_left (λ fd line, Lixpys.write_class ("wwpt_" +:+ snd line)
               (Lixpys.wells_of_line bd wells line) fd) lines (class_of bd wells <$> done)
  = class_of bd wells <$> (done ++ lines).
Proof.
  revert done. induction lines as [|line lines IH]; intros done Hnd; cbn [fold_left].
  - by rewrite app_nil_r.
  - rewrite write_class_fresh.
    + replace (done ++ line :: lines) with ((done ++ [line]) ++ lines) in *
        by (by rewrite <- app_assoc).
      rewrite <- (IH (done ++ [line]) Hnd). by rewrite fmap_app.
    + rewrite fmap_app in Hnd. apply NoDup_app in Hnd as (_ & Hdisj & _).
      rewrite <- list_fmap_compose. intros (l & Hname & Hl)%list_elem_of_fmap.
      cbn in Hname. apply (class_name_inj (snd line) (snd l)) in Hname.
      apply (Hdisj (snd l)); [apply list_elem_of_fmap; by exists l|].
      rewrite <- Hname. cbn. apply elem_of_cons. by left.
Qed.

Lemma merge_distinct (bd : Z) (wells : list (WellPoint F))
    (xsln_temp : list (list (Point F) * string)) :
  NoDup (map snd xsln_temp) →
  Lixpys.merge (Lixpys.near_analysis bd wells xsln_temp)
    = flat_map (Lixpys.wells_of_line bd wells) xsln_temp.
Proof.
  intros Hnd. unfold Lixpys.merge. rewrite map_fmap in Hnd.
  rewrite (near_analysis_distinct_from bd wells [] xsln_temp Hnd
           : Lixpys.near_analysis bd wells xsln_temp = class_of bd wells <$> xsln_temp). clear Hnd. induction xsln_temp as [|line lines IH]; [done|].
  cbn. by rewrite IH.
Qed.

(** X7. When the lines have distinct ids, the merged file holds, for every
    line, the well points with the id of the line located against it, each
    as many times as it is in the well point file, and nothing else. *)
Theorem merge_of_distinct_lines (bd : Z) (wells : list (WellPoint F))
    (xsln_temp : list (list (Point F) * string)) :
  NoDup (map snd xsln_temp) →
  Lixpys.merge (Lixpys.near_analysis bd wells xsln_temp)
    ≡ₚ flat_map (λ line, map (Lixpys.locate_well bd (fst line))
                             (filter (λ w, wp_etid w = snd line) wells)) xsln_temp.
Proof.
  intros Hnd. rewrite merge_distinct by done.
  erewrite flat_map_ext; [reflexivity|]. by intros [geometry et_id].
Qed.

End Store.

(** ** The two stick files *)

Section StickFiles.
Context {F : Type} {num : PyFloat F} {arcpy : Arcpy F}.
Implicit Types (p : Lixpys.Params F) (wwpt : list (Lixpys.WellNear F))
  (row : StratRow F).

(** A 3D row and a 2D row of the same stratigraphy record: the same
    attributes; the 3D segment is vertical, at the true position of the
    well, between the two elevations; the 2D segment is vertical too,
    between the same elevations. *)
Definition same_record (r3 : Lixpys.Row3D F) (r2 : Lixpys.Row2D F) : Prop :=
  Lixpys.strat_oid3 r3 = Lixpys.strat_oid2 r2 ∧
  Lixpys.wellid3 r3 = Lixpys.wellid2 r2 ∧
  Lixpys.etid3 r3 = Lixpys.etid2 r2 ∧
  Lixpys.x_coord3 r3 = Lixpys.x_coord2 r2 ∧
  Lixpys.y_coord3 r3 = Lixpys.y_coord2 r2 ∧
  Lixpys.z_top3 r3 = Lixpys.z_top2 r2 ∧
  Lixpys.z_bot3 r3 = Lixpys.z_bot2 r2 ∧
  Lixpys.shape3 r3 =
    (mkPointZ (Lixpys.x_coord3 r3) (Lixpys.y_coord3 r3) (Lixpys.z_top3 r3),
     mkPointZ (Lixpys.x_coord3 r3) (Lixpys.y_coord3 r3) (Lixpys.z_bot3 r3)) ∧
  ∃ x, Lixpys.shape2 r2 =
         mkSegment (mkPoint x (Lixpys.z_top2 r2)) (mkPoint x (Lixpys.z_bot2 r2)).

Lemma drawn_same_record p numeric wwpt row r3 r2 :
  drawn p numeric wwpt row = Some (r3, r2) → same_record r3 r2.
Proof.
  unfold drawn.
  destruct (elev_top row) as [top|], (elev_bot row) as [bot|],
    (last (matches numeric wwpt row)) as [well|]; try done.
  intros [= <- <-]. unfold same_record. cbn. split_and!; try done. by eexists.
Qed.

Lemma omap_Forall2 {A B C} (f : A → option (B * C)) (R : B → C → Prop) (l : list A) :
  (∀ a b c, f a = Some (b, c) → R b c) → Forall2 R (omap f l).*1 (omap f l).*2.
Proof.
  intros Hf. induction l as [|a l IH]; [constructor|].
  cbn [omap list_omap]. destruct (f a) as [[b c]|] eqn:Ha; [|done].
  cbn. constructor; [by apply (Hf a)|done].
Qed.

(** X8. The 3D stick file and the 2D stick file go row by row: the rows at
    the same position come from the same stratigraphy record and carry the
    same well id, cross-section id, true coordinates and elevations; the 3D
    segment stands at the true position of the well, the 2D one at one
    abscissa, both between the two elevations. *)
Theorem stick_files_agree p (numeric : bool) wwpt (strat : list (StratRow F)) :
  ∃ s, outcome (Lixpys.make_sticks p numeric wwpt strat) = inr s ∧
    Forall2 same_record (Lixpys.polylinefile_3d s) (Lixpys.polylinefile_2d s).
Proof.
  destruct (make_sticks_run p numeric wwpt strat) as [v Hrun]. cbn zeta in Hrun.
  rewrite Hrun. eexists. split; [reflexivity|]. cbn.
  apply omap_Forall2. intros row r3 r2. apply drawn_same_record.
Qed.

(** The record can be drawn: it has both elevations, and a located well
    point has its well id. *)
Definition drawable wwpt row : Prop :=
  is_Some (elev_top row) ∧ is_Some (elev_bot row) ∧
  Exists (λ well, wp_wellid (Lixpys.wn_point well) = st_wellid row) wwpt.

#[global] Instance drawable_dec wwpt row : Decision (drawable wwpt row).
Proof. unfold drawable. apply _. Defined.

Lemma matches_nil (numeric : bool) wwpt row :
  matches numeric wwpt row = [] ↔
  ¬ Exists (λ well, wp_wellid (Lixpys.wn_point well) = st_wellid row) wwpt.
Proof.
  unfold matches. induction wwpt as [|well wwpt IH].
  - split; [|done]. intros _ Hex. by apply Exists_nil in Hex.
  - rewrite filter_cons, Exists_cons. unfold Lixpys.where_clause at 1.
    case_decide as Hwell.
    + apply bool_decide_unpack in Hwell. split; [done|]. intros Hno. destruct Hno. by left.
    + rewrite IH. split.
      * intros Hno [Heq|Hex]; [|done]. apply Hwell. by apply bool_decide_pack.
      * intros Hno Hex. apply Hno. by right.
Qed.

Lemma drawn_drawable p (numeric : bool) wwpt row :
  match drawn p numeric wwpt row with
  | Some (r3, r2) =>
      drawable wwpt row ∧ Lixpys.strat_oid2 r2 = st_oid row ∧
      Lixpys.wellid2 r2 = st_wellid row ∧
      elev_top row = Some (Lixpys.z_top2 r2) ∧ elev_bot row = Some (Lixpys.z_bot2 r2)
  | None => ¬ drawable wwpt row
  end.
Proof.
  unfold drawn, drawable.
  destruct (elev_top row) as [top|]; [|by intros [[? [=]] _]].
  destruct (elev_bot row) as [bot|]; [|by intros (_ & [? [=]] & _)].
  destruct (last (matches numeric wwpt row)) as [well|] eqn:Hlast.
  - cbn. split_and!; try done.
    destruct (decide (Exists (λ well, wp_wellid (Lixpys.wn_point well) = st_wellid row) wwpt))
      as [Hex|Hno]; [done|].
    apply (matches_nil numeric) in Hno. by rewrite Hno in Hlast.
  - apply last_None in Hlast. intros (_ & _ & Hex). by apply (matches_nil numeric wwpt row).
Qed.

(** X9. The stick files hold one row for every stratigraphy record that
    has both elevations and whose well id is that of a located well point,
    and no other; the rows are in the order of the table, and each carries
    the object id, the well id and the two elevations of its record. *)
Theorem sticks_of_drawable_records p (numeric : bool) wwpt (strat : list (StratRow F)) :
  ∃ s, outcome (Lixpys.make_sticks p numeric wwpt strat) = inr s ∧
    map (λ r2, (Lixpys.strat_oid2 r2, Lixpys.wellid2 r2,
                Some (Lixpys.z_top2 r2), Some (Lixpys.z_bot2 r2)))
        (Lixpys.polylinefile_2d s)
    = map (λ row, (st_oid row, st_wellid row, elev_top row, elev_bot row))
        (filter (drawable wwpt) strat).
Proof.
  destruct (make_sticks_run p numeric wwpt strat) as [v Hrun]. cbn zeta in Hrun.
  rewrite Hrun. eexists. split; [reflexivity|]. cbn. clear Hrun.
  induction strat as [|row strat IH]; [done|].
  cbn [omap list_omap]. rewrite filter_cons.
  pose proof (drawn_drawable p numeric wwpt row) as Hrow.
  destruct (drawn p numeric wwpt row) as [[r3 r2]|].
  - destruct Hrow as (Hd & Hoid & Hid & Htop & Hbot). rewrite decide_True by done.
    cbn. rewrite IH. by rewrite Hoid, Hid, Htop, Hbot.
  - by rewrite decide_False.
Qed.

End StickFiles.

(** ** The fields joined to the outputs *)

Section Fields.

Lemma list_remove_sublist (x : string) (l : list string) : sublist (list_remove x l) l.
Proof.
  induction l as [|y l IH]; [done|]. cbn [list_remove].
  case_decide; [by apply sublist_cons|by apply sublist_skip].
Qed.

Lemma list_remove_others (P : string → Prop) `{∀ f, Decision (P f)} (x : string)
    (l : list string) :
  ¬ P x → filter P (list_remove x l) = filter P l.
Proof.
  intros Hx. induction l as [|y l IH]; [done|]. cbn [list_remove].
  case_decide as Hy.
  - subst y. by rewrite filter_cons_False.
  - by rewrite !filter_cons, IH.
Qed.

Lemma filter_absent (x : string) (l : list string) : x ∉ l → filter (λ f, f ≠ x) l = l.
Proof.
  induction l as [|y l IH]; [done|]. intros [Hne Hl]%not_elem_of_cons.
  rewrite filter_cons_True by done. by rewrite IH.
Qed.

Lemma list_remove_distinct (x : string) (l : list string) :
  NoDup l → list_remove x l = filter (λ f, f ≠ x) l.
Proof.
  induction l as [|y l IH]; [done|]. intros [Hy Hl]%NoDup_cons. cbn [list_remove].
  case_decide as Heq.
  - subst y. rewrite filter_cons_False by (intros Hne; by apply Hne).
    by rewrite filter_absent.
  - rewrite filter_cons_True by done. by rewrite IH.
Qed.

Lemma remove_fields_cons (field : string) (unwanted names : list string) :
  remove_fields (field :: unwanted) names =
  remove_fields unwanted (if decide (field ∈ names) then list_remove field names else names).
Proof. reflexivity. Qed.

Lemma remove_fields_filter (unwanted names : list string) :
  NoDup names → remove_fields unwanted names = filter (λ f, f ∉ unwanted) names.
Proof.
  revert names. induction unwanted as [|field unwanted IH]; intros names Hnd.
  - unfold remove_fields. cbn [fold_left]. clear Hnd.
    induction names as [|f names IH]; [done|].
    rewrite filter_cons_True by apply not_elem_of_nil. by rewrite <- IH.
  - rewrite remove_fields_cons.
    assert (Hstep : (if decide (field ∈ names) then list_remove field names else names)
                    = filter (λ f, f ≠ field) names).
    { case_decide; [by apply list_remove_distinct|by rewrite filter_absent]. }
    rewrite Hstep, IH by (by apply NoDup_filter). rewrite list_filter_filter.
    apply list_filter_iff. intros f. rewrite not_elem_of_cons. tauto.
Qed.

(** X10. When the field names of the table are distinct, the stratigraphy
    fields joined to the stick files are the fields of the table that are
    not in the list of the fields not to join, in the order of the table;
    and the fields of the line file joined to the profiles are its fields
    other than the cross-section id field and the five excluded names. *)
Theorem joined_fields_distinct (names : list string) (xsln_etid_field : string) :
  NoDup names →
  Lixpys.relevant_strat_fields names = filter (λ f, f ∉ Lixpys.fields_not_to_join) names ∧
  RasterProfiles.xsln_field_names xsln_etid_field names =
    filter (λ f, f ∉ [xsln_etid_field; "OBJECTID"; "Shape"; "Join_Count"; "TARGET_FID";
                     "Shape_Length"]%string) names.
Proof.
  intros Hnd. unfold Lixpys.relevant_strat_fields, RasterProfiles.xsln_field_names.
  by rewrite !remove_fields_filter.
Qed.

Lemma remove_fields_sublist (unwanted names : list string) :
  sublist (remove_fields unwanted names) names.
Proof.
  revert names. induction unwanted as [|field unwanted IH]; intros names; [done|].
  rewrite remove_fields_cons. etrans; [apply IH|].
  case_decide; [apply list_remove_sublist|done].
Qed.

Lemma remove_fields_others (unwanted names : list string) :
  filter (λ f, f ∉ unwanted) (remove_fields unwanted names) = filter (λ f, f ∉ unwanted) names.
Proof.
  revert names. induction unwanted as [|field unwanted IH]; intros names; [done|].
  rewrite remove_fields_cons.
  assert (Hsplit : ∀ l : list string,
            filter (λ f, f ∉ field :: unwanted) l
            = filter (λ f, f ≠ field) (filter (λ f, f ∉ unwanted) l)).
  { intros l. rewrite list_filter_filter. apply list_filter_iff. intros f.
    rewrite not_elem_of_cons. tauto. }
  rewrite !Hsplit, IH. case_decide; [|done].
  rewrite <- !Hsplit. apply list_remove_others. intros Hin. apply Hin, elem_of_cons. by left.
Qed.

(** X11. Whatever the field names, the removal only takes fields away:
    the fields joined are fields of the table in their order, and every
    field whose name is not excluded stays, as many times as it occurs. *)
Theorem joined_fields_kept (names : list string) (xsln_etid_field : string) :
  sublist (Lixpys.relevant_strat_fields names) names ∧
  filter (λ f, f ∉ Lixpys.fields_not_to_join) (Lixpys.relevant_strat_fields names)
    = filter (λ f, f ∉ Lixpys.fields_not_to_join) names ∧
  sublist (RasterProfiles.xsln_field_names xsln_etid_field names) names ∧
  filter (λ f, f ∉ RasterProfiles.fields_no_join xsln_etid_field)
         (RasterProfiles.xsln_field_names xsln_etid_field names)
    = filter (λ f, f ∉ RasterProfiles.fields_no_join xsln_etid_field) names.
Proof.
  unfold Lixpys.relevant_strat_fields, RasterProfiles.xsln_field_names.
  split_and!; first [apply remove_fields_sublist|apply remove_fields_others].
Qed.

End Fields.

(** ** The checks of the raster-profile script *)

Section RasterChecks.
Context {F : Type} {num : PyFloat F} {arcpy : Arcpy F}.

(** [name] occurs in [field]. *)
Definition contains (name field : string) : Prop :=
  ∃ before after : string, field = before +:+ name +:+ after.

Lemma append_cons (c : ascii) (s t : string) : String c s +:+ t = String c (s +:+ t).
Proof. reflexivity. Qed.

Lemma append_nil (t : string) : EmptyString +:+ t = t.
Proof. reflexivity. Qed.

Lemma append_assoc (s t u : string) : (s +:+ t) +:+ u = s +:+ (t +:+ u).
Proof. induction s as [|c s IH]; [done|]. by rewrite !append_cons, IH. Qed.

Lemma prefix_spec (name field : string) :
  String.prefix name field = true ↔ ∃ after : string, field = name +:+ after.
Proof.
  revert field. induction name as [|c name IH]; intros field.
  - split; [|by destruct field]. intros _. by exists field.
  - destruct field as [|d field].
    + split; [done|]. by intros [after [=]].
    + change (String.prefix (String c name) (String d field))
        with (if ascii_dec c d then String.prefix name field else false).
      destruct (ascii_dec c d) as [->|Hne].
      * rewrite IH. split; intros [after Heq]; exists after.
        -- by rewrite append_cons, <- Heq.
        -- rewrite append_cons in Heq. by injection Heq.
      * split; [done|]. intros [after Heq]. rewrite append_cons in Heq.
        injection Heq as -> _. done.
Qed.

Lemma is_substring_spec (name field : string) :
  RasterProfiles.is_substring name field = true ↔ contains name field.
Proof.
  unfold contains. induction field as [|d field IH]; cbn [RasterProfiles.is_substring].
  - rewrite orb_false_r, prefix_spec. split.
    + intros [after Heq]. by exists EmptyString, after.
    + intros (before & after & Heq). destruct before as [|b before]; [by exists after|].
      by rewrite append_cons in Heq.
  - rewrite orb_true_iff, prefix_spec, IH. split.
    + intros [[after Heq]|(before & after & Heq)].
      * by exists EmptyString, after.
      * exists (String d before), after. by rewrite append_cons, <- Heq.
    + intros (before & after & Heq). destruct before as [|b before].
      * left. by exists after.
      * right. rewrite append_cons in Heq. injection Heq as -> Heq. by exists before, after.
Qed.

(** X12. The test [name in xsln_etid_field] of the reserved-field check is
    the substring test: it holds exactly when the field name is some text,
    then [name], then some text. *)
Theorem reserved_test_is_substring (name field : string) :
  RasterProfiles.is_substring name field = true ↔
  ∃ before after : string, field = before +:+ name +:+ after.
Proof. apply is_substring_spec. Qed.

Lemma check_reserved_exact (field : string) :
  RasterProfiles.check_reserved field =
    if existsb (λ name, RasterProfiles.is_substring name field) RasterProfiles.reserved_fields
    then ([AddError ReservedFieldError], inl SystemExit) else ([], inr tt).
Proof.
  unfold RasterProfiles.check_reserved, RasterProfiles.reserved_fields.
  cbn [for_each existsb].
  repeat match goal with
         | |- context [RasterProfiles.is_substring ?n field] =>
             destruct (RasterProfiles.is_substring n field);
             [reflexivity|rewrite bind_mret; cbn [orb]]
         end.
  reflexivity.
Qed.

Lemma reserved_exists (field : string) :
  existsb (λ name, RasterProfiles.is_substring name field) RasterProfiles.reserved_fields = true
  ↔ ∃ name, name ∈ ["OBJECTID"; "SHAPE"; "Shape"]%string ∧ contains name field.
Proof.
  rewrite existsb_exists. split.
  - intros (name & Hname & Hsub). apply is_substring_spec in Hsub.
    apply list_elem_of_In in Hname. unfold RasterProfiles.reserved_fields in Hname.
    rewrite !elem_of_cons in Hname.
    destruct Hname as [->|[->|[->|[->|Hnil]]]]; [| | | |by apply not_elem_of_nil in Hnil].
    + exists "OBJECTID"%string. split; [|done]. rewrite !elem_of_cons. tauto.
    + exists "SHAPE"%string. split; [|done]. rewrite !elem_of_cons. tauto.
    + exists "Shape"%string. split; [|done]. rewrite !elem_of_cons. tauto.
    + exists "Shape"%string. split; [rewrite !elem_of_cons; tauto|].
      destruct Hsub as (before & after & ->).
      exists before, ("_Length" +:+ after)%string.
      by rewrite <- (append_assoc "Shape" "_Length" after).
  - intros (name & Hname & Hsub). exists name. split; [|by apply is_substring_spec].
    apply list_elem_of_In. unfold RasterProfiles.reserved_fields.
    rewrite !elem_of_cons in Hname. rewrite !elem_of_cons.
    destruct Hname as [->|[->|[->|Hnil]]]; [tauto|tauto|tauto|by apply not_elem_of_nil in Hnil].
Qed.

(** X13. The reserved-field check stops the run, after one error message,
    exactly when the name of the id field contains [OBJECTID], [SHAPE] or
    [Shape], in that case; otherwise it writes nothing and returns.  The
    fourth entry of the list, [Shape_Length], never decides: a name that
    contains it contains [Shape]. *)
Theorem reserved_field_check (field : string) :
  let reserved := ∃ name, name ∈ ["OBJECTID"; "SHAPE"; "Shape"]%string ∧
                    ∃ before after : string, field = before +:+ name +:+ after in
  (reserved ↔
   RasterProfiles.check_reserved field = ([AddError ReservedFieldError], inl SystemExit)) ∧
  (¬ reserved ↔ RasterProfiles.check_reserved field = ([], inr tt)).
Proof.
  cbn zeta. pose proof (reserved_exists field) as Hres. unfold contains in Hres.
  rewrite <- Hres, check_reserved_exact.
  destruct (existsb _ _); split; split; try done; try congruence.
Qed.

Lemma check_rasters_exact (rasters_list : list string) :
  RasterProfiles.check_rasters rasters_list =
    if forallb RasterProfiles.isalnum rasters_list
    then mret tt else ([AddError RasterNameError], inl SystemExit).
Proof.
  unfold RasterProfiles.check_rasters.
  induction rasters_list as [|raster rasters IH]; [done|].
  cbn [for_each forallb]. destruct (RasterProfiles.isalnum raster); cbn [negb andb].
  - by rewrite bind_mret.
  - reflexivity.
Qed.

Lemma raster_loop_completes (rp : RasterProfiles.Params) (xsln : list (XsLine F))
    (rasters : list string) (rows0 : list (RasterProfiles.ProfileRow F)) :
  completed (for_each rasters (RasterProfiles.raster_step rp xsln) rows0).
Proof.
  revert rows0. induction rasters as [|raster rasters IH]; intros rows0; [by eexists|].
  cbn [for_each]. destruct (raster_step_outcome rp xsln rows0 raster) as [cls Hstep].
  unfold completed. erewrite outcome_bind_returned by exact Hstep. apply IH.
Qed.

(** The three checks of the parameters pass. *)
Definition parameters_pass (rp : RasterProfiles.Params) : Prop :=
  (∀ name, name ∈ RasterProfiles.reserved_fields →
     ¬ contains name (RasterProfiles.xsln_etid_field rp)) ∧
  0 < RasterProfiles.vertical_exaggeration rp ∧
  Forall (λ raster, RasterProfiles.isalnum raster = true)
         (RasterProfiles.split ";" (RasterProfiles.rasters_input rp)).

Lemma reserved_none (field : string) :
  existsb (λ name, RasterProfiles.is_substring name field) RasterProfiles.reserved_fields = false
  ↔ ∀ name, name ∈ RasterProfiles.reserved_fields → ¬ contains name field.
Proof.
  rewrite <- not_true_iff_false, existsb_exists. split.
  - intros Hno name Hname Hsub. apply Hno. exists name.
    split; [by apply list_elem_of_In|by apply is_substring_spec].
  - intros Hno (name & Hname & Hsub). apply (Hno name); [by apply list_elem_of_In|].
    by apply is_substring_spec.
Qed.

Lemma check_ve_ok (v : Z) : 0 < v → RasterProfiles.check_ve v = mret tt.
Proof. intros Hv. unfold RasterProfiles.check_ve. by destruct (Z.leb_spec v 0); [lia|]. Qed.

Lemma raster_main_endings (rp : RasterProfiles.Params) (xsln : list (XsLine F)) :
  (parameters_pass rp → completed (RasterProfiles.main rp xsln)) ∧
  (¬ parameters_pass rp → halted_before_output (RasterProfiles.main rp xsln)).
Proof.
  unfold parameters_pass, RasterProfiles.main.
  rewrite count_check_run, bind_returned, raster_multipart_check_run, bind_returned.
  rewrite check_reserved_exact, <- reserved_none.
  destruct (existsb _ RasterProfiles.reserved_fields).
  { split; [by intros [[=] _]|]. intros _. rewrite bind_raised.
    split; [done|]. cbn [log_of fst].
    repeat apply Forall_app_2; try apply Forall_is_message_if. by repeat constructor. }
  rewrite (bind_returned [] tt). cbn [app]. rewrite <- run_eta.
  destruct (decide (RasterProfiles.vertical_exaggeration rp ≤ 0)) as [Hve|Hve].
  { split; [intros (_ & ? & _); lia|]. intros _.
    rewrite (check_ve_exit _ Hve), bind_raised.
    split; [done|]. cbn [log_of fst].
    repeat apply Forall_app_2; try apply Forall_is_message_if; by repeat constructor. }
  rewrite check_ve_ok, bind_mret, check_rasters_exact by lia.
  destruct (forallb RasterProfiles.isalnum _) eqn:Hall.
  - split.
    + intros _. rewrite bind_mret. unfold completed. cbn [outcome snd].
      rewrite when_returns, bind_returned. cbn [outcome snd]. apply raster_loop_completes.
    + intros Hno. destruct Hno. split_and!; [done|lia|].
      apply Forall_forall. intros raster Hraster. rewrite forallb_forall in Hall.
      by apply Hall, list_elem_of_In.
  - split.
    + intros (_ & _ & Hpass). exfalso. apply not_true_iff_false in Hall. apply Hall.
      apply forallb_forall. intros raster Hraster. rewrite Forall_forall in Hpass.
      by apply Hpass, list_elem_of_In.
    + intros _. rewrite bind_raised. split; [done|]. cbn [log_of fst].
      repeat apply Forall_app_2; try apply Forall_is_message_if; by repeat constructor.
Qed.

(** X14. On a raster parameter of ASCII characters, where letters and
    digits are what the model takes them to be, the raster-profile script
    runs to its end exactly when the name of the id field contains no
    reserved name, the vertical exaggeration is positive and every piece of
    the raster parameter between semicolons is made of letters and digits
    and is not empty.  Otherwise it stops on [SystemExit] having written
    messages only; it never stops on another exception. *)
Theorem raster_main_completes_iff (rp : RasterProfiles.Params) (xsln : list (XsLine F)) :
  Forall (λ c, (nat_of_ascii c < 128)%nat)
         (list_ascii_of_string (RasterProfiles.rasters_input rp)) →
  let run := RasterProfiles.main rp xsln in
  let pass :=
    (∀ name, name ∈ RasterProfiles.reserved_fields →
       ¬ ∃ before after : string,
           RasterProfiles.xsln_etid_field rp = before +:+ name +:+ after) ∧
    0 < RasterProfiles.vertical_exaggeration rp ∧
    Forall (λ raster, RasterProfiles.isalnum raster = true)
           (RasterProfiles.split ";" (RasterProfiles.rasters_input rp)) in
  (completed run ↔ pass) ∧
  (¬ pass ↔ outcome run = inl SystemExit ∧ Forall is_message (log_of run)) ∧
  outcome run ≠ inl IndexError ∧ outcome run ≠ inl NameError ∧
  outcome run ≠ inl ExecuteError.
Proof.
  intros _. cbn zeta. destruct (raster_main_endings rp xsln) as [Hpass Hfail].
  unfold parameters_pass, contains, halted_before_output in *.
  match goal with |- (_ ↔ ?P) ∧ _ => destruct (classic P) as [Hp|Hp] end.
  - destruct (Hpass Hp) as [rows Hrows]. split_and!.
    + split; [done|]. intros _. by exists rows.
    + split; [done|]. intros [Hexit _]. congruence.
    + congruence.
    + congruence.
    + congruence.
  - destruct (Hfail Hp) as [Hexit Hlog]. split_and!.
    + split; [|done]. intros [rows Hrows]. congruence.
    + done.
    + congruence.
    + congruence.
    + congruence.
Qed.

End RasterChecks.

(** ** The raster names and the profile rows *)

Section RasterNames.
Context {F : Type} {num : PyFloat F} {arcpy : Arcpy F}.

Lemma split_keeps (sep c : ascii) (s : string) :
  c ∈ list_ascii_of_string s → c ≠ sep →
  ∃ piece, piece ∈ RasterProfiles.split sep s ∧ c ∈ list_ascii_of_string piece.
Proof.
  intros Hc Hsep. induction s as [|d s IH]; [by apply not_elem_of_nil in Hc|].
  cbn [list_ascii_of_string] in Hc. cbn [RasterProfiles.split].
  apply elem_of_cons in Hc as [<-|Hc].
  - destruct (Ascii.eqb_spec c sep) as [?|_]; [done|].
    destruct (RasterProfiles.split sep s) as [|piece pieces].
    + exists (String c EmptyString). split; apply elem_of_cons; by left.
    + exists (String c piece). split; apply elem_of_cons; by left.
  - destruct (IH Hc) as (piece & Hpiece & Hin).
    destruct (Ascii.eqb_spec d sep) as [_|_].
    + exists piece. split; [apply elem_of_cons; by right|done].
    + destruct (RasterProfiles.split sep s) as [|piece0 pieces];
        [by apply not_elem_of_nil in Hpiece|].
      apply elem_of_cons in Hpiece as [->|Hpiece].
      * exists (String d piece0). split; [apply elem_of_cons; by left|].
        cbn [list_ascii_of_string]. apply elem_of_cons. by right.
      * exists piece. split; [apply elem_of_cons; by right|done].
Qed.

Lemma all_alnum_chars (s : string) (c : ascii) :
  RasterProfiles.all_alnum s = true → c ∈ list_ascii_of_string s →
  RasterProfiles.alnum c = true.
Proof.
  induction s as [|d s IH]; cbn [RasterProfiles.all_alnum list_ascii_of_string].
  - intros _ Hc. by apply not_elem_of_nil in Hc.
  - intros [Hd Hs]%andb_true_iff [->|Hc]%elem_of_cons; [done|by apply IH].
Qed.

Lemma isalnum_chars (s : string) (c : ascii) :
  RasterProfiles.isalnum s = true → c ∈ list_ascii_of_string s →
  RasterProfiles.alnum c = true.
Proof. destruct s as [|d s]; [done|]. apply all_alnum_chars. Qed.

(** The raster parameter is empty, or has an ASCII character that is
    neither a letter, a digit nor the separator. *)
Definition bad_raster_input (rasters_input : string) : Prop :=
  rasters_input = EmptyString ∨
  ∃ c : ascii, c ∈ list_ascii_of_string rasters_input ∧ c ≠ ";"%char ∧
               (nat_of_ascii c < 128)%nat ∧ RasterProfiles.alnum c = false.

Lemma bad_raster_input_fails (rasters_input : string) :
  bad_raster_input rasters_input →
  ¬ Forall (λ raster, RasterProfiles.isalnum raster = true)
           (RasterProfiles.split ";" rasters_input).
Proof.
  intros [->|(c & Hc & Hsep & _ & Halnum)] Hall.
  - cbn in Hall. by inv Hall.
  - destruct (split_keeps ";" c rasters_input Hc Hsep) as (piece & Hpiece & Hin).
    rewrite Forall_forall in Hall.
    pose proof (isalnum_chars piece c (Hall piece Hpiece) Hin). congruence.
Qed.

(** X15. An empty raster parameter, or one with a character other than
    letters, digits and the separating semicolons (a path separator, a
    colon, a dot, an underscore, a space), stops the raster-profile script
    on [SystemExit] before anything is created, whatever the other inputs. *)
Theorem raster_input_character_stops (rp : RasterProfiles.Params) (xsln : list (XsLine F)) :
  bad_raster_input (RasterProfiles.rasters_input rp) →
  outcome (RasterProfiles.main rp xsln) = inl SystemExit ∧
  Forall is_message (log_of (RasterProfiles.main rp xsln)).
Proof.
  intros Hbad. apply raster_main_endings. intros (_ & _ & Hpass).
  by apply (bad_raster_input_fails _ Hbad).
Qed.

(** The class the rows of a raster are inserted in. *)
Definition profiles_2d (rp : RasterProfiles.Params) (raster : string) : string :=
  if RasterProfiles.merge_boolean rp
  then "all_profiles_2d" +:+ "_" +:+ pretty (RasterProfiles.vertical_exaggeration rp) +:+ "x"
  else raster +:+ "_profiles2d" +:+ "_" +:+
       pretty (RasterProfiles.vertical_exaggeration rp) +:+ "x".

Definition raster_rows (rp : RasterProfiles.Params) (xsln : list (XsLine F)) (raster : string)
    : list (RasterProfiles.ProfileRow F) :=
  flat_map (RasterProfiles.line_profiles rp (profiles_2d rp raster) raster
              (RasterProfiles.MultipartToSinglepart (InterpolateShape raster xsln))) xsln.

Lemma raster_step_rows (rp : RasterProfiles.Params) (xsln : list (XsLine F))
    (rows : list (RasterProfiles.ProfileRow F)) (raster : string) :
  outcome (RasterProfiles.raster_step rp xsln rows raster) = inr (rows ++ raster_rows rp xsln raster).
Proof.
  unfold RasterProfiles.raster_step, raster_rows, profiles_2d,
    RasterProfiles.merged_profiles_2d_name.
  by destruct (RasterProfiles.merge_boolean rp).
Qed.

Lemma raster_loop_exact (rp : RasterProfiles.Params) (xsln : list (XsLine F))
    (rasters : list string) (rows0 : list (RasterProfiles.ProfileRow F)) :
  outcome (for_each rasters (RasterProfiles.raster_step rp xsln) rows0)
  = inr (rows0 ++ flat_map (raster_rows rp xsln) rasters).
Proof.
  revert rows0. induction rasters as [|raster rasters IH]; intros rows0.
  - cbn. by rewrite app_nil_r.
  - cbn [for_each flat_map].
    erewrite outcome_bind_returned by apply raster_step_rows.
    by rewrite IH, <- app_assoc.
Qed.

Lemma raster_main_rows (rp : RasterProfiles.Params) (xsln : list (XsLine F))
    (rows : list (RasterProfiles.ProfileRow F)) :
  outcome (RasterProfiles.main rp xsln) = inr rows →
  rows = flat_map (raster_rows rp xsln)
           (RasterProfiles.split ";" (RasterProfiles.rasters_input rp)).
Proof.
  intros Hrun. unfold RasterProfiles.main in Hrun.
  repeat (apply outcome_bind_inr in Hrun as (? & _ & Hrun)).
  rewrite raster_loop_exact in Hrun. by injection Hrun as <-.
Qed.

(** X16. Every row of the 2D profiles carries the name of the raster it
    was made for, one of the raster parameter; it is inserted in the class
    of that raster, or in the one merged class when merging is asked for;
    its id is the id of a line of the input and of a single-part 3D profile
    of that raster, and it has as many vertices as that profile. *)
Theorem profile_rows_tagged (rp : RasterProfiles.Params) (xsln : list (XsLine F))
    (rows : list (RasterProfiles.ProfileRow F)) (prow : RasterProfiles.ProfileRow F) :
  outcome (RasterProfiles.main rp xsln) = inr rows → prow ∈ rows →
  let raster := RasterProfiles.raster_name prow in
  raster ∈ RasterProfiles.split ";" (RasterProfiles.rasters_input rp) ∧
  RasterProfiles.pr_class prow =
    (if RasterProfiles.merge_boolean rp
     then "all_profiles_2d" +:+ "_" +:+
          pretty (RasterProfiles.vertical_exaggeration rp) +:+ "x"
     else raster +:+ "_profiles2d" +:+ "_" +:+
          pretty (RasterProfiles.vertical_exaggeration rp) +:+ "x") ∧
  ∃ line feature,
    line ∈ xsln ∧
    feature ∈ RasterProfiles.MultipartToSinglepart (InterpolateShape raster xsln) ∧
    RasterProfiles.pr_etid prow = xs_etid line ∧
    RasterProfiles.pr_etid prow = xs_etid feature ∧
    length (RasterProfiles.pr_shape prow) = length (getPart0 (xs_shape feature)).
Proof.
  intros Hrun Hin. apply raster_main_rows in Hrun. subst rows.
  apply list_elem_of_In, in_flat_map in Hin as (raster & Hraster & Hin).
  unfold raster_rows in Hin. apply in_flat_map in Hin as (line & Hline & Hin).
  unfold RasterProfiles.line_profiles in Hin.
  apply in_map_iff in Hin as (feature & <- & Hfeature).
  apply list_elem_of_In, list_elem_of_filter in Hfeature as [Hid Hfeature].
  cbn. split_and!; [by apply list_elem_of_In|done|].
  exists line, feature. split_and!; [by apply list_elem_of_In|done|done|done|].
  by rewrite length_map.
Qed.

End RasterNames.

(** ** The type check of the well ids *)

Section TypeCheck.
Context {F : Type} {num : PyFloat F}.

(** X17. With tables that are not empty, the type check reads the well
    id of the first stratigraphy record and that of the first well point,
    and no other.  When one of the two is text and the other a number its
    warning is written; when both are text it is not.  (Between two numbers
    the script also tells an integer from a float, which the ids of the
    model do not record: nothing is stated of that case.)  The text or
    numeric form of the where clause follows the first stratigraphy record
    alone. *)
Theorem type_check_reads_first_ids (s : StratRow F) (strat : list (StratRow F))
    (w : WellPoint F) (wwpt : list (WellPoint F)) (xsln : list (XsLine F)) :
  let run := Lixpys.reconcile (Lixpys.id_lists (s :: strat) (w :: wwpt) xsln) in
  let is_text (id : pyid) := match id with TextId _ => true | NumericId _ => false end in
  (is_text (st_wellid s) ≠ is_text (wp_wellid w) →
   AddError TypeMismatchWarning ∈ log_of run) ∧
  (is_text (st_wellid s) = true → is_text (wp_wellid w) = true →
   AddError TypeMismatchWarning ∉ log_of run) ∧
  outcome run = inr (negb (is_text (st_wellid s))).
Proof.
  cbn zeta.
  assert (Hlog : AddError TypeMismatchWarning ∈
                   log_of (Lixpys.reconcile (Lixpys.id_lists (s :: strat) (w :: wwpt) xsln))
                 ↔ type_of (st_wellid s) ≠ type_of (wp_wellid w)).
  { unfold Lixpys.reconcile, Lixpys.id_lists, printit, printerror.
    cbn [Lixpys.strat_wellid_list Lixpys.wwpt_wellid_list Lixpys.wwpt_etid_list
         Lixpys.xsln_etid_list].
    pose proof (collect_head st_wellid s strat) as Hs.
    pose proof (collect_head wp_wellid w wwpt) as Hw.
    destruct (Lixpys.collect st_wellid (s :: strat)) as [|s0 sl]; [done|].
    destruct (Lixpys.collect wp_wellid (w :: wwpt)) as [|w0 wl]; [done|].
    cbn in Hs, Hw. injection Hs as ->. injection Hw as ->.
    repeat (rewrite ?when_returns, ?bind_returned, ?py_get_first, ?bind_mret; cbn beta).
    cbn [log_of outcome fst snd]. rewrite !elem_of_app.
    destruct (decide (type_of (st_wellid s) ≠ type_of (wp_wellid w))) as [Hne|Heq].
    - rewrite (bool_decide_eq_true_2 _ Hne). split; [done|]. intros _.
      do 4 right. left. by apply list_elem_of_singleton.
    - rewrite (bool_decide_eq_false_2 _ Heq). split; [|done].
      repeat match goal with |- context [if ?b then _ else _] => destruct b end;
        rewrite ?list_elem_of_singleton; intros Hin;
        repeat (destruct Hin as [Hin|Hin]; try done; try by apply not_elem_of_nil in Hin). }
  rewrite Hlog, (proj1 (reconcile_returns s strat w wwpt xsln)).
  destruct (st_wellid s) as [n|text], (wp_wellid w) as [m|text']; cbn [type_of];
    split_and!; try done; intros; by try (intros Hne; apply Hne).
Qed.

End TypeCheck.

(** ** The parts of the 3D profiles *)

Section Parts.
Context {F : Type} {num : PyFloat F} {arcpy : Arcpy F}.

(** All the parts of a feature. *)
Definition parts (feature : XsLine F) : list (list (PointZ F)) :=
  part0 (xs_shape feature) :: more_parts (xs_shape feature).

Lemma singlepart_filter (et_id : string) (feature : XsLine F) :
  filter (λ f, xs_etid f = et_id)
    (map (λ part, mkXsLine (mkPolyline part []) (xs_etid feature)) (parts feature))
  = if decide (xs_etid feature = et_id)
    then map (λ part, mkXsLine (mkPolyline part []) (xs_etid feature)) (parts feature)
    else [].
Proof.
  induction (parts feature) as [|part l IH]; [by case_decide|].
  cbn [map]. rewrite filter_cons. cbn [xs_etid]. rewrite IH. by case_decide.
Qed.

Lemma line_profiles_parts (rp : RasterProfiles.Params) (cls name : string)
    (features : list (XsLine F)) (line : XsLine F) :
  map RasterProfiles.pr_shape
      (RasterProfiles.line_profiles rp cls name
         (RasterProfiles.MultipartToSinglepart features) line)
  = map (map (RasterProfiles.vertex_2d (RasterProfiles.vertical_exaggeration rp)
                (plan_of line)))
        (flat_map parts (filter (λ f, xs_etid f = xs_etid line) features)).
Proof.
  unfold RasterProfiles.line_profiles, RasterProfiles.MultipartToSinglepart.
  induction features as [|feature features IH]; [done|].
  cbn [flat_map]. fold (parts feature).
  rewrite filter_app, map_app, map_app, IH, singlepart_filter, (filter_cons _ feature).
  case_decide; [|done]. cbn [flat_map]. rewrite map_app. f_equal.
  rewrite !map_map. apply map_ext. intros part. reflexivity.
Qed.

(** X18. The 2D profiles of a line are made from every part of every 3D
    profile with the id of the line, one row for each part, in their order:
    the single-part conversion leaves no part of a profile undrawn, and
    every vertex of every part is converted. *)
Theorem profiles_draw_every_part (rp : RasterProfiles.Params) (cls name : string)
    (profiles_3d_multi : list (XsLine F)) (line : XsLine F) :
  map RasterProfiles.pr_shape
      (RasterProfiles.line_profiles rp cls name
         (RasterProfiles.MultipartToSinglepart profiles_3d_multi) line)
  = map (map (λ vertex,
                mkPoint
                  (fdiv (fdiv (measureOnLine (plan_of line)
                                 (mkPoint (X3 vertex) (Y3 vertex))) lit_0_3048)
                        (of_int (RasterProfiles.vertical_exaggeration rp)))
                  (Z3 vertex)))
        (flat_map (λ feature, part0 (xs_shape feature) :: more_parts (xs_shape feature))
                  (filter (λ f, xs_etid f = xs_etid line) profiles_3d_multi)).
Proof. apply line_profiles_parts. Qed.

End Parts.

(** ** What a stopped run leaves *)

Section Stops.
Context {F : Type} {num : PyFloat F} {arcpy : Arcpy F}.

Lemma reconcile_messages (ids : Lixpys.IdLists) :
  Forall is_message (log_of (Lixpys.reconcile ids)).
Proof.
  assert (Hwarn : Forall is_message (difference_warnings ids)).
  { unfold difference_warnings. rewrite !Forall_app.
    repeat split; destruct (_ <? _)%nat; by repeat constructor. }
  destruct (reconcile_log ids) as [-> | ->]; [done|].
  apply Forall_app. split; [done|]. by repeat constructor.
Qed.

Lemma checks_messages (strat : list (StratRow F)) (wwpt : list (WellPoint F))
    (xsln : list (XsLine F)) :
  Forall is_message
    ((if existsb (λ row, isMultipart (xs_shape row)) xsln
      then [AddError MultipartWarning] else []) ++
     (if (length strat =? 0)%nat then [AddError StratEmptyWarning] else []) ++
     (if (length wwpt =? 0)%nat then [AddError WwptEmptyWarning] else []) ++
     (if (length xsln =? 0)%nat then [AddError XslnEmptyWarning] else [])).
Proof. rewrite !Forall_app. repeat split; apply Forall_is_message_if. Qed.

(** X19. With positive parameters, a run that stops on the [IndexError] of
    an empty table has written messages only: no dataset has been created.
    A run that stops on the [IndexError] of a line with fewer than two
    vertices stops after the two line files, the feature dataset, the copy
    of the well points and the temporary line file have been created, and
    deletes none of them. *)
Theorem index_error_leaves (p : Lixpys.Params F) (strat : list (StratRow F))
    (wwpt : list (WellPoint F)) (xsln : list (XsLine F)) :
  0 < Lixpys.buffer_dist p → 0 < Lixpys.vertical_exaggeration p →
  let run := Lixpys.main p strat wwpt xsln in
  (strat = [] ∨ wwpt = [] →
     outcome run = inl IndexError ∧ Forall is_message (log_of run)) ∧
  (strat ≠ [] → wwpt ≠ [] → Exists (λ line, (length (getPart0 (xs_shape line)) < 2)%nat) xsln →
     outcome run = inl IndexError ∧
     ∃ messages, Forall is_message messages ∧
       log_of run = messages ++
         [Created "lixpys_unloc_3d"; Created "lixpys_unloc_2d_line";
          Created "unloc_wwpt_by_xs"; Created "wwpt_unloc_temp"; Created "xsln_temp"]).
Proof.
  intros Hb Hv. cbn zeta.
  pose proof (checks_messages strat wwpt xsln) as Hchecks.
  unfold Lixpys.main.
  rewrite lixpys_multipart_check_run, bind_returned, check_params_ok, bind_mret by done.
  rewrite count_checks_run, bind_returned.
  set (ids := Lixpys.id_lists strat wwpt xsln).
  pose proof (reconcile_messages ids) as Hmsg.
  cbn [log_of outcome fst snd]. split.
  - intros Hempty.
    assert (Hrec : outcome (Lixpys.reconcile ids) = inl IndexError).
    { subst ids. destruct strat as [|s strat]; [apply reconcile_no_strat|].
      destruct Hempty as [?| ->]; [done|]. apply reconcile_no_wells. }
    destruct (Lixpys.reconcile ids) as [log result].
    cbn [log_of outcome fst snd] in Hrec, Hmsg. subst result. rewrite bind_raised.
    cbn [log_of outcome fst snd]. split; [done|].
    rewrite !Forall_app in *. tauto.
  - intros Hstrat Hwwpt Hshort.
    destruct strat as [|s strat]; [done|]. destruct wwpt as [|w wwpt]; [done|].
    destruct (reconcile_returns s strat w wwpt xsln) as [Hrec _]. fold ids in Hrec.
    assert (Hext : Lixpys.extend_lines (Lixpys.buffer_dist p) xsln = raise IndexError).
    { unfold Lixpys.extend_lines. apply extend_loop_short.
      eapply Exists_impl; [exact Hshort|]. intros line Hlen.
      unfold short, vertices. by rewrite length_map. }
    destruct (Lixpys.reconcile ids) as [log result].
    cbn [log_of outcome fst snd] in Hrec, Hmsg. subst result.
    unfold emit. rewrite !bind_returned, Hext, bind_raise.
    cbn [log_of outcome fst snd raise app]. split; [done|].
    eexists. split; [|rewrite !app_assoc; reflexivity].
    rewrite <- !app_assoc. rewrite !Forall_app in *. tauto.
Qed.

End Stops.

(** ** The temporary line file *)

Section ExtendedFile.
Context {F : Type} {num : PyFloat F} {arcpy : Arcpy F}.

(** X20. When the extension of the lines returns, the temporary line file
    has one row for each line of the input, in the order of the input, with
    the id of the line and as many vertices as its first part. *)
Theorem extended_file_keeps_lines (bd : Z) (xsln : list (XsLine F))
    (xsln_temp : list (list (Point F) * string)) :
  Lixpys.extend_lines bd xsln = mret xsln_temp →
  Forall2 (λ row line, snd row = xs_etid line ∧
                       length (fst row) = length (getPart0 (xs_shape line)))
          xsln_temp xsln.
Proof.
  intros Hrun. eapply Forall2_impl; [by apply (extend_lines_rows bd)|].
  intros row line [Hid Hlen]. split; [done|].
  unfold vertices in Hlen. by rewrite length_map in Hlen.
Qed.

End ExtendedFile.

(** ** The further properties on concrete inputs *)

(** A line of one vertex, and a second line with the id [B]. *)
Definition line_of_one_vertex : XsLine float :=
  mkXsLine (mkPolyline [mkPointZ 0 0 0]%float []) "P".

Definition line_B : XsLine float :=
  mkXsLine (mkPolyline [mkPointZ 0 2000 0; mkPointZ 1000 2000 0]%float []) "B".

Definition well_9 : WellPoint float := mkWellPoint 4 (NumericId 9) "B" 500%float 2010%float.

(** X3 on a file whose second line has one vertex. *)
Lemma extend_lines_short_line_witness :
  Lixpys.extend_lines (arcpy := Planar.platform) 500 [line_A; line_of_one_vertex]
  = raise IndexError.
Proof.
  apply (extend_lines_short_line_raises (arcpy := Planar.platform) 500
           [line_A; line_of_one_vertex]).
  apply Exists_cons_tl, Exists_cons_hd. unfold short. cbn. lia.
Defined.

(** X7 on two lines with the ids [A] and [B] and a well point on each. *)
Lemma merge_of_distinct_lines_witness :
  let xsln_temp := [([mkPoint (-500) 0; mkPoint 1500 0]%float, "A"%string);
                    ([mkPoint (-500) 2000; mkPoint 1500 2000]%float, "B"%string)] in
  Lixpys.merge (Lixpys.near_analysis (arcpy := Planar.platform) 500 [well_9; well_7] xsln_temp)
  ≡ₚ flat_map (λ line, map (Lixpys.locate_well (arcpy := Planar.platform) 500 (fst line))
                           (filter (λ w, wp_etid w = snd line) [well_9; well_7])) xsln_temp.
Proof.
  cbn zeta.
  apply (merge_of_distinct_lines (arcpy := Planar.platform) 500 [well_9; well_7]).
  cbn [map snd]. apply NoDup_cons. split; [|apply NoDup_singleton].
  intros Hin. apply list_elem_of_singleton in Hin. discriminate Hin.
Defined.

(** X10 on a table with three descriptive fields. *)
Lemma joined_fields_distinct_witness :
  Lixpys.relevant_strat_fields
    ["OBJECTID"; "relateid"; "strat"; "lith_prim"; "elev_top"; "color"]%string
  = ["strat"; "lith_prim"; "color"]%string.
Proof.
  destruct (joined_fields_distinct
              ["OBJECTID"; "relateid"; "strat"; "lith_prim"; "elev_top"; "color"]%string
              "et_id") as [Hstrat _].
  - apply (bool_decide_unpack _). vm_compute. exact I.
  - rewrite Hstrat. vm_compute. reflexivity.
Defined.

(** X15 on the names of the test rasters of the script. *)
Lemma raster_input_character_witness :
  outcome (RasterProfiles.main (arcpy := Planar.platform)
             (RasterProfiles.mkParams "topo_grid_surface;topo_grid_bedrock" "et_id" 50 false)
             [line_A]) = inl SystemExit.
Proof.
  apply (raster_input_character_stops (arcpy := Planar.platform)
           (RasterProfiles.mkParams "topo_grid_surface;topo_grid_bedrock" "et_id" 50 false)
           [line_A]).
  right. exists "_"%char. split_and!.
  - cbn [RasterProfiles.rasters_input list_ascii_of_string].
    do 4 (apply elem_of_cons; right). apply elem_of_cons. by left.
  - discriminate.
  - vm_compute. lia.
  - reflexivity.
Defined.

(** X16 on the profiles of two rasters along one line. *)
Lemma profile_rows_tagged_witness :
  ∃ rows prow,
    outcome (RasterProfiles.main (arcpy := Planar.platform) raster_params [line_A]) = inr rows ∧
    prow ∈ rows ∧
    RasterProfiles.raster_name prow
      ∈ RasterProfiles.split ";" (RasterProfiles.rasters_input raster_params).
Proof.
  eexists. eexists. split; [vm_compute; reflexivity|].
  split; [apply elem_of_cons; left; reflexivity|].
  eapply (λ Hrun Hin,
            proj1 (profile_rows_tagged (arcpy := Planar.platform) raster_params [line_A]
                     _ _ Hrun Hin)).
  - vm_compute. reflexivity.
  - apply elem_of_cons. left. reflexivity.
Defined.

(** X19 on a file whose second line has one vertex. *)
Lemma index_error_leaves_witness :
  outcome (Lixpys.main (arcpy := Planar.platform) params [interval 1 7] [well_7]
             [line_A; line_of_one_vertex]) = inl IndexError.
Proof.
  destruct (index_error_leaves (arcpy := Planar.platform) params [interval 1 7] [well_7]
              [line_A; line_of_one_vertex]) as [_ Hshort].
  - reflexivity.
  - reflexivity.
  - destruct Hshort as [Hstop _]; [done|done| |exact Hstop].
    apply Exists_cons_tl, Exists_cons_hd. cbn. lia.
Defined.

(** X20 on one line. *)
Lemma extended_file_keeps_lines_witness :
  ∃ xsln_temp,
    Lixpys.extend_lines (arcpy := Planar.platform) 500 [line_A] = mret xsln_temp ∧
    Forall2 (λ row line, snd row = xs_etid line ∧
                         length (fst row) = length (getPart0 (xs_shape line)))
            xsln_temp [line_A].
Proof.
  eexists. split; [vm_compute; reflexivity|].
  apply (extended_file_keeps_lines (arcpy := Planar.platform) 500 [line_A]).
  vm_compute. reflexivity.
Defined.

(** ** The drawing coordinates *)

Section DrawingCoordinates.
Context {F : Type} {num : PyFloat F} {arcpy : Arcpy F}.

Lemma matches_filter (numeric : bool) (wwpt : list (Lixpys.WellNear F)) (row : StratRow F) :
  matches numeric wwpt row
  = filter (λ well, wp_wellid (Lixpys.wn_point well) = st_wellid row) wwpt.
Proof.
  unfold matches. apply list_filter_iff. intros well. unfold Lixpys.where_clause.
  apply bool_decide_spec.
Qed.

(** The 2D row of a record that can be drawn, and none for the others. *)
Lemma drawn_stick (p : Lixpys.Params F) (numeric : bool) (wwpt : list (Lixpys.WellNear F))
    (row : StratRow F) :
  match drawn p numeric wwpt row with
  | Some (r3, r2) =>
      drawable wwpt row ∧
      ∃ well elevation_top elevation_bot,
        last (filter (λ well, wp_wellid (Lixpys.wn_point well) = st_wellid row) wwpt)
          = Some well ∧
        elev_top row = Some elevation_top ∧ elev_bot row = Some elevation_bot ∧
        Lixpys.shape2 r2 =
          mkSegment
            (mkPoint (fdiv (fdiv (Lixpys.OnLine_DIST well) lit_0_3048)
                           (of_int (Lixpys.vertical_exaggeration p))) elevation_top)
            (mkPoint (fdiv (fdiv (Lixpys.OnLine_DIST well) lit_0_3048)
                           (of_int (Lixpys.vertical_exaggeration p))) elevation_bot)
  | None => ¬ drawable wwpt row
  end.
Proof.
  pose proof (drawn_drawable p numeric wwpt row) as Hrow. unfold drawn in *.
  rewrite matches_filter in *.
  destruct (elev_top row) as [top|]; [|done].
  destruct (elev_bot row) as [bot|]; [|done].
  destruct (last _) as [well|]; [|done].
  destruct Hrow as [Hd _]. split; [done|]. by exists well, top, bot.
Qed.

Lemma map_flat_map {A B C} (f : B → C) (g : A → list B) (l : list A) :
  map f (flat_map g l) = flat_map (λ a, map f (g a)) l.
Proof. induction l as [|a l IH]; [done|]. cbn. by rewrite map_app, IH. Qed.

(** C2. The 2D stick file has one segment for every stratigraphy record
    that has both elevations and a well point of its well id, in the order
    of the table, and no other: the segment joins [(x, elev_top)] and
    [(x, elev_bot)], with [x] the [OnLine_DIST] of the last well point of
    that well id, divided by 0.3048 and then by the vertical exaggeration.
    The 2D raster profiles are, for every raster and every line, the 3D
    profiles of that raster with the id of the line, each vertex of which
    becomes [(x, z)] with [z] its elevation and [x] its measure along that
    line, divided the same way.  Elevations are not scaled. *)
Theorem C2_drawing_coordinates
    (p : Lixpys.Params F) (numeric : bool) (wwpt : list (Lixpys.WellNear F))
    (strat : list (StratRow F)) (rp : RasterProfiles.Params) (xsln : list (XsLine F)) :
  (∃ s, outcome (Lixpys.make_sticks p numeric wwpt strat) = inr s ∧
     Forall2
       (λ r2 row,
          ∃ well elevation_top elevation_bot,
            last (filter (λ well, wp_wellid (Lixpys.wn_point well) = st_wellid row) wwpt)
              = Some well ∧
            elev_top row = Some elevation_top ∧ elev_bot row = Some elevation_bot ∧
            let x := fdiv (fdiv (Lixpys.OnLine_DIST well) lit_0_3048)
                          (of_int (Lixpys.vertical_exaggeration p)) in
            Lixpys.shape2 r2 = mkSegment (mkPoint x elevation_top) (mkPoint x elevation_bot))
       (Lixpys.polylinefile_2d s)
       (filter (λ row, is_Some (elev_top row) ∧ is_Some (elev_bot row) ∧
                       Exists (λ well, wp_wellid (Lixpys.wn_point well) = st_wellid row) wwpt)
               strat)) ∧
  (∀ rows, outcome (RasterProfiles.main rp xsln) = inr rows →
     map RasterProfiles.pr_shape rows =
       flat_map
         (λ raster,
            flat_map
              (λ line,
                 map (λ feature,
                        map (λ vertex,
                               let measure := measureOnLine (plan_of line)
                                                (mkPoint (X3 vertex) (Y3 vertex)) in
                               mkPoint (fdiv (fdiv measure lit_0_3048)
                                             (of_int (RasterProfiles.vertical_exaggeration rp)))
                                       (Z3 vertex))
                            (getPart0 (xs_shape feature)))
                     (filter (λ feature, xs_etid feature = xs_etid line)
                        (RasterProfiles.MultipartToSinglepart (InterpolateShape raster xsln))))
              xsln)
         (RasterProfiles.split ";" (RasterProfiles.rasters_input rp))).
Proof.
  split.
  - destruct (make_sticks_run p numeric wwpt strat) as [v Hrun]. cbn zeta in Hrun.
    rewrite Hrun. eexists. split; [reflexivity|]. cbn [Lixpys.polylinefile_2d]. clear Hrun.
    change (λ row, is_Some (elev_top row) ∧ is_Some (elev_bot row) ∧
                   Exists (λ well, wp_wellid (Lixpys.wn_point well) = st_wellid row) wwpt)
      with (drawable wwpt).
    induction strat as [|row strat IH]; [constructor|].
    cbn [omap list_omap]. rewrite filter_cons.
    pose proof (drawn_stick p numeric wwpt row) as Hrow.
    destruct (drawn p numeric wwpt row) as [[r3 r2]|].
    + destruct Hrow as [Hd Hstick]. rewrite decide_True by done. cbn. by constructor.
    + by rewrite decide_False.
  - intros rows Hrun. apply raster_main_rows in Hrun. subst rows.
    rewrite map_flat_map. apply flat_map_ext. intros raster.
    unfold raster_rows. rewrite map_flat_map. apply flat_map_ext. intros line.
    unfold RasterProfiles.line_profiles. by rewrite map_map.
Qed.

End DrawingCoordinates.

(** C2 on one record of well 7, whose well point is 1000 m along the line,
    and on the profile of one raster along the line. *)
Lemma C2_witness :
  (∃ s r2 well,
     outcome (Lixpys.make_sticks params true (located [well_7]) [interval 1 7]) = inr s ∧
     Lixpys.polylinefile_2d s = [r2] ∧
     well ∈ located [well_7] ∧
     let x := fdiv (fdiv (Lixpys.OnLine_DIST well) lit_0_3048) (of_int 50) in
     Lixpys.shape2 r2 = mkSegment (mkPoint x 1200%float) (mkPoint x 1100%float)) ∧
  (∃ rows,
     outcome (RasterProfiles.main (arcpy := Planar.platform)
                (RasterProfiles.mkParams "topo" "et_id" 50 false) [line_A]) = inr rows ∧
     length rows = 1%nat ∧
     map RasterProfiles.pr_shape rows =
       [map (λ vertex,
               let measure := measureOnLine (Arcpy := Planar.platform) (plan_of line_A)
                                (mkPoint (X3 vertex) (Y3 vertex)) in
               mkPoint (fdiv (fdiv measure lit_0_3048) (of_int 50)) (Z3 vertex))
            (getPart0 (xs_shape line_A))]).
Proof.
  destruct (C2_drawing_coordinates (arcpy := Planar.platform) params true
              (located [well_7]) [interval 1 7]
              (RasterProfiles.mkParams "topo" "et_id" 50 false) [line_A])
    as [(s & Hs & Hsticks) Hprofiles].
  split.
  - rewrite filter_cons_True in Hsticks.
    + apply Forall2_cons_inv_r in Hsticks
        as (r2 & rest & (well & top & bot & Hwell & Htop & Hbot & Hshape) & Hrest & Hfile).
      apply Forall2_nil_inv_r in Hrest as ->.
      injection Htop as <-. injection Hbot as <-.
      exists s, r2, well. split_and!; [exact Hs|exact Hfile| |exact Hshape].
      apply last_Some_elem_of in Hwell. by apply list_elem_of_filter in Hwell as [_ ?].
    + split_and!; [by eexists|by eexists|]. apply Exists_cons_hd. reflexivity.
  - eexists. split; [vm_compute; reflexivity|]. split; [reflexivity|].
    rewrite (Hprofiles _ ltac:(vm_compute; reflexivity)). vm_compute. reflexivity.
Defined.

(** X14 on the two rasters [topo] and [bedrock]. *)
Lemma raster_main_completes_witness :
  completed (RasterProfiles.main (arcpy := Planar.platform) raster_params [line_A]).
Proof.
  apply (proj1 (raster_main_completes_iff (arcpy := Planar.platform) raster_params [line_A]
                  ltac:(apply (bool_decide_unpack _); vm_compute; exact I))).
  split_and!.
  - apply (proj1 (reserved_none "et_id")). vm_compute. reflexivity.
  - reflexivity.
  - repeat constructor.
Defined.
